(** * The document-processing pipeline of the legal-document summariser

    A shallow embedding of the Express back end: backend/index.js and
    backend/routes/documents.js over the schema their handlers
    presuppose, and the anonymous predecessor of index.js over the schema
    that is in the sources.  The Mongoose collection of documents is a
    finite map from ObjectIds to records, the upload directory is a
    finite set of paths, and everything the server cannot decide itself
    (the clock, the random suffix, whether a database call rejects, what
    the NLP service and the translation service answer, the order in
    which concurrent computations go on) is read from an explicit
    [Oracle].  A handler takes the authenticated user ([req.user._id]) as
    an argument and runs to its end before the next request is served. *)

From Stdlib Require Import Ascii.
From stdpp Require Import gmap strings list fin_maps sorting pretty.

Open Scope string_scope.

(** ** JavaScript values *)

(** JSON-like values as the server handles them: request bodies, the NLP
    service's answer, the [summary] and [error] fields, response bodies.
    An object is the list of its own entries in [Object.entries] order. *)
#[local] Unset Elimination Schemes.
Inductive jsval : Type :=
| JUndefined
| JNull
| JBool (b : bool)
| JNum (n : Z)
| JStr (s : string)
| JArr (items : list jsval)
| JObj (entries : list (string * jsval)).
#[local] Set Elimination Schemes.

(** Induction over values, with the hypothesis for every element of an
    array and every entry of an object. *)
Section jsval_induction.
Variable P : jsval → Prop.
Hypothesis Hundefined : P JUndefined.
Hypothesis Hnull : P JNull.
Hypothesis Hbool : ∀ b, P (JBool b).
Hypothesis Hnum : ∀ n, P (JNum n).
Hypothesis Hstr : ∀ s, P (JStr s).
Hypothesis Harr : ∀ items, Forall P items → P (JArr items).
Hypothesis Hobj : ∀ es, Forall (λ kv, P kv.2) es → P (JObj es).

Fixpoint jsval_ind (v : jsval) : P v :=
  match v with
  | JUndefined => Hundefined
  | JNull => Hnull
  | JBool b => Hbool b
  | JNum n => Hnum n
  | JStr s => Hstr s
  | JArr items =>
      Harr items
        ((fix all (l : list jsval) : Forall P l :=
            match l with
            | [] => List.Forall_nil P
            | x :: l' => List.Forall_cons P x l' (jsval_ind x) (all l')
            end) items)
  | JObj es =>
      Hobj es
        ((fix all (l : list (string * jsval)) : Forall (λ kv, P kv.2) l :=
            match l with
            | [] => List.Forall_nil _
            | kv :: l' =>
                List.Forall_cons (λ kv, P kv.2) kv l' (jsval_ind kv.2) (all l')
            end) es)
  end.
End jsval_induction.

(** An awaited promise: fulfilled with a value, or rejected with an
    [Error] whose [message] is kept. *)
Inductive result (A : Type) : Type :=
| Ok (a : A)
| Throw (message : string).
Arguments Ok {A} a.
Arguments Throw {A} message.

(** [!v] is [negb (truthy v)]. *)
Definition truthy (v : jsval) : bool :=
  match v with
  | JUndefined | JNull => false
  | JBool b => b
  | JNum n => negb (n =? 0)%Z
  | JStr s => negb (String.eqb s "")
  | JArr _ | JObj _ => true
  end.

(** [typeof v === 'string'] *)
Definition is_string (v : jsval) : bool :=
  match v with JStr _ => true | _ => false end.

Fixpoint assoc (k : string) (es : list (string * jsval)) : option jsval :=
  match es with
  | [] => None
  | (k', v) :: es' => if String.eqb k k' then Some v else assoc k es'
  end.

(** An own entry written into a list of entries: overwritten in place
    when the key is there, appended otherwise. *)
Fixpoint own_set (es : list (string * jsval)) (k : string) (v : jsval)
  : list (string * jsval) :=
  match es with
  | [] => [(k, v)]
  | (k', v') :: es' =>
      if String.eqb k k' then (k, v) :: es' else (k', v') :: own_set es' k v
  end.

(** [obj[k] = v] on an object that started as the literal [{}]: an own
    entry, except under the key [__proto__], which is an accessor of
    [Object.prototype]: assigning under it makes no own entry (it changes
    the prototype when [v] is an object or [null], which no reader of the
    server observes: answers are written with [JSON.stringify]). *)
Definition obj_set (es : list (string * jsval)) (k : string) (v : jsval)
  : list (string * jsval) :=
  if String.eqb k "__proto__" then es else own_set es k v.

(** Property read [v.k] for the keys the server reads ([summary], [text],
    [targetLanguage]): a [TypeError] on [null] and [undefined], the own
    entry on an object, [undefined] on everything else. *)
Definition get_prop (v : jsval) (k : string) : result jsval :=
  match v with
  | JUndefined | JNull => Throw "Cannot read properties of undefined"
  | JObj es => Ok (default JUndefined (assoc k es))
  | _ => Ok JUndefined
  end.

(** ** The Document model (models/Document) *)

Inductive Status : Type := uploaded | processing | completed | failed.

Global Instance Status_eq_dec : EqDecision Status.
Proof. solve_decision. Defined.

Definition Status_to_string (s : Status) : string :=
  match s with
  | uploaded => "uploaded"
  | processing => "processing"
  | completed => "completed"
  | failed => "failed"
  end.

Definition ObjectId : Type := N.
Definition UserId : Type := N.

(** Modelled from the spec: the schema that index.js and
    routes/documents.js run with.  Their queries filter on [user] and
    their answers read [error] and [summary.key_points]; the one schema
    file in the sources is that of the anonymous predecessor, which has
    none of these paths and a String for [summary] (it is embedded as it
    stands in [Anonymous] below).  Here the record has the paths of that
    file with its defaults, the owner and the error of the spec's data
    model, and the uploader's address; [summary] and [error] take any
    value the handlers assign to them ([undefined] when nothing was
    assigned), so that [save()] stores the document as it stands in
    memory.  Timestamps are milliseconds. *)
Record Document : Type := mkDocument {
  _id : ObjectId;
  filename : string;
  originalName : string;
  path : string;
  size : N;
  mimetype : string;
  uploaderIp : string;
  user : UserId;
  summary : jsval;
  status : Status;
  uploadedAt : Z;
  processedAt : option Z;
  error : jsval
}.

Definition set_status (s : Status) (d : Document) : Document :=
  mkDocument (_id d) (filename d) (originalName d) (path d) (size d)
    (mimetype d) (uploaderIp d) (user d) (summary d) s (uploadedAt d)
    (processedAt d) (error d).

Definition set_summary (v : jsval) (d : Document) : Document :=
  mkDocument (_id d) (filename d) (originalName d) (path d) (size d)
    (mimetype d) (uploaderIp d) (user d) v (status d) (uploadedAt d)
    (processedAt d) (error d).

Definition set_processedAt (t : Z) (d : Document) : Document :=
  mkDocument (_id d) (filename d) (originalName d) (path d) (size d)
    (mimetype d) (uploaderIp d) (user d) (summary d) (status d) (uploadedAt d)
    (Some t) (error d).

Definition set_error (v : jsval) (d : Document) : Document :=
  mkDocument (_id d) (filename d) (originalName d) (path d) (size d)
    (mimetype d) (uploaderIp d) (user d) (summary d) (status d) (uploadedAt d)
    (processedAt d) v.

(** ** The environment of one request *)

(** What one request observes of the outside world.  [create_error] is
    the rejection message of the handler's own first [save()] of a new
    document, [find_error n] the one of the n-th query issued while the
    request is served and [save_error n] the one of the n-th [save()] of
    the orchestrator run ([None]: the call succeeds).  [schedule] and
    [race] settle what the event loop and the network leave open while
    the computations started under one [Promise.all] are in progress:
    [schedule running] is the position, among the computations that have
    more to send, of the one that goes on next, and [race messages] the
    position, among the rejections met under one [Promise.all], of the
    one that comes first in time; both are read modulo the length of
    their argument. *)
Record Oracle : Type := mkOracle {
  now : Z;
  random : N;
  create_error : option string;
  find_error : nat → option string;
  save_error : nat → option string;
  nlp_response : option jsval;
  google_translate : string → string → result string;
  schedule : list (list (list string)) → nat;
  race : list string → nat
}.

(** [await document.save()]: writes the whole in-memory document under its
    [_id], or rejects and leaves the collection as it was. *)
Definition save (o : Oracle) (n : nat) (db : gmap ObjectId Document)
    (document : Document) : result (gmap ObjectId Document) :=
  match save_error o n with
  | Some message => Throw message
  | None => Ok (<[_id document := document]> db)
  end.

(** [await Document.findById(id)] *)
Definition findById (o : Oracle) (n : nat) (db : gmap ObjectId Document)
    (id : ObjectId) : result (option Document) :=
  match find_error o n with
  | Some message => Throw message
  | None => Ok (db !! id)
  end.

(** [await Document.findOne({ _id: id, user: u })] *)
Definition findOne (o : Oracle) (n : nat) (db : gmap ObjectId Document)
    (id : ObjectId) (u : UserId) : result (option Document) :=
  match find_error o n with
  | Some message => Throw message
  | None =>
      match db !! id with
      | Some d => if decide (user d = u) then Ok (Some d) else Ok None
      | None => Ok None
      end
  end.

(** ** Requests, responses and the server state *)

Record Response : Type := mkResponse {
  code : nat;
  body : jsval
}.

(** [error.message || fallback] *)
Definition message_or (message fallback : string) : string :=
  if String.eqb message "" then fallback else message.

(** The server state: the documents collection and the files on disk. *)
Record State : Type := mkState {
  db : gmap ObjectId Document;
  fs : gset string
}.

(** The multipart part named [document] as multer sees it. *)
Module Part.
Record t : Type := mk {
  originalname : string;
  mimetype : string;
  size : N
}.
End Part.

(** multer's [req.file] once the part is on disk. *)
Module File.
Record t : Type := mk {
  filename : string;
  originalname : string;
  path : string;
  size : N;
  mimetype : string
}.
End File.

(** [path.extname] of a name without trailing separators: from the last
    dot of the last path component, empty when there is no dot, when the
    component starts with its only dot, or when it is [".."]. *)
Fixpoint after_last (c : ascii) (s : list ascii) (acc : option (list ascii))
  : option (list ascii) :=
  match s with
  | [] => acc
  | x :: s' =>
      if Ascii.eqb x c then after_last c s' (Some s') else after_last c s' acc
  end.

Definition extname (p : string) : string :=
  let chars := String.list_ascii_of_string p in
  let base := default chars (after_last "/"%char chars None) in
  match after_last "."%char base None with
  | None => ""
  | Some ext =>
      if bool_decide (length ext + 1 = length base)%nat
         || bool_decide (base = ["."%char; "."%char])
      then ""
      else String.string_of_list_ascii ("."%char :: ext)
  end.

(** The [limits.fileSize] of every multer configuration: 20 MB. *)
Definition fileSize : N := 20 * 1024 * 1024.

(** [multer(...).single('document')] over [diskStorage]: no part leaves
    [req.file] undefined; a part the filter refuses, or one whose length
    reaches [fileSize] (the parser under multer raises its limit event as
    soon as the bytes read reach the limit, so a part of exactly
    [fileSize] bytes is refused as well), ends the request with an error
    before the route handler runs and leaves nothing on disk; otherwise
    the part is stored under [uploads/].  A part is a file part as multer
    takes it up, with a file name that is not empty. *)
Definition single (fileFilter : Part.t → result bool)
    (filename : Oracle → Part.t → string)
    (o : Oracle) (part : option Part.t) (files : gset string)
  : result (option File.t) * gset string :=
  match part with
  | None => (Ok None, files)
  | Some file =>
      match fileFilter file with
      | Throw e => (Throw e, files)
      | Ok false => (Ok None, files)
      | Ok true =>
          if (fileSize <=? Part.size file)%N then (Throw "File too large", files)
          else
            let name := filename o file in
            let stored := "uploads/" +:+ name in
            (Ok (Some (File.mk name (Part.originalname file) stored
                               (Part.size file) (Part.mimetype file))),
             {[stored]} ∪ files)
      end
  end.

(** The [_id] that [new Document({...})] draws: ObjectIds are unique, so
    it is one that no record of the collection has. *)
Definition new_id (db : gmap ObjectId Document) : ObjectId := fresh (dom db).

(** The application-level error middleware of index.js. *)
Definition error_middleware (e : string) : Response :=
  mkResponse 500 (JObj [("success", JBool false);
                        ("error", JStr (message_or e "Something broke!"))]).

Definition not_found : Response :=
  mkResponse 404 (JObj [("success", JBool false);
                        ("error", JStr "Document not found")]).

Definition JDate (t : option Z) : jsval :=
  match t with Some ms => JNum ms | None => JUndefined end.

Definition JId (id : ObjectId) : jsval := JNum (Z.of_N id).

(** * backend/index.js *)
Module Index.

(** ** Summarization dispatcher *)

(** [callPythonService]: [nlp_response] is the body of a successful
    [axios.post] ([None]: the call failed); whatever goes wrong inside the
    [try], the caller sees one fixed message. *)
Definition callPythonService (o : Oracle) (filePath mimetype : string)
  : result jsval :=
  match nlp_response o with
  | Some data =>
      match get_prop data "summary" with
      | Ok s => Ok s
      | Throw _ => Throw "Failed to process document with NLP service"
      end
  | None => Throw "Failed to process document with NLP service"
  end.

(** ** Processing orchestrator *)

(** How a run of [processDocument] ends: the collection, the documents it
    wrote (oldest first), and the rejection message when the promise
    rejects. *)
Record Run : Type := mkRun {
  run_db : gmap ObjectId Document;
  run_writes : list Document;
  run_rejected : option string
}.

(** The "Ensure summary is properly structured" block. *)
Definition structured (summary : jsval) : jsval :=
  if is_string summary
  then JObj [("key_points", JArr [summary]);
             ("tables", JArr []);
             ("highlights", JArr [])]
  else summary.

(** The [catch] block of [processDocument] when [document] was loaded:
    [document] is the in-memory document as the [try] block left it, [db]
    the collection and [ws] the writes so far, [n] the index of the next
    [save()]. *)
Definition processDocument_catch (o : Oracle) (n : nat)
    (db : gmap ObjectId Document) (ws : list Document)
    (document : Document) (message : string) : Run :=
  let document := set_status failed document in
  let document := set_error (JStr message) document in
  match save o n db document with
  | Ok db' => mkRun db' (ws ++ [document]) None
  | Throw e => mkRun db ws (Some e)
  end.

Definition processDocument (o : Oracle) (db : gmap ObjectId Document)
    (documentId : ObjectId) : Run :=
  match findById o 0 db documentId with
  | Throw _ => mkRun db [] None
  | Ok None => mkRun db [] None
  | Ok (Some document) =>
      let document := set_status processing document in
      match save o 0 db document with
      | Throw e => processDocument_catch o 1 db [] document e
      | Ok db1 =>
          let ws := [document] in
          match callPythonService o (path document) (mimetype document) with
          | Throw e => processDocument_catch o 1 db1 ws document e
          | Ok summary =>
              let document := set_summary (structured summary) document in
              let document := set_status completed document in
              let document := set_processedAt (now o) document in
              match save o 1 db1 document with
              | Throw e => processDocument_catch o 2 db1 ws document e
              | Ok db2 => mkRun db2 (ws ++ [document]) None
              end
          end
      end
  end.

(** ** Translation adapter (POST /api/translate) *)

(** A computation that talks to the translation service: how it settles,
    and the texts it hands to the service, in bursts.  A burst is what is
    sent in one uninterrupted run of the computation, up to its next
    [await]; between two bursts other computations may run. *)
Definition T (A : Type) : Type := result A * list (list string).

Definition ret {A} (a : A) : T A := (Ok a, []).

Definition throw {A} (message : string) : T A := (Throw message, []).

Definition bind {A B} (m : T A) (k : A → T B) : T B :=
  match m with
  | (Ok a, bursts) => let '(r, bursts') := k a in (r, (bursts ++ bursts')%list)
  | (Throw e, bursts) => (Throw e, bursts)
  end.

(** [await p] for the promise [p] of an [async] function called on the
    spot: the function runs up to its own first [await] as part of the
    caller's run, and the caller is suspended even when the function has
    returned without being suspended itself. *)
Definition await {A} (p : T A) : T A :=
  match p with
  | (r, []) => (r, [[]])
  | _ => p
  end.

(** [const { text: translated } = await translate(text, { to: target })] *)
Definition translate (o : Oracle) (target : string) (text : string)
  : T jsval :=
  (match google_translate o text target with
   | Ok translated => Ok (JStr translated)
   | Throw e => Throw e
   end, [[text]]).

(** The bursts of computations that are in progress side by side, in the
    order in which [schedule] lets them go on: each step takes the next
    burst of the computation chosen among those that have one left.
    Every order in which the event loop and the network can resume the
    computations is the order under some [schedule]. *)
Fixpoint interleave (o : Oracle) (fuel : nat)
    (running : list (list (list string))) : list (list string) :=
  match fuel with
  | O => []
  | S fuel' =>
      let live := filter (λ bursts, bursts ≠ []) running in
      let i := (schedule o live `mod` length live)%nat in
      match live !! i with
      | Some (burst :: rest) => burst :: interleave o fuel' (<[i := rest]> live)
      | _ => []
      end
  end.

(** How [Promise.all] settles on promises that settle as [rs]: fulfilled
    with the values in their positions when none rejects, and rejected
    with the rejection that comes first in time otherwise. *)
Definition settle {A} (o : Oracle) (rs : list (result A)) : result (list A) :=
  match omap (λ r, match r with Throw e => Some e | Ok _ => None end) rs with
  | [] => Ok (omap (λ r, match r with Ok a => Some a | Throw _ => None end) rs)
  | messages =>
      Throw (default "" (messages !! (race o messages `mod` length messages)%nat))
  end.

(** [await Promise.all(value.map(async item => ...))]: [map] starts the
    computations one after the other, each running up to its first
    [await], so their first bursts make one burst, in the order of the
    elements; then the caller is suspended and the computations go on
    side by side.  A rejection rejects the whole at once, while the other
    computations go on to their ends. *)
Definition Promise_all {A} (o : Oracle) (ps : list (T A)) : T (list A) :=
  let started := concat (map (λ p : T A, default [] (head p.2)) ps) in
  let running := map (λ p : T A, tail p.2) ps in
  (settle o (map fst ps),
   started :: interleave o (length (concat running)) running).

(** The [for (const [key, value] of Object.entries(obj))] loop over the
    entries, each with the computation of its translated value. *)
Fixpoint for_of (entries : list (string * T jsval))
    (translated : list (string * jsval)) : T jsval :=
  match entries with
  | [] => ret (JObj translated)
  | (key, m) :: rest =>
      bind m (λ v, for_of rest (obj_set translated key v))
  end.

(** The entries of an array-like value: element [x] at index [i] is the
    entry keyed by the decimal writing of [i]. *)
Fixpoint indexed {A B} (f : nat → A → B) (i : nat) (l : list A) : list B :=
  match l with
  | [] => []
  | x :: l' => f i x :: indexed f (S i) l'
  end.

(** The body of the loop of [translateObject]: the translated value of
    one entry.  An array is mapped element by element under one
    [Promise.all], strings being translated and everything else handed to
    [translateObject] (here [self]); an object is handed to [self] and
    awaited; a string is translated; anything else ([null] included) is
    kept, without an [await]. *)
Definition field (self : jsval → T jsval) (o : Oracle) (target : string)
    (value : jsval) : T jsval :=
  match value with
  | JArr items =>
      bind (Promise_all o (map (λ item,
              match item with
              | JStr s => translate o target s
              | _ => self item
              end) items))
           (λ l, ret (JArr l))
  | JObj _ => await (self value)
  | JStr s => translate o target s
  | _ => ret value
  end.

(** [translateObject]: [Object.entries] of an object is its entries, of
    an array (or a string) its elements keyed by their indices, of a
    number or boolean nothing, and throws on [null] and [undefined]. *)
Fixpoint translateObject (o : Oracle) (target : string) (obj : jsval)
    {struct obj} : T jsval :=
  match obj with
  | JObj es =>
      for_of (map (λ kv, (kv.1, field (translateObject o target) o target kv.2))
                  es) []
  | JArr items =>
      for_of (indexed (λ i v, (pretty i,
                               field (translateObject o target) o target v))
                      0 items) []
  | JStr s =>
      for_of (indexed (λ i c, (pretty i, translate o target (String c "")))
                      0 (String.list_ascii_of_string s)) []
  | JBool _ | JNum _ => ret (JObj [])
  | JNull | JUndefined => throw "Cannot convert undefined or null to object"
  end.

(** The handler of POST /api/translate for an authenticated request with
    JSON body [reqbody]: the answer, and the texts handed to the
    translation service on behalf of the request, in the order of the
    calls (the calls of computations that a rejected [Promise.all] has
    left behind included). *)
Definition POST_translate (o : Oracle) (reqbody : jsval)
  : Response * list string :=
  let failure (e : string) :=
    mkResponse 500 (JObj [("success", JBool false);
                          ("error", JStr (message_or e "Translation failed"))]) in
  match get_prop reqbody "text", get_prop reqbody "targetLanguage" with
  | Ok text, Ok targetLanguage =>
      if negb (truthy text) then
        (mkResponse 400 (JObj [("success", JBool false);
                               ("error", JStr "No text provided for translation")]),
         [])
      else
        let target :=
          match targetLanguage with
          | JStr "hindi" => "hi"
          | _ => "en"
          end in
        let '(r, bursts) :=
          match text with
          | JStr s => translate o target s
          | _ => await (translateObject o target text)
          end in
        match r with
        | Ok translatedText =>
            (mkResponse 200 (JObj [("success", JBool true);
                                   ("translatedText", translatedText)]),
             concat bursts)
        | Throw e => (failure e, concat bursts)
        end
  | Throw e, _ => (failure e, [])
  | _, Throw e => (failure e, [])
  end.

(** ** Ingress handler (POST /api/upload) *)

Definition allowedTypes : list string :=
  ["application/pdf";
   "application/vnd.openxmlformats-officedocument.wordprocessingml.document";
   "text/plain"].

Definition fileFilter (file : Part.t) : result bool :=
  if bool_decide (Part.mimetype file ∈ allowedTypes) then Ok true
  else Throw "Invalid file type. Only PDF, DOCX, and TXT files are allowed.".

Definition filename (o : Oracle) (file : Part.t) : string :=
  let uniqueSuffix := pretty (now o) +:+ "-" +:+ pretty (random o) in
  uniqueSuffix +:+ extname (Part.originalname file).

Definition upload := single fileFilter filename.

(** The object sent for a document by the upload and fetch handlers. *)
Definition document_json (d : Document) : jsval :=
  JObj [("id", JId (_id d));
        ("originalName", JStr (originalName d));
        ("status", JStr (Status_to_string (status d)));
        ("summary", summary d);
        ("uploadedAt", JNum (uploadedAt d));
        ("processedAt", JDate (processedAt d));
        ("error", error d)].

Definition POST_upload (o : Oracle) (u : UserId) (ip : string)
    (part : option Part.t) (st : State) : Response * State :=
  let server_error (e : string) :=
    mkResponse 500 (JObj [("success", JBool false);
                          ("error", JStr (message_or e "Server error during upload"))]) in
  match upload o part (fs st) with
  | (Throw e, files) => (error_middleware e, mkState (db st) files)
  | (Ok None, files) =>
      (mkResponse 400 (JObj [("success", JBool false);
                             ("error", JStr "No file uploaded")]),
       mkState (db st) files)
  | (Ok (Some file), files) =>
      let document :=
        mkDocument (new_id (db st)) (File.filename file)
          (File.originalname file) (File.path file) (File.size file)
          (File.mimetype file) ip u (JStr "") uploaded (now o) None
          JUndefined in
      match create_error o with
      | Some e => (server_error e, mkState (db st) files)
      | None =>
          let db1 := <[_id document := document]> (db st) in
          let r := processDocument o db1 (_id document) in
          match run_rejected r with
          | Some e => (server_error e, mkState (run_db r) files)
          | None =>
              match findById o 1 (run_db r) (_id document) with
              | Throw e => (server_error e, mkState (run_db r) files)
              | Ok None =>
                  (server_error "Cannot read properties of null",
                   mkState (run_db r) files)
              | Ok (Some updatedDocument) =>
                  (mkResponse 201
                     (JObj [("success", JBool true);
                            ("message", JStr "File uploaded and processed successfully.");
                            ("documentId", JId (_id document));
                            ("status", JStr (Status_to_string (status updatedDocument)));
                            ("document", document_json updatedDocument)]),
                   mkState (run_db r) files)
              end
          end
      end
  end.

(** ** Status and result queries *)

Definition server_error : Response :=
  mkResponse 500 (JObj [("success", JBool false); ("error", JStr "Server error")]).

(** GET /api/document/:id *)
Definition GET_document (o : Oracle) (u : UserId) (id : ObjectId)
    (st : State) : Response :=
  match findOne o 0 (db st) id u with
  | Throw _ => server_error
  | Ok None => not_found
  | Ok (Some document) =>
      mkResponse 200 (JObj [("success", JBool true);
                            ("document", document_json document)])
  end.

(** GET /api/document/:id/status *)
Definition GET_status (o : Oracle) (u : UserId) (id : ObjectId)
    (st : State) : Response :=
  match findOne o 0 (db st) id u with
  | Throw _ => server_error
  | Ok None => not_found
  | Ok (Some document) =>
      mkResponse 200 (JObj [("success", JBool true);
                            ("status", JStr (Status_to_string (status document)));
                            ("error", error document)])
  end.

(** [.sort('-uploadedAt')]: later uploads first. *)
Definition newer (d1 d2 : Document) : Prop := (uploadedAt d2 ≤ uploadedAt d1)%Z.

Global Instance newer_dec d1 d2 : Decision (newer d1 d2).
Proof. unfold newer. apply _. Defined.

(** [Document.find({ user, status: 'completed' }).sort(..).limit(20)] *)
Definition find_completed (u : UserId) (docs : gmap ObjectId Document)
  : list Document :=
  take 20 (merge_sort newer
             (filter (λ d, user d = u ∧ status d = completed)
                     (map_to_list docs).*2)).

Definition summary_json (doc : Document) : jsval :=
  JObj [("_id", JId (_id doc));
        ("title", JStr (originalName doc));
        ("summary", summary doc);
        ("createdAt", JNum (default (uploadedAt doc) (processedAt doc)))].

(** GET /api/summaries *)
Definition GET_summaries (o : Oracle) (u : UserId) (st : State) : Response :=
  match find_error o 0 with
  | Some _ =>
      mkResponse 500 (JObj [("success", JBool false);
                            ("error", JStr "Failed to fetch summaries")])
  | None =>
      let documents := find_completed u (db st) in
      mkResponse 200 (JObj [("summaries", JArr (map summary_json documents))])
  end.

End Index.

(** * backend/routes/documents.js *)
Module Routes.

Definition allowedTypes : list string :=
  ["application/pdf";
   "application/msword";
   "application/vnd.openxmlformats-officedocument.wordprocessingml.document";
   "text/plain"].

Definition fileFilter (file : Part.t) : result bool :=
  if bool_decide (Part.mimetype file ∈ allowedTypes) then Ok true
  else Throw "Invalid file type. Only PDF, DOC, DOCX, and TXT files are allowed.".

Definition filename (o : Oracle) (file : Part.t) : string :=
  let uniqueSuffix := pretty (now o) +:+ "-" +:+ pretty (random o) in
  uniqueSuffix +:+ "-" +:+ Part.originalname file.

Definition upload := single fileFilter filename.

(** POST /upload.  The orchestrator of this variant lives in
    services/documentService and is started without being awaited: the
    handler's own effect is the new record, and the third component is the
    id whose processing it has started.  ([documentType] is stored as
    well; no handler here reads it back.) *)
Definition POST_upload (o : Oracle) (u : UserId) (part : option Part.t)
    (st : State) : Response * State * option ObjectId :=
  match upload o part (fs st) with
  | (Throw e, files) => (error_middleware e, mkState (db st) files, None)
  | (Ok None, files) =>
      (mkResponse 400 (JObj [("success", JBool false);
                             ("error", JStr "No file uploaded")]),
       mkState (db st) files, None)
  | (Ok (Some file), files) =>
      let document :=
        mkDocument (new_id (db st)) (File.filename file)
          (File.originalname file) (File.path file) (File.size file)
          (File.mimetype file) "" u (JStr "") uploaded (now o) None
          JUndefined in
      match create_error o with
      | Some _ =>
          (mkResponse 500 (JObj [("success", JBool false);
                                 ("error", JStr "Failed to upload document")]),
           mkState (db st) files, None)
      | None =>
          (mkResponse 201 (JObj [("success", JBool true);
                                 ("documentId", JId (_id document));
                                 ("message", JStr "Document uploaded successfully")]),
           mkState (<[_id document := document]> (db st)) files,
           Some (_id document))
      end
  end.

(** GET /:id/status *)
Definition GET_status (o : Oracle) (u : UserId) (id : ObjectId)
    (st : State) : Response :=
  match findOne o 0 (db st) id u with
  | Throw _ =>
      mkResponse 500 (JObj [("success", JBool false);
                            ("error", JStr "Failed to check document status")])
  | Ok None => not_found
  | Ok (Some document) =>
      mkResponse 200 (JObj [("success", JBool true);
                            ("status", JStr (Status_to_string (status document)));
                            ("error", error document)])
  end.

(** DELETE /:id: [findOneAndDelete({ _id, user })], then the answer. *)
Definition DELETE_document (o : Oracle) (u : UserId) (id : ObjectId)
    (st : State) : Response * State :=
  match findOne o 0 (db st) id u with
  | Throw _ =>
      (mkResponse 500 (JObj [("success", JBool false);
                             ("error", JStr "Failed to delete document")]),
       st)
  | Ok None => (not_found, st)
  | Ok (Some document) =>
      (mkResponse 200 (JObj [("success", JBool true);
                             ("message", JStr "Document deleted successfully")]),
       mkState (delete id (db st)) (fs st))
  end.

End Routes.

(** * The anonymous predecessor of index.js (unnamed/part_003) *)
Module Anonymous.

(** The schema of unnamed/part_004, the model this variant requires: a
    record as a query reads it back.  [summary] is a String path ([None]
    is [null]; a record stored without the field reads as the default,
    the empty string).  The schema has no path for an error, for an owner
    or for the uploader's address: the strict schema drops these from
    [new Document({...})], and what is assigned under such a name on a
    loaded document is a property of that object only. *)
Record Document : Type := mkDocument {
  _id : ObjectId;
  filename : string;
  originalName : string;
  path : string;
  size : N;
  mimetype : string;
  summary : option string;
  status : Status;
  uploadedAt : Z;
  processedAt : option Z
}.

(** A document in memory: the values of its paths, the value that could
    not be cast to its String path (the cast error stays on the document
    and fails every validation from then on), and the property [error]. *)
Record Loaded : Type := mkLoaded {
  fields : Document;
  refused : option jsval;
  error : jsval
}.

(** Mongoose's cast of a value assigned to a String path: [null] and
    [undefined] pass, an object with a string [_id] stands for that
    string, strings, numbers and booleans are written with [toString()],
    and every other object and every array is a cast error ([None]). *)
Definition castString (value : jsval) : option jsval :=
  match value with
  | JUndefined | JNull => Some value
  | JStr s => Some (JStr s)
  | JNum n => Some (JStr (pretty n))
  | JBool b => Some (JStr (if b then "true" else "false"))
  | JArr _ => None
  | JObj es =>
      match assoc "_id" es with
      | Some (JStr id) => if String.eqb id "" then None else Some (JStr id)
      | _ => None
      end
  end.

(** What a query reads back for a String path with default [''] that was
    saved holding [v]: an [undefined] path is stored without the field. *)
Definition read_back (v : jsval) : option string :=
  match v with
  | JStr s => Some s
  | JNull => None
  | _ => Some ""
  end.

Definition set_status (s : Status) (document : Loaded) : Loaded :=
  let d := fields document in
  mkLoaded
    (mkDocument (_id d) (filename d) (originalName d) (path d) (size d)
       (mimetype d) (summary d) s (uploadedAt d) (processedAt d))
    (refused document) (error document).

(** [document.summary = value]: the cast value is set, or the value is
    refused and the path keeps what it held. *)
Definition set_summary (value : jsval) (document : Loaded) : Loaded :=
  let d := fields document in
  match castString value with
  | Some v =>
      mkLoaded
        (mkDocument (_id d) (filename d) (originalName d) (path d) (size d)
           (mimetype d) (read_back v) (status d) (uploadedAt d)
           (processedAt d))
        None (error document)
  | None => mkLoaded d (Some value) (error document)
  end.

Definition set_processedAt (t : Z) (document : Loaded) : Loaded :=
  let d := fields document in
  mkLoaded
    (mkDocument (_id d) (filename d) (originalName d) (path d) (size d)
       (mimetype d) (summary d) (status d) (uploadedAt d) (Some t))
    (refused document) (error document).

(** [document.error = value]: no path of the schema. *)
Definition set_error (value : jsval) (document : Loaded) : Loaded :=
  mkLoaded (fields document) (refused document) value.

(** [await document.save()]: validation comes first and rejects, with
    the message [refusal v] of Mongoose's validation error, while a value
    [v] stands refused; otherwise the paths are written under the [_id],
    or the write rejects and leaves the collection as it was. *)
Definition save (refusal : jsval → string) (o : Oracle) (n : nat)
    (db : gmap ObjectId Document) (document : Loaded)
  : result (gmap ObjectId Document) :=
  match refused document with
  | Some v => Throw (refusal v)
  | None =>
      match save_error o n with
      | Some message => Throw message
      | None => Ok (<[_id (fields document) := fields document]> db)
      end
  end.

(** [await Document.findById(id)] *)
Definition findById (o : Oracle) (n : nat) (db : gmap ObjectId Document)
    (id : ObjectId) : result (option Loaded) :=
  match find_error o n with
  | Some message => Throw message
  | None => Ok ((λ d, mkLoaded d None JUndefined) <$> db !! id)
  end.

(** [callPythonService] is, line for line, the one of index.js. *)
Definition callPythonService := Index.callPythonService.

Record Run : Type := mkRun {
  run_db : gmap ObjectId Document;
  run_writes : list Document;
  run_rejected : option string
}.

(** The [catch] block of [processDocument] when [document] was loaded. *)
Definition processDocument_catch (refusal : jsval → string) (o : Oracle)
    (n : nat) (db : gmap ObjectId Document) (ws : list Document)
    (document : Loaded) (message : string) : Run :=
  let document := set_status failed document in
  let document := set_error (JStr message) document in
  match save refusal o n db document with
  | Ok db' => mkRun db' (ws ++ [fields document]) None
  | Throw e => mkRun db ws (Some e)
  end.

(** [processDocument], line for line the one of index.js, here on
    documents of the schema above. *)
Definition processDocument (refusal : jsval → string) (o : Oracle)
    (db : gmap ObjectId Document) (documentId : ObjectId) : Run :=
  match findById o 0 db documentId with
  | Throw _ => mkRun db [] None
  | Ok None => mkRun db [] None
  | Ok (Some document) =>
      let document := set_status processing document in
      match save refusal o 0 db document with
      | Throw e => processDocument_catch refusal o 1 db [] document e
      | Ok db1 =>
          let ws := [fields document] in
          match callPythonService o (path (fields document))
                  (mimetype (fields document)) with
          | Throw e => processDocument_catch refusal o 1 db1 ws document e
          | Ok summary =>
              let document := set_summary (Index.structured summary) document in
              let document := set_status completed document in
              let document := set_processedAt (now o) document in
              match save refusal o 1 db1 document with
              | Throw e => processDocument_catch refusal o 2 db1 ws document e
              | Ok db2 => mkRun db2 (ws ++ [fields document]) None
              end
          end
      end
  end.

(** The storage, the filter and the limits are those of index.js. *)
Definition upload := Index.upload.

(** POST /api/upload.  The orchestrator is started and not awaited: the
    handler's own effect is the new record, answered with the status it
    has in memory, and the last component is the id whose processing has
    been started. *)
Definition POST_upload (o : Oracle) (part : option Part.t)
    (db : gmap ObjectId Document) (files : gset string)
  : Response * gmap ObjectId Document * gset string * option ObjectId :=
  match upload o part files with
  | (Throw e, files) => (error_middleware e, db, files, None)
  | (Ok None, files) =>
      (mkResponse 400 (JObj [("success", JBool false);
                             ("error", JStr "No file uploaded")]),
       db, files, None)
  | (Ok (Some file), files) =>
      let document :=
        mkDocument (fresh (dom db)) (File.filename file)
          (File.originalname file) (File.path file) (File.size file)
          (File.mimetype file) (Some "") uploaded (now o) None in
      match create_error o with
      | Some e =>
          (mkResponse 500
             (JObj [("success", JBool false);
                    ("error", JStr (message_or e "Server error during upload"))]),
           db, files, None)
      | None =>
          (mkResponse 201
             (JObj [("success", JBool true);
                    ("message", JStr "File uploaded successfully. Processing started.");
                    ("documentId", JId (_id document));
                    ("status", JStr (Status_to_string (status document)))]),
           <[_id document := document]> db, files, Some (_id document))
      end
  end.

(** The object sent for a loaded document. *)
Definition document_json (document : Loaded) : jsval :=
  let d := fields document in
  JObj [("id", JId (_id d));
        ("originalName", JStr (originalName d));
        ("status", JStr (Status_to_string (status d)));
        ("summary", match summary d with Some s => JStr s | None => JNull end);
        ("uploadedAt", JNum (uploadedAt d));
        ("processedAt", JDate (processedAt d));
        ("error", error document)].

(** GET /api/document/:id, open to every caller. *)
Definition GET_document (o : Oracle) (id : ObjectId)
    (db : gmap ObjectId Document) : Response :=
  match findById o 0 db id with
  | Throw _ => Index.server_error
  | Ok None => not_found
  | Ok (Some document) =>
      mkResponse 200 (JObj [("success", JBool true);
                            ("document", document_json document)])
  end.

End Anonymous.

(** * The service as a whole *)

(** The requests of an authenticated user that reach the document store:
    the routes of index.js, and the owner's removal of routes/documents.js. *)
Inductive Request : Type :=
| Upload (ip : string) (part : option Part.t)
| GetDocument (id : ObjectId)
| GetSummaries
| GetStatus (id : ObjectId)
| Translate (reqbody : jsval)
| Delete (id : ObjectId).

Definition handle (o : Oracle) (u : UserId) (req : Request) (st : State)
  : Response * State :=
  match req with
  | Upload ip part => Index.POST_upload o u ip part st
  | GetDocument id => (Index.GET_document o u id st, st)
  | GetSummaries => (Index.GET_summaries o u st, st)
  | GetStatus id => (Index.GET_status o u id st, st)
  | Translate reqbody => ((Index.POST_translate o reqbody).1, st)
  | Delete id => Routes.DELETE_document o u id st
  end.

(** * backend/routes/auth.js *)

(** Modelled from the spec: the User model (models/User), the credential
    store that the spec leaves outside.  A user is the record of the paths
    auth.js reads and writes; [password] is what the store keeps for it,
    and is [None] on a document fetched with [select('-password')]. *)
Module User.
Record t : Type := mk {
  _id : UserId;
  name : string;
  email : string;
  password : option string
}.
End User.

(** What the session handling takes from outside at the time of one
    request: [sign id] is [jwt.sign({ userId: id }, JWT_SECRET, ...)],
    [verify token] the [userId] of [jwt.verify(token, JWT_SECRET)] or its
    exception, [comparePassword] the method of that name of the User
    model, [toLowerCase] the string method, and [users_error] the
    rejection of the request's query on the users collection. *)
Record AuthEnv : Type := mkAuthEnv {
  sign : UserId → string;
  verify : string → result UserId;
  comparePassword : User.t → jsval → result bool;
  toLowerCase : string → string;
  users_error : option string
}.

(** What a handler does to the [token] cookie. *)
Inductive Cookie : Type :=
| KeepCookie
| SetToken (token : string)
| ClearToken.

Module Auth.

(** A response {error: message}. *)
Definition refusal (status : nat) (message : string) : Response :=
  mkResponse status (JObj [("error", JStr message)]).

(** [await User.findById(id).select('-password')] *)
Definition findById (a : AuthEnv) (users : gmap UserId User.t) (id : UserId)
  : result (option User.t) :=
  match users_error a with
  | Some message => Throw message
  | None =>
      Ok (match users !! id with
          | Some user =>
              Some (User.mk (User._id user) (User.name user)
                            (User.email user) None)
          | None => None
          end)
  end.

(** [await User.findOne({ email })]: the first user with this address. *)
Definition findOne (a : AuthEnv) (users : gmap UserId User.t) (email : string)
  : result (option User.t) :=
  match users_error a with
  | Some message => Throw message
  | None =>
      Ok (head (filter (λ user, User.email user = email)
                       (map_to_list users).*2))
  end.

(** The middleware [authenticateToken] on the value of [req.cookies.token]:
    a response that ends the request, or the [req.user] the next handler
    runs with. *)
Definition authenticateToken (a : AuthEnv) (users : gmap UserId User.t)
    (token : option string) : Response + User.t :=
  match token with
  | None | Some "" => inl (refusal 401 "Access denied. No token provided.")
  | Some token =>
      match verify a token with
      | Throw _ => inl (refusal 401 "Invalid token.")
      | Ok userId =>
          match findById a users userId with
          | Throw _ => inl (refusal 401 "Invalid token.")
          | Ok None => inl (refusal 401 "Invalid token.")
          | Ok (Some user) => inr user
          end
      end
  end.

(** POST /login *)
Definition POST_login (a : AuthEnv) (users : gmap UserId User.t)
    (reqbody : jsval) : Response * Cookie :=
  let failure := (refusal 500 "Error logging in", KeepCookie) in
  match get_prop reqbody "email", get_prop reqbody "password" with
  | Ok email, Ok password =>
      if negb (truthy email) || negb (truthy password) then
        (refusal 400 "Email and password are required", KeepCookie)
      else
        match email with
        | JStr address =>
            match findOne a users (toLowerCase a address) with
            | Throw _ => failure
            | Ok None => (refusal 401 "Invalid email or password", KeepCookie)
            | Ok (Some user) =>
                match comparePassword a user password with
                | Throw _ => failure
                | Ok false =>
                    (refusal 401 "Invalid email or password", KeepCookie)
                | Ok true =>
                    let token := sign a (User._id user) in
                    (mkResponse 200
                       (JObj [("message", JStr "Logged in successfully");
                              ("user",
                               JObj [("id", JId (User._id user));
                                     ("name", JStr (User.name user));
                                     ("email", JStr (User.email user))])]),
                     SetToken token)
                end
            end
        | _ => failure
        end
  | _, _ => failure
  end.

(** POST /logout *)
Definition POST_logout : Response * Cookie :=
  (mkResponse 200 (JObj [("message", JStr "Logged out successfully")]),
   ClearToken).

(** The JSON of a user document: the paths it holds. *)
Definition user_json (user : User.t) : jsval :=
  JObj ([("_id", JId (User._id user));
         ("name", JStr (User.name user));
         ("email", JStr (User.email user))]
        ++ match User.password user with
           | Some p => [("password", JStr p)]
           | None => []
           end)%list.

(** GET /me *)
Definition GET_me (a : AuthEnv) (users : gmap UserId User.t)
    (token : option string) : Response :=
  match authenticateToken a users token with
  | inl r => r
  | inr user => mkResponse 200 (JObj [("user", user_json user)])
  end.

End Auth.

(** A request to a protected route: [authenticateToken] first, then the
    handler on behalf of [req.user._id]. *)
Definition serve (a : AuthEnv) (o : Oracle) (users : gmap UserId User.t)
    (token : option string) (req : Request) (st : State) : Response * State :=
  match Auth.authenticateToken a users token with
  | inl r => (r, st)
  | inr user => handle o (User._id user) req st
  end.

(** * frontend/src/lib/api.js and the polling of frontend/src/pages/Home.jsx *)
Module Client.

(** [String(v)], with integers written in decimal. *)
Fixpoint js_String (v : jsval) : string :=
  match v with
  | JUndefined => "undefined"
  | JNull => "null"
  | JBool true => "true"
  | JBool false => "false"
  | JNum n => pretty n
  | JStr s => s
  | JArr items =>
      String.concat ","
        (map (λ x, match x with
                   | JUndefined | JNull => ""
                   | _ => js_String x
                   end) items)
  | JObj _ => "[object Object]"
  end.

(** [JSON.parse(JSON.stringify(v))]: what the client receives of a value
    the server hands to [res.json].  Entries whose value is [undefined]
    are left out, and [undefined] in an array arrives as [null]. *)
Fixpoint wire (v : jsval) : jsval :=
  match v with
  | JArr items =>
      JArr (map (λ x, match x with JUndefined => JNull | _ => wire x end) items)
  | JObj es =>
      JObj (flat_map (λ kv, match kv.2 with
                            | JUndefined => []
                            | _ => [(kv.1, wire kv.2)]
                            end) es)
  | _ => v
  end.

(** An error object as the client handles it: [response] is set on the
    error axios raises for an answer whose status is outside 2xx, and
    [ecode] is its [code]. *)
Record Error : Type := mkError {
  response : option Response;
  message : string;
  ecode : option string
}.

(** [new Error(message)] *)
Definition new_Error (message : string) : Error := mkError None message None.

(** [new Error(x || fallback)] *)
Definition Error_or (x : jsval) (fallback : string) : Error :=
  new_Error (if truthy x then js_String x else fallback).

(** How axios settles one exchange, before the interceptors. *)
Inductive Outcome : Type :=
| Resolved (r : Response)
| Rejected (e : Error).

(** A settled promise of the client. *)
Inductive settled (A : Type) : Type :=
| Fulfilled (a : A)
| Raised (e : Error).
Arguments Fulfilled {A} a.
Arguments Raised {A} e.

(** [v.k] on a value already read from, and [v?.k]. *)
Definition read (v : jsval) (k : string) : jsval :=
  match get_prop v k with Ok x => x | Throw _ => JUndefined end.

Definition transformError (error : Error) : Error :=
  let data_error :=
    match response error with
    | Some r => read (body r) "error"
    | None => JUndefined
    end in
  if truthy data_error then new_Error (js_String data_error)
  else if String.eqb (message error) "Network Error" then
    new_Error "Unable to connect to server. Please check your internet connection."
  else if bool_decide (ecode error = Some "ECONNABORTED") then
    new_Error "The request took too long to complete. Please try again."
  else error.

(** The rejection branch of the response interceptor for a request to
    [url]: the error it rejects with, and whether it has sent the browser
    to /login. *)
Definition on_rejected (url : string) (error : Error) : Error * bool :=
  match response error with
  | None => (transformError error, false)
  | Some r =>
      (transformError error,
       Nat.eqb (code r) 401 && negb (String.eqb url "/auth/me"))
  end.

(** [await api.get(url)] on the outcome of the exchange. *)
Definition api_get (out : Outcome) (url : string) : settled Response * bool :=
  match out with
  | Resolved r => (Fulfilled r, false)
  | Rejected e => let '(e', nav) := on_rejected url e in (Raised e', nav)
  end.

(** The catch block shared by [getDocumentStatus] and [getDocument]. *)
Definition or_not_found (r : settled Response * bool) : settled jsval * bool :=
  match r with
  | (Fulfilled response, nav) => (Fulfilled (body response), nav)
  | (Raised error, nav) =>
      (match response error with
       | Some r =>
           if Nat.eqb (code r) 404
           then Fulfilled (JObj [("success", JBool false);
                                 ("error", JStr "Document not found")])
           else Raised (transformError error)
       | None => Raised (transformError error)
       end, nav)
  end.

Definition getDocumentStatus (out : Outcome) (id : ObjectId)
  : settled jsval * bool :=
  or_not_found (api_get out ("/document/" +:+ pretty id +:+ "/status")).

Definition getDocument (out : Outcome) (id : ObjectId) : settled jsval * bool :=
  or_not_found (api_get out ("/document/" +:+ pretty id)).

(** The requests the polling sends. *)
Inductive Req : Type :=
| StatusOf (id : ObjectId)
| DocumentOf (id : ObjectId).

(** How the polling ends. *)
Inductive End : Type :=
| Returned (docResponse : jsval)
| Threw (e : Error)
| OutOfFuel.

(** The end of the polling with what it cost: the exchanges made, the
    waits of [interval] milliseconds, and whether an interceptor has sent
    the browser to /login. *)
Record Polled : Type := mkPolled {
  ended : End;
  requests : nat;
  sleeps : nat;
  redirected : bool
}.

Definition maxAttempts : nat := 30.
Definition interval : N := 10000%N.

(** The inner function [poll] of [pollForSummary]: [net n req] is the
    outcome of the exchange for [req] when [n] exchanges were made before
    it.  The recursion of the source is bounded by [maxAttempts]; here it
    is counted down by [fuel]. *)
Fixpoint poll (fuel : nat) (net : nat → Req → Outcome) (documentId : ObjectId)
    (attempts requests sleeps : nat) (nav : bool) : Polled :=
  match fuel with
  | 0 => mkPolled OutOfFuel requests sleeps nav
  | S fuel' =>
      let '(statusResponse, nav1) :=
        getDocumentStatus (net requests (StatusOf documentId)) documentId in
      let nav := nav || nav1 in
      let requests := S requests in
      match statusResponse with
      | Raised e => mkPolled (Threw e) requests sleeps nav
      | Fulfilled statusResponse =>
          match get_prop statusResponse "success" with
          | Throw m => mkPolled (Threw (new_Error m)) requests sleeps nav
          | Ok success =>
              if negb (truthy success) then
                mkPolled (Threw (Error_or (read statusResponse "error")
                                   "Failed to get document status"))
                  requests sleeps nav
              else if negb (truthy (read statusResponse "status")) then
                mkPolled (Threw (new_Error "Invalid status response from server"))
                  requests sleeps nav
              else
                match read statusResponse "status" with
                | JStr "failed" =>
                    mkPolled (Threw (Error_or (read statusResponse "error")
                                       "Document processing failed"))
                      requests sleeps nav
                | JStr "completed" =>
                    let '(docResponse, nav2) :=
                      getDocument (net requests (DocumentOf documentId))
                        documentId in
                    let nav := nav || nav2 in
                    let requests := S requests in
                    match docResponse with
                    | Raised e => mkPolled (Threw e) requests sleeps nav
                    | Fulfilled docResponse =>
                        match get_prop docResponse "success" with
                        | Throw m =>
                            mkPolled (Threw (new_Error m)) requests sleeps nav
                        | Ok success =>
                            if negb (truthy success) then
                              mkPolled
                                (Threw (Error_or (read docResponse "error")
                                          "Failed to get document summary"))
                                requests sleeps nav
                            else if negb (truthy (read (read docResponse "document")
                                                    "summary")) then
                              mkPolled
                                (Threw (new_Error
                                          "Document summary not found in response"))
                                requests sleeps nav
                            else mkPolled (Returned docResponse) requests sleeps nav
                        end
                    end
                | _ =>
                    if Nat.leb maxAttempts attempts then
                      mkPolled (Threw (new_Error "Processing timeout exceeded"))
                        requests sleeps nav
                    else
                      poll fuel' net documentId (S attempts) requests
                        (S sleeps) nav
                end
          end
      end
  end.

(** [pollForSummary(documentId)]; [None] stands for a missing id. *)
Definition pollForSummary (fuel : nat) (net : nat → Req → Outcome)
    (documentId : option ObjectId) : Polled :=
  match documentId with
  | None =>
      mkPolled (Threw (new_Error "Document ID is required for polling")) 0 0 false
  | Some id => poll fuel net id 0 0 0 false
  end.

(** How axios settles the exchange for an answer of the server: a status
    of 2xx resolves, any other rejects with an error that carries the
    answer. *)
Definition exchange (r : Response) : Outcome :=
  let received := mkResponse (code r) (wire (body r)) in
  if Nat.leb 200 (code r) && Nat.ltb (code r) 300 then Resolved received
  else
    Rejected
      (mkError (Some received)
         ("Request failed with status code " +:+ pretty (code r))
         (if Nat.leb 400 (code r) && Nat.ltb (code r) 500
          then Some "ERR_BAD_REQUEST"
          else if Nat.leb 500 (code r) && Nat.ltb (code r) 600
               then Some "ERR_BAD_RESPONSE" else None)).

(** The network as the server of index.js answers user [u]: the exchange
    made after [n] others meets the server in state [st n], with what
    the outside world does to that request in [o n]. *)
Definition served (o : nat → Oracle) (u : UserId) (st : nat → State)
  : nat → Req → Outcome := λ n req,
  exchange
    match req with
    | StatusOf id => Index.GET_status (o n) u id (st n)
    | DocumentOf id => Index.GET_document (o n) u id (st n)
    end.

End Client.

(** * The drop callback of the earlier FileUpload component *)
Module Widget.

(** A [File] of the browser. *)
Record BrowserFile : Type := mkFile {
  name : string;
  type : string;
  size : N
}.

(** The state of the component. *)
Record State : Type := mkState {
  file : option BrowserFile;
  error : string
}.

Definition validTypes : list string :=
  ["application/pdf";
   "application/vnd.openxmlformats-officedocument.wordprocessingml.document";
   "application/msword";
   "text/plain";
   "image/png";
   "image/jpeg";
   "image/tiff"].

Definition validExtensions : list string :=
  [".pdf"; ".docx"; ".doc"; ".txt"; ".png"; ".jpg"; ".jpeg"; ".tiff"].

(** [name.split('.').pop()]: what follows the last dot, or the whole
    name when it has no dot. *)
Definition last_segment (name : string) : string :=
  let chars := String.list_ascii_of_string name in
  String.string_of_list_ascii
    (default chars (after_last "."%char chars None)).

(** [onDrop(acceptedFiles)] on state [w], for the string method
    [toLowerCase]: the new state, and the exception the callback throws
    when it is handed no file at all. *)
Definition onDrop (toLowerCase : string → string)
    (acceptedFiles : list BrowserFile) (w : State) : State * option string :=
  let w := mkState (file w) "" in
  if Nat.ltb 1 (length acceptedFiles) then
    (mkState (file w) "Please upload only one file at a time", None)
  else
    match acceptedFiles with
    | [] => (w, Some "Cannot read properties of undefined (reading 'name')")
    | selectedFile :: _ =>
        let fileExtension := toLowerCase (last_segment (name selectedFile)) in
        if negb (bool_decide (type selectedFile ∈ validTypes))
           && negb (bool_decide ("." +:+ fileExtension ∈ validExtensions))
        then
          (mkState (file w) "Please upload a PDF, DOC, DOCX, TXT, or image file",
           None)
        else if (20 * 1024 * 1024 <? size selectedFile)%N then
          (mkState (file w) "File size must be less than 20MB", None)
        else (mkState (Some selectedFile) (error w), None)
    end.

(** The multipart part the browser sends for a file. *)
Definition part_of (f : BrowserFile) : Part.t :=
  Part.mk (name f) (type f) (size f).

End Widget.

(** ** Properties of records and runs *)

(** A field is present when it holds something other than [undefined],
    [null] or the schema's default empty string. *)
Definition present (v : jsval) : bool :=
  match v with
  | JUndefined | JNull | JStr "" => false
  | _ => true
  end.

(** The summary/error discipline of a record. *)
Definition summary_xor_error (d : Document) : bool :=
  match status d with
  | completed | failed => xorb (present (summary d)) (present (error d))
  | uploaded | processing =>
      negb (present (summary d)) && negb (present (error d))
  end.

(** The same discipline for a record of the anonymous variant, read the
    way its document query reads it: the summary as stored, and an error
    that no stored record has. *)
Definition summary_xor_error_anonymous (d : Anonymous.Document) : bool :=
  let document := Anonymous.mkLoaded d None JUndefined in
  let summary :=
    match Anonymous.summary d with Some s => JStr s | None => JNull end in
  match Anonymous.status d with
  | completed | failed =>
      xorb (present summary) (present (Anonymous.error document))
  | uploaded | processing =>
      negb (present summary) && negb (present (Anonymous.error document))
  end.

(** The edges of the status state machine as the data model lists them. *)
Definition edge (a b : Status) : bool :=
  match a, b with
  | uploaded, processing => true
  | processing, completed => true
  | processing, failed => true
  | _, _ => false
  end.

Definition terminal (s : Status) : bool :=
  match s with completed | failed => true | _ => false end.

(** The successive persisted statuses of the record processed by a run
    [r] that found it with status [s0]. *)
Definition status_history (s0 : Status) (r : Index.Run) : list Status :=
  s0 :: map status (Index.run_writes r).

(** Every two neighbours of [l] are related by [R]. *)
Definition chain {A} (R : A → A → Prop) (l : list A) : Prop :=
  ∀ i a b, l !! i = Some a → l !! S i = Some b → R a b.

(** A response that reports a failure to the client: an error status and
    a body {success: false, error} with a message. *)
Definition failure_response (r : Response) : Prop :=
  (400 ≤ code r)%nat
  ∧ get_prop (body r) "success" = Ok (JBool false)
  ∧ ∃ message, get_prop (body r) "error" = Ok (JStr message) ∧ message ≠ "".

(** An upload the ingress handler has to refuse: no file part, a media
    type outside [allowed], or more than [fileSize] bytes. *)
Definition unacceptable (allowed : list string) (part : option Part.t) : Prop :=
  match part with
  | None => True
  | Some file => Part.mimetype file ∉ allowed ∨ (fileSize < Part.size file)%N
  end.

(** The keys of an object, in order. *)
Definition keys (v : jsval) : list string :=
  match v with JObj es => es.*1 | _ => [] end.

(** The translation the adapter is described to compute for a translator
    [tr] of single strings: every string is replaced where it stands,
    arrays and objects are walked, everything else is kept. *)
Fixpoint translate_spec (tr : string → string) (v : jsval) : jsval :=
  match v with
  | JStr s => JStr (tr s)
  | JArr items => JArr (map (translate_spec tr) items)
  | JObj es => JObj (map (λ kv, (kv.1, translate_spec tr kv.2)) es)
  | _ => v
  end.

(** The shape of a value: its keys, its array lengths and its leaves that
    are not strings, with every string blanked. *)
Definition shape (v : jsval) : jsval := translate_spec (λ _, "") v.

(** The strings of a value. *)
Fixpoint leaves (v : jsval) : list string :=
  match v with
  | JStr s => [s]
  | JArr items => concat (map leaves items)
  | JObj es => concat (map (λ kv, leaves kv.2) es)
  | _ => []
  end.

(** Values in which every array holds only strings and objects, and no
    object has a key twice or the key [__proto__]: the values of the
    summary data model. *)
Fixpoint plain (v : jsval) : bool :=
  match v with
  | JObj es =>
      bool_decide (NoDup es.*1) && bool_decide ("__proto__" ∉ es.*1)
      && forallb (λ kv, plain kv.2) es
  | JArr items =>
      forallb (λ item,
                 match item with
                 | JStr _ => true
                 | JObj _ => plain item
                 | _ => false
                 end) items
  | _ => true
  end.

(** The translation service answers [tr s] for every string of [v]. *)
Definition answers (o : Oracle) (target : string) (tr : string → string)
    (v : jsval) : Prop :=
  ∀ s, s ∈ leaves v → google_translate o s target = Ok (tr s).

(** Whenever the computation [m] succeeds, the texts it has sent are
    those of [L], each as often as it stands in [L], and each of them was
    answered by the translation service. *)
Definition sends (o : Oracle) (target : string) {A} (m : Index.T A)
    (L : list string) : Prop :=
  ∀ a, m.1 = Ok a →
    concat m.2 ≡ₚ L
    ∧ ∀ s, s ∈ L → ∃ t, google_translate o s target = Ok t.

(** Whenever the computation [m] succeeds, it has sent exactly the texts
    of [L], in this order. *)
Definition sends_in_order {A} (m : Index.T A) (L : list string) : Prop :=
  ∀ a, m.1 = Ok a → concat m.2 = L.

(** Values in which every array holds only strings, as in the summary
    data model: no computation started by one [Promise.all] over them
    has anything left to send once [map] has visited the elements. *)
Fixpoint flat (v : jsval) : bool :=
  match v with
  | JObj es => forallb (λ kv, flat kv.2) es
  | JArr items => forallb is_string items
  | _ => true
  end.

(** ** Sample data *)

(** A structured summary as the translate request carries it. *)
Definition sample_summary : list (string * jsval) :=
  [("keyPoints", JArr [JStr "a"; JStr "b"]);
   ("tables", JArr []);
   ("highlights", JArr [JStr "c"])].

(** A freshly uploaded one-byte text file of user 1, as the ingress
    handler creates it, and a collection holding only it. *)
Definition sample_document : Document :=
  mkDocument 5%N "1000-7.txt" "contract.txt" "uploads/1000-7.txt" 1%N
    "text/plain" "::1" 1%N (JStr "") uploaded 1000%Z None JUndefined.

Definition sample_db : gmap ObjectId Document := {[ 5%N := sample_document ]}.

Definition echo (text target : string) : result string :=
  Ok (target +:+ ":" +:+ text).

(** Everything works and the NLP service answers the bare string Hello. *)
Definition calm : Oracle :=
  mkOracle 2000%Z 7%N None (λ _, None) (λ _, None)
    (Some (JObj [("summary", JStr "Hello")])) echo
    (λ _, 0%nat) (λ _, 0%nat).

(** The NLP service cannot be reached. *)
Definition nlp_down : Oracle :=
  mkOracle 2000%Z 7%N None (λ _, None) (λ _, None) None echo
    (λ _, 0%nat) (λ _, 0%nat).

(** The write of the [processing] status is refused, later writes pass. *)
Definition first_save_fails : Oracle :=
  mkOracle 2000%Z 7%N None (λ _, None)
    (λ n, if Nat.eqb n 0 then Some "db down" else None)
    (Some (JObj [("summary", JStr "Hello")])) echo
    (λ _, 0%nat) (λ _, 0%nat).

(** The write of the [completed] record is refused, the others pass. *)
Definition completed_save_fails : Oracle :=
  mkOracle 2000%Z 7%N None (λ _, None)
    (λ n, if Nat.eqb n 1 then Some "db down" else None)
    (Some (JObj [("summary", JStr "Hello")])) echo
    (λ _, 0%nat) (λ _, 0%nat).

(** A completed record next to which the sample states are built. *)
Definition done_document : Document :=
  mkDocument 9%N "900-3.txt" "lease.txt" "uploads/900-3.txt" 10%N
    "text/plain" "::1" 2%N
    (JObj [("key_points", JArr [JStr "Rent is due monthly"]);
           ("tables", JArr []); ("highlights", JArr [])])
    completed 900%Z (Some 950%Z) JUndefined.

Definition sample_state : State :=
  mkState {[ 9%N := done_document ]} {[ "uploads/900-3.txt" ]}.

(** A one-byte text file offered for upload. *)
Definition txt_part : Part.t := Part.mk "contract.txt" "text/plain" 1%N.

(** A Windows executable offered for upload. *)
Definition exe_part : Part.t :=
  Part.mk "setup.exe" "application/x-msdownload" 4096%N.

(** The NLP service is down and the failure write is refused as well. *)
Definition nlp_and_db_down : Oracle :=
  mkOracle 2000%Z 7%N None (λ _, None)
    (λ n, if Nat.eqb n 1 then Some "db down" else None) None echo
    (λ _, 0%nat) (λ _, 0%nat).

(** The NLP service answers, but with an object that has no summary. *)
Definition nlp_silent : Oracle :=
  mkOracle 2000%Z 7%N None (λ _, None) (λ _, None)
    (Some (JObj [("status", JStr "ok")])) echo
    (λ _, 0%nat) (λ _, 0%nat).

(** The first save of a new record is refused. *)
Definition create_fails : Oracle :=
  mkOracle 2000%Z 7%N (Some "db down") (λ _, None) (λ _, None)
    (Some (JObj [("summary", JStr "Hello")])) echo
    (λ _, 0%nat) (λ _, 0%nat).


(** The translation service refuses every text. *)
Definition translation_down : Oracle :=
  mkOracle 2000%Z 7%N None (λ _, None) (λ _, None)
    (Some (JObj [("summary", JStr "Hello")]))
    (λ _ _, Throw "Too Many Requests") (λ _, 0%nat) (λ _, 0%nat).


(** The sample record while it is being processed, and after the
    dispatch has failed. *)
Definition busy_state : State :=
  mkState {[ 5%N := set_status processing sample_document ]} ∅.

Definition failed_document : Document :=
  set_error (JStr "Failed to process document with NLP service")
    (set_status failed sample_document).

Definition failed_state : State := mkState {[ 5%N := failed_document ]} ∅.

(** A users collection with one user, and a session environment for it:
    lower-casing of the letters A to Z, tokens that name their user, and
    a password check against a tagged copy of the password. *)
Definition lower_char (c : ascii) : ascii :=
  let n := nat_of_ascii c in
  if Nat.leb 65 n && Nat.leb n 90 then ascii_of_nat (n + 32) else c.

Fixpoint lower (s : string) : string :=
  match s with
  | EmptyString => EmptyString
  | String c s' => String (lower_char c) (lower s')
  end.

Definition alice : User.t :=
  User.mk 1%N "Alice" "alice@example.org" (Some "bcrypt:correct horse").

Definition sample_users : gmap UserId User.t := {[ 1%N := alice ]}.

Definition sample_auth : AuthEnv :=
  mkAuthEnv
    (λ id, "session-" +:+ pretty id)
    (λ token, if String.eqb token "session-1" then Ok 1%N
              else Throw "invalid signature")
    (λ user pass,
       match pass with
       | JStr p => Ok (bool_decide (User.password user = Some ("bcrypt:" +:+ p)))
       | _ => Throw "Illegal arguments"
       end)
    lower
    None.

(** The sample record as the anonymous variant stores it, a collection
    holding only it, and a validation message. *)
Definition early_document : Anonymous.Document :=
  Anonymous.mkDocument 5%N "1000-7.txt" "contract.txt" "uploads/1000-7.txt"
    1%N "text/plain" (Some "") uploaded 1000%Z None.

Definition early_db : gmap ObjectId Anonymous.Document :=
  {[ 5%N := early_document ]}.

Definition cast_failed (v : jsval) : string :=
  "Document validation failed: summary: Cast to string failed".

(** Two mappings with two strings each, translated side by side. *)
Definition two_rows : jsval :=
  JObj [("rows", JArr [JObj [("a", JStr "1"); ("b", JStr "2")];
                       JObj [("a", JStr "3"); ("b", JStr "4")]])].

(** * Theorems *)

Open Scope nat_scope.

(** Whatever makes the dispatch fail, the orchestrator sees one message. *)
Lemma callPythonService_message (o : Oracle) (p m e : string) :
  Index.callPythonService o p m = Throw e →
  e = "Failed to process document with NLP service".
Proof.
  unfold Index.callPythonService.
  destruct (nlp_response o) as [data|]; [destruct (get_prop data "summary")|];
    congruence.
Qed.

Section Orchestrator.
Import Index.

Variable o : Oracle.
Variable docs : gmap ObjectId Document.
Variable id : ObjectId.
Variable d : Document.
Hypothesis Hfound : docs !! id = Some d.
Hypothesis Hid : _id d = id.

Ltac run_cases :=
  unfold processDocument, processDocument_catch, findById, save;
  rewrite ?Hfound; simpl; rewrite ?Hid;
  repeat (match goal with
          | |- context [match find_error ?o ?n with _ => _ end] =>
              destruct (find_error o n) eqn:?
          | |- context [match save_error ?o ?n with _ => _ end] =>
              destruct (save_error o n) eqn:?
          | |- context [match callPythonService ?o ?p ?m with _ => _ end] =>
              destruct (callPythonService o p m) eqn:?
          end; simpl; rewrite ?Hid).

(** A run touches no record but the one it was started for. *)
Lemma processDocument_other (j : ObjectId) :
  j ≠ id → run_db (processDocument o docs id) !! j = docs !! j.
Proof.
  intros Hj. run_cases;
    rewrite ?lookup_insert_ne by done; reflexivity.
Qed.

(** The collection after a run is the collection before it with the
    run's writes applied in order. *)
Lemma processDocument_writes :
  run_db (processDocument o docs id)
  = foldl (λ m w, <[id := w]> m) docs (run_writes (processDocument o docs id)).
Proof. run_cases; reflexivity. Qed.

(** The dispatch fails, the failure write passes. *)
Lemma processDocument_dispatch_failure (e : string) :
  find_error o 0 = None →
  save_error o 0 = None →
  callPythonService o (path d) (mimetype d) = Throw e →
  save_error o 1 = None →
  processDocument o docs id
  = mkRun (<[id := set_error (JStr e) (set_status failed d)]>
             (<[id := set_status processing d]> docs))
          [set_status processing d; set_error (JStr e) (set_status failed d)]
          None.
Proof.
  intros Hf Hs0 Hnlp Hs1.
  unfold processDocument, processDocument_catch, findById, save.
  repeat (simpl; rewrite ?Hf, ?Hfound, ?Hs0, ?Hs1, ?Hnlp, ?Hid).
  reflexivity.
Qed.

(** The dispatch answers [v] and both writes pass. *)
Lemma processDocument_success (v : jsval) :
  find_error o 0 = None →
  save_error o 0 = None →
  callPythonService o (path d) (mimetype d) = Ok v →
  save_error o 1 = None →
  run_db (processDocument o docs id) !! id
  = Some (set_processedAt (now o)
            (set_status completed (set_summary (structured v) d)))
  ∧ run_rejected (processDocument o docs id) = None.
Proof.
  intros Hf Hs0 Hnlp Hs1.
  unfold processDocument, processDocument_catch, findById, save.
  repeat (simpl; rewrite ?Hf, ?Hfound, ?Hs0, ?Hs1, ?Hnlp, ?Hid).
  rewrite lookup_insert_eq. done.
Qed.

(** From an [uploaded] record the persisted status follows the edges of
    the state machine, except that it jumps from [uploaded] to [failed]
    when the write of [processing] is refused. *)
Lemma processDocument_chain :
  status d = uploaded →
  chain (λ a b, edge a b = true
                ∨ (a = uploaded ∧ b = failed ∧ is_Some (save_error o 0)))
        (status_history uploaded (processDocument o docs id)).
Proof.
  intros Hst. unfold status_history. run_cases;
    intros [|[|[|i]]] x y Hx Hy; simpl in *; simplify_eq;
    try (left; reflexivity); try discriminate;
    right; eauto.
Qed.

(** Unless the write of the [completed] record is refused, a run leaves
    the record it processed in a state that obeys the summary/error
    discipline, provided the stored summary is present and a refused
    first write carries a message. *)
Lemma processDocument_discipline (d' : Document) :
  summary_xor_error d = true →
  status d = uploaded →
  (∀ v, save_error o 0 = None →
        callPythonService o (path d) (mimetype d) = Ok v →
        save_error o 1 = None ∧ present (structured v) = true) →
  (∀ e, save_error o 0 = Some e → e ≠ "") →
  run_db (processDocument o docs id) !! id = Some d' →
  summary_xor_error d' = true.
Proof.
  intros Hinv Hst Hok Hmsg.
  assert (Hd : summary_xor_error d = true) by exact Hinv.
  unfold summary_xor_error in Hinv. rewrite Hst in Hinv.
  apply andb_true_iff in Hinv as [Hs He].
  apply negb_true_iff in Hs, He.
  revert Hok.
  run_cases; intros Hok Hd';
    rewrite ?lookup_insert_eq in Hd'; simplify_eq;
    try exact Hd;
    unfold summary_xor_error; simpl; rewrite ?Hs, ?He, ?Hst; simpl;
    try reflexivity.
  all: try (destruct (Hok _ eq_refl eq_refl) as [Hx Hp];
            first [discriminate Hx | rewrite Hp; reflexivity]).
  - destruct s; [exfalso; eapply Hmsg; eauto | reflexivity].
  - match goal with
    | H : callPythonService _ _ _ = Throw _ |- _ =>
        apply callPythonService_message in H; subst; reflexivity
    end.
Qed.

End Orchestrator.

(** ** The ingress handler and the other requests leave old records alone *)

Lemma new_id_fresh (docs : gmap ObjectId Document) : docs !! new_id docs = None.
Proof. apply not_elem_of_dom. unfold new_id. apply is_fresh. Qed.

Lemma POST_upload_preserves (o : Oracle) (u : UserId) (ip : string)
    (part : option Part.t) (st : State) (j : ObjectId) (dj : Document) :
  db st !! j = Some dj →
  db (Index.POST_upload o u ip part st).2 !! j = Some dj.
Proof.
  intros Hj. unfold Index.POST_upload.
  destruct (Index.upload o part (fs st)) as [[[file|]|e] files]; simpl;
    try exact Hj.
  destruct (create_error o); simpl; [exact Hj|].
  set (document := mkDocument _ _ _ _ _ _ _ _ _ _ _ _ _).
  assert (Hne : j ≠ new_id (db st)).
  { intros ->. rewrite new_id_fresh in Hj. discriminate. }
  assert (Hrun : Index.run_db
                   (Index.processDocument o
                      (<[new_id (db st) := document]> (db st))
                      (new_id (db st))) !! j = Some dj).
  { rewrite (processDocument_other o _ (new_id (db st)) document).
    - rewrite lookup_insert_ne by done. exact Hj.
    - apply lookup_insert_eq.
    - reflexivity.
    - exact Hne. }
  destruct (Index.run_rejected _); simpl; [exact Hrun|].
  destruct (findById _ _ _ _) as [[?|]|?]; simpl; exact Hrun.
Qed.

Lemma DELETE_document_other (o : Oracle) (u : UserId) (id : ObjectId)
    (st : State) (j : ObjectId) (dj : Document) :
  db st !! j = Some dj →
  db (Routes.DELETE_document o u id st).2 !! j = Some dj
  ∨ (id = j ∧ user dj = u).
Proof.
  intros Hj. unfold Routes.DELETE_document, findOne.
  destruct (find_error o 0); simpl; [left; exact Hj|].
  destruct (db st !! id) as [d0|] eqn:Hd0; simpl; [|left; exact Hj].
  destruct (decide (user d0 = u)) as [Hu|Hu]; simpl; [|left; exact Hj].
  destruct (decide (id = j)) as [->|Hne].
  - right. split; [reflexivity|]. congruence.
  - left. rewrite lookup_delete_ne by done. exact Hj.
Qed.

(** ** The claims about the orchestrator *)

(** C1 (the code departs from it).  A record is to hold exactly one of
    summary and error once it is completed or failed.  Under the schema
    of the sources the freshly uploaded sample record obeys the
    discipline, but when the NLP service cannot be reached the run leaves
    it failed with the empty summary and, the schema having no path for
    it, without the error the catch block assigned: the document query
    answers with no error, and the record holds neither of the two.
    Under the schema that index.js presupposes the error is stored, but
    when the write of the completed record is refused and the failure
    write passes, the run leaves a failed record that holds both the
    summary and the error. *)
Theorem failed_record_breaks_the_discipline (refusal : jsval → string) :
  (summary_xor_error_anonymous early_document = true
   ∧ ∃ d', Anonymous.run_db
             (Anonymous.processDocument refusal nlp_down early_db 5%N) !! 5%N
           = Some d'
           ∧ Anonymous.run_rejected
               (Anonymous.processDocument refusal nlp_down early_db 5%N) = None
           ∧ Anonymous.status d' = failed
           ∧ Anonymous.summary d' = Some ""
           ∧ (∃ document,
                Anonymous.GET_document calm 5%N
                  (Anonymous.run_db
                     (Anonymous.processDocument refusal nlp_down early_db 5%N))
                = mkResponse 200 (JObj [("success", JBool true);
                                        ("document", document)])
                ∧ get_prop document "status" = Ok (JStr "failed")
                ∧ get_prop document "summary" = Ok (JStr "")
                ∧ get_prop document "error" = Ok JUndefined)
           ∧ summary_xor_error_anonymous d' = false)
  ∧ (summary_xor_error sample_document = true
     ∧ ∃ d', Index.run_db (Index.processDocument completed_save_fails sample_db 5%N)
               !! 5%N = Some d'
             ∧ status d' = failed
             ∧ summary d' = JObj [("key_points", JArr [JStr "Hello"]);
                                  ("tables", JArr []);
                                  ("highlights", JArr [])]
             ∧ error d' = JStr "db down"
             ∧ summary_xor_error d' = false).
Proof.
  split.
  - split; [reflexivity|].
    eexists. split; [vm_compute; reflexivity|].
    split; [reflexivity|]. split; [reflexivity|]. split; [reflexivity|].
    split; [|reflexivity].
    eexists. split; [vm_compute; reflexivity|]. repeat split.
  - split; [reflexivity|].
    eexists. split; [vm_compute; reflexivity|].
    repeat split.
Qed.

(** The same run seen from the client: the upload of a one-byte text file
    into an empty store is answered 201 with a document that is failed and
    carries both the summary and the error. *)
Lemma upload_answers_failed_with_summary_and_error :
  ∃ document,
    (Index.POST_upload completed_save_fails 1%N "::1" (Some txt_part)
       (mkState ∅ ∅)).1
    = mkResponse 201
        (JObj [("success", JBool true);
               ("message", JStr "File uploaded and processed successfully.");
               ("documentId", JNum 0);
               ("status", JStr "failed");
               ("document", document)])
    ∧ get_prop document "status" = Ok (JStr "failed")
    ∧ get_prop document "summary"
      = Ok (JObj [("key_points", JArr [JStr "Hello"]);
                  ("tables", JArr []);
                  ("highlights", JArr [])])
    ∧ get_prop document "error" = Ok (JStr "db down").
Proof.
  eexists. split; [vm_compute; reflexivity|].
  repeat split.
Qed.

(** C2, counterexample.  When the write of the processing status is
    refused, the persisted status of the sample record goes from uploaded
    straight to failed, which is none of the listed edges. *)
Lemma uploaded_straight_to_failed :
  ¬ chain (λ a b, edge a b = true)
      (status_history uploaded
         (Index.processDocument first_save_fails sample_db 5%N)).
Proof.
  intros H. specialize (H 0%nat uploaded failed eq_refl eq_refl).
  discriminate H.
Qed.

(** C2, as the code has it.  The persisted status of an uploaded record
    moves along uploaded -> processing -> completed | failed, or from
    uploaded straight to failed when the write of the processing status is
    refused; the collection after the run is the one before it with these
    writes applied.  And a record that is completed or failed is changed by
    no request of the service except the removal asked for by its owner. *)
Theorem status_edges_and_terminal_records
    (o : Oracle) (docs : gmap ObjectId Document) (id : ObjectId)
    (d : Document) (u : UserId) (req : Request) (st : State)
    (id' : ObjectId) (d' : Document) :
  docs !! id = Some d →
  _id d = id →
  status d = uploaded →
  db st !! id' = Some d' →
  terminal (status d') = true →
  (chain (λ a b, edge a b = true
                 ∨ (a = uploaded ∧ b = failed ∧ is_Some (save_error o 0)))
         (status_history uploaded (Index.processDocument o docs id))
   ∧ Index.run_db (Index.processDocument o docs id)
     = foldl (λ m w, <[id := w]> m) docs
         (Index.run_writes (Index.processDocument o docs id)))
  ∧ (db (handle o u req st).2 !! id' = Some d'
     ∨ (req = Delete id' ∧ user d' = u)).
Proof.
  intros Hfound Hid Hst Hd' _. split.
  - split.
    + apply (processDocument_chain o docs id d); assumption.
    + apply (processDocument_writes o docs id d); assumption.
  - destruct req as [ip part|j| |j|reqbody|j]; simpl;
      try (left; exact Hd').
    + left. apply POST_upload_preserves. exact Hd'.
    + destruct (DELETE_document_other o u j st id' d' Hd') as [H|[-> H]];
        [left; exact H | right; split; [reflexivity | exact H]].
Qed.

Lemma status_edges_and_terminal_records_witness :
  chain (λ a b, edge a b = true
                ∨ (a = uploaded ∧ b = failed
                   ∧ is_Some (save_error first_save_fails 0)))
    (status_history uploaded
       (Index.processDocument first_save_fails sample_db 5%N))
  ∧ (db (handle first_save_fails 1%N
           (Upload "::1" (Some (Part.mk "a.txt" "text/plain" 1%N)))
           sample_state).2 !! 9%N = Some done_document
     ∨ (Upload "::1" (Some (Part.mk "a.txt" "text/plain" 1%N)) = Delete 9%N
        ∧ user done_document = 1%N)).
Proof.
  destruct (status_edges_and_terminal_records first_save_fails sample_db 5%N
              sample_document 1%N
              (Upload "::1" (Some (Part.mk "a.txt" "text/plain" 1%N)))
              sample_state 9%N done_document
              eq_refl eq_refl eq_refl eq_refl eq_refl) as [[H1 _] H2].
  exact (conj H1 H2).
Defined.

(** C3, counterexample.  With the NLP service down and every write
    passing, the sample record ends failed without a processing time,
    under the schema index.js presupposes and under the schema of the
    sources alike. *)
Lemma failure_leaves_processedAt_unset :
  (∃ d', Index.run_db (Index.processDocument nlp_down sample_db 5%N) !! 5%N
         = Some d'
         ∧ status d' = failed
         ∧ processedAt d' = None
         ∧ processedAt d' ≠ Some (now nlp_down))
  ∧ (∃ d', Anonymous.run_db
             (Anonymous.processDocument cast_failed nlp_down early_db 5%N) !! 5%N
           = Some d'
           ∧ Anonymous.status d' = failed
           ∧ Anonymous.processedAt d' = None
           ∧ Anonymous.processedAt d' ≠ Some (now nlp_down)).
Proof.
  split; (eexists; split; [vm_compute; reflexivity|]);
    repeat split; discriminate.
Qed.

(** C3, as the code has it.  When the summarization dispatch fails and
    the failure write passes, the run persists the record with status
    failed and leaves its summary and its processing time as they were;
    the promise of the run is fulfilled.  Under the schema index.js
    presupposes, which has a path for it, the error of the record is set
    to the message of the dispatcher, which is not empty.  Under the
    schema of the sources every other path of the record is as before
    and no error is stored: the document query answers the failed record
    without one. *)
Theorem dispatch_failure_marks_failed
    (o : Oracle) (refusal : jsval → string) (id : ObjectId) (e : string)
    (docs : gmap ObjectId Document) (d : Document)
    (docs0 : gmap ObjectId Anonymous.Document) (d0 : Anonymous.Document) :
  find_error o 0 = None →
  save_error o 0 = None →
  save_error o 1 = None →
  (docs !! id = Some d →
   _id d = id →
   Index.callPythonService o (path d) (mimetype d) = Throw e →
   ∃ d', Index.run_db (Index.processDocument o docs id) !! id = Some d'
         ∧ status d' = failed
         ∧ error d' = JStr e
         ∧ e = "Failed to process document with NLP service"
         ∧ summary d' = summary d
         ∧ processedAt d' = processedAt d
         ∧ Index.run_rejected (Index.processDocument o docs id) = None)
  ∧ (docs0 !! id = Some d0 →
     Anonymous._id d0 = id →
     Anonymous.callPythonService o (Anonymous.path d0) (Anonymous.mimetype d0)
     = Throw e →
     ∃ d', Anonymous.run_db (Anonymous.processDocument refusal o docs0 id) !! id
           = Some d'
           ∧ d' = Anonymous.fields
                    (Anonymous.set_status failed
                       (Anonymous.mkLoaded d0 None JUndefined))
           ∧ Anonymous.status d' = failed
           ∧ e = "Failed to process document with NLP service"
           ∧ Anonymous.summary d' = Anonymous.summary d0
           ∧ Anonymous.processedAt d' = Anonymous.processedAt d0
           ∧ Anonymous.run_rejected (Anonymous.processDocument refusal o docs0 id)
             = None
           ∧ ∀ o', find_error o' 0 = None →
               Anonymous.GET_document o' id
                 (Anonymous.run_db (Anonymous.processDocument refusal o docs0 id))
               = mkResponse 200
                   (JObj [("success", JBool true);
                          ("document",
                           Anonymous.document_json
                             (Anonymous.mkLoaded d' None JUndefined))])).
Proof.
  intros Hf Hs0 Hs1. split.
  - intros Hfound Hid Hnlp.
    rewrite (processDocument_dispatch_failure o docs id d Hfound Hid e)
      by assumption.
    simpl. rewrite lookup_insert_eq. eexists. split; [reflexivity|].
    repeat split. eapply callPythonService_message; eauto.
  - intros Hfound Hid Hnlp.
    unfold Anonymous.processDocument, Anonymous.processDocument_catch,
      Anonymous.findById, Anonymous.save.
    rewrite Hf, Hfound. simpl. rewrite Hs0. simpl. rewrite Hnlp. simpl.
    rewrite Hs1. simpl. rewrite Hid, lookup_insert_eq.
    eexists. split; [reflexivity|]. split; [reflexivity|].
    split; [reflexivity|].
    split; [eapply callPythonService_message; exact Hnlp|].
    split; [reflexivity|]. split; [reflexivity|]. split; [reflexivity|].
    intros o' Hf'. unfold Anonymous.GET_document, Anonymous.findById.
    rewrite Hf', lookup_insert_eq. reflexivity.
Qed.

Lemma dispatch_failure_marks_failed_witness :
  (∃ d', Index.run_db (Index.processDocument nlp_down sample_db 5%N) !! 5%N
         = Some d'
         ∧ status d' = failed
         ∧ error d' = JStr "Failed to process document with NLP service"
         ∧ "Failed to process document with NLP service"
           = "Failed to process document with NLP service"
         ∧ summary d' = summary sample_document
         ∧ processedAt d' = processedAt sample_document
         ∧ Index.run_rejected (Index.processDocument nlp_down sample_db 5%N)
           = None)
  ∧ (∃ d', Anonymous.run_db
             (Anonymous.processDocument cast_failed nlp_down early_db 5%N) !! 5%N
           = Some d'
           ∧ d' = Anonymous.fields
                    (Anonymous.set_status failed
                       (Anonymous.mkLoaded early_document None JUndefined))
           ∧ Anonymous.status d' = failed
           ∧ "Failed to process document with NLP service"
             = "Failed to process document with NLP service"
           ∧ Anonymous.summary d' = Anonymous.summary early_document
           ∧ Anonymous.processedAt d' = Anonymous.processedAt early_document
           ∧ Anonymous.run_rejected
               (Anonymous.processDocument cast_failed nlp_down early_db 5%N)
             = None
           ∧ ∀ o', find_error o' 0 = None →
               Anonymous.GET_document o' 5%N
                 (Anonymous.run_db
                    (Anonymous.processDocument cast_failed nlp_down early_db 5%N))
               = mkResponse 200
                   (JObj [("success", JBool true);
                          ("document",
                           Anonymous.document_json
                             (Anonymous.mkLoaded d' None JUndefined))])).
Proof.
  destruct (dispatch_failure_marks_failed nlp_down cast_failed 5%N
              "Failed to process document with NLP service"
              sample_db sample_document early_db early_document
              eq_refl eq_refl eq_refl) as [H1 H2].
  exact (conj (H1 eq_refl eq_refl eq_refl) (H2 eq_refl eq_refl eq_refl)).
Defined.

(** C4, counterexample.  Under the schema index.js presupposes, the bare
    string Hello is stored under the key key_points, not under keyPoints;
    under the schema of the sources nothing is stored for it at all: the
    record keeps its empty summary and is left processing. *)
Lemma bare_string_stored_under_key_points :
  (∃ d', Index.run_db (Index.processDocument calm sample_db 5%N) !! 5%N = Some d'
         ∧ summary d' = JObj [("key_points", JArr [JStr "Hello"]);
                              ("tables", JArr []);
                              ("highlights", JArr [])]
         ∧ summary d' ≠ JObj [("keyPoints", JArr [JStr "Hello"]);
                              ("tables", JArr []);
                              ("highlights", JArr [])])
  ∧ (∃ d', Anonymous.run_db
             (Anonymous.processDocument cast_failed calm early_db 5%N) !! 5%N
           = Some d'
           ∧ Anonymous.status d' = processing
           ∧ Anonymous.summary d' = Some "").
Proof.
  split; (eexists; split; [vm_compute; reflexivity|]).
  - split; [reflexivity | discriminate].
  - split; reflexivity.
Qed.

(** What the schema of the sources makes of the values the orchestrator
    assigns: the wrapper built for a bare string is refused. *)
Lemma castString_structured_string (s : string) :
  Anonymous.castString (Index.structured (JStr s)) = None.
Proof. reflexivity. Qed.

(** C4, as the code has it.  When the dispatch answers and the writes
    pass, then under the schema index.js presupposes, whose summary takes
    any value, the record is persisted as completed; a bare string s is
    stored as {key_points: [s], tables: [], highlights: []} and any other
    answer is stored as it is.  Under the schema of the sources, whose
    summary is a String, the wrapper of a bare string, like every other
    value that has no cast to a string, is refused: the record keeps its
    summary, stays processing, and the run rejects with the validation
    error; a value that has a cast is stored as the string it is cast
    to, with the completed record. *)
Theorem summary_is_normalised
    (o : Oracle) (refusal : jsval → string) (id : ObjectId) (v : jsval)
    (docs : gmap ObjectId Document) (d : Document)
    (docs0 : gmap ObjectId Anonymous.Document) (d0 : Anonymous.Document) :
  find_error o 0 = None →
  save_error o 0 = None →
  save_error o 1 = None →
  (docs !! id = Some d →
   _id d = id →
   Index.callPythonService o (path d) (mimetype d) = Ok v →
   ∃ d', Index.run_db (Index.processDocument o docs id) !! id = Some d'
         ∧ status d' = completed
         ∧ (∀ s, v = JStr s →
                 summary d' = JObj [("key_points", JArr [JStr s]);
                                    ("tables", JArr []);
                                    ("highlights", JArr [])])
         ∧ (is_string v = false → summary d' = v))
  ∧ (docs0 !! id = Some d0 →
     Anonymous._id d0 = id →
     Anonymous.callPythonService o (Anonymous.path d0) (Anonymous.mimetype d0)
     = Ok v →
     ∃ d', Anonymous.run_db (Anonymous.processDocument refusal o docs0 id) !! id
           = Some d'
           ∧ (∀ s, v = JStr s →
                   Anonymous.status d' = processing
                   ∧ Anonymous.summary d' = Anonymous.summary d0
                   ∧ Anonymous.processedAt d' = Anonymous.processedAt d0
                   ∧ Anonymous.run_rejected
                       (Anonymous.processDocument refusal o docs0 id)
                     = Some (refusal (JObj [("key_points", JArr [JStr s]);
                                            ("tables", JArr []);
                                            ("highlights", JArr [])])))
           ∧ (is_string v = false →
              match Anonymous.castString v with
              | Some v' =>
                  Anonymous.status d' = completed
                  ∧ Anonymous.summary d' = Anonymous.read_back v'
                  ∧ Anonymous.processedAt d' = Some (now o)
                  ∧ Anonymous.run_rejected
                      (Anonymous.processDocument refusal o docs0 id) = None
              | None =>
                  Anonymous.status d' = processing
                  ∧ Anonymous.summary d' = Anonymous.summary d0
                  ∧ Anonymous.processedAt d' = Anonymous.processedAt d0
                  ∧ Anonymous.run_rejected
                      (Anonymous.processDocument refusal o docs0 id)
                    = Some (refusal v)
              end)).
Proof.
  intros Hf Hs0 Hs1. split.
  - intros Hfound Hid Hnlp.
    destruct (processDocument_success o docs id d Hfound Hid v Hf Hs0 Hnlp Hs1)
      as [Hrun _].
    eexists. split; [exact Hrun|]. simpl. split; [reflexivity|]. split.
    + intros s ->. reflexivity.
    + intros Hv. unfold Index.structured. rewrite Hv. reflexivity.
  - intros Hfound Hid Hnlp.
    unfold Anonymous.processDocument, Anonymous.processDocument_catch,
      Anonymous.findById, Anonymous.save.
    rewrite Hf, Hfound. simpl. rewrite Hs0. simpl. rewrite Hnlp.
    unfold Anonymous.set_summary.
    destruct (Anonymous.castString (Index.structured v)) as [v'|] eqn:Hcast;
      simpl; rewrite ?Hs1; simpl; rewrite Hid, lookup_insert_eq;
      (eexists; split; [reflexivity|]); simpl.
    + split.
      * intros s ->. discriminate Hcast.
      * intros Hv. unfold Index.structured in Hcast. rewrite Hv in Hcast.
        rewrite Hcast. repeat split.
    + split.
      * intros s ->. repeat split.
      * intros Hv. unfold Index.structured in Hcast |- *. rewrite Hv in Hcast |- *.
        rewrite Hcast. repeat split.
Qed.

Lemma summary_is_normalised_witness :
  (∃ d', Index.run_db (Index.processDocument calm sample_db 5%N) !! 5%N = Some d'
         ∧ status d' = completed
         ∧ (∀ s, JStr "Hello" = JStr s →
                 summary d' = JObj [("key_points", JArr [JStr s]);
                                    ("tables", JArr []);
                                    ("highlights", JArr [])])
         ∧ (is_string (JStr "Hello") = false → summary d' = JStr "Hello"))
  ∧ (∃ d', Anonymous.run_db
             (Anonymous.processDocument cast_failed calm early_db 5%N) !! 5%N
           = Some d'
           ∧ (∀ s, JStr "Hello" = JStr s →
                   Anonymous.status d' = processing
                   ∧ Anonymous.summary d' = Anonymous.summary early_document
                   ∧ Anonymous.processedAt d'
                     = Anonymous.processedAt early_document
                   ∧ Anonymous.run_rejected
                       (Anonymous.processDocument cast_failed calm early_db 5%N)
                     = Some (cast_failed
                               (JObj [("key_points", JArr [JStr s]);
                                      ("tables", JArr []);
                                      ("highlights", JArr [])])))
           ∧ (is_string (JStr "Hello") = false →
              match Anonymous.castString (JStr "Hello") with
              | Some v' =>
                  Anonymous.status d' = completed
                  ∧ Anonymous.summary d' = Anonymous.read_back v'
                  ∧ Anonymous.processedAt d' = Some (now calm)
                  ∧ Anonymous.run_rejected
                      (Anonymous.processDocument cast_failed calm early_db 5%N)
                    = None
              | None =>
                  Anonymous.status d' = processing
                  ∧ Anonymous.summary d' = Anonymous.summary early_document
                  ∧ Anonymous.processedAt d'
                    = Anonymous.processedAt early_document
                  ∧ Anonymous.run_rejected
                      (Anonymous.processDocument cast_failed calm early_db 5%N)
                    = Some (cast_failed (JStr "Hello"))
              end)).
Proof.
  destruct (summary_is_normalised calm cast_failed 5%N (JStr "Hello")
              sample_db sample_document early_db early_document
              eq_refl eq_refl eq_refl) as [H1 H2].
  exact (conj (H1 eq_refl eq_refl eq_refl) (H2 eq_refl eq_refl eq_refl)).
Defined.

(** ** The claims about the ingress handler and the queries *)

Lemma State_eta (st : State) : mkState (db st) (fs st) = st.
Proof. destruct st; reflexivity. Qed.

Lemma single_unacceptable (fileFilter : Part.t → result bool)
    (filename : Oracle → Part.t → string) (allowed : list string)
    (message : string) (o : Oracle) (part : option Part.t)
    (files : gset string) :
  (∀ file, fileFilter file
           = if bool_decide (Part.mimetype file ∈ allowed) then Ok true
             else Throw message) →
  unacceptable allowed part →
  single fileFilter filename o part files = (Ok None, files)
  ∨ single fileFilter filename o part files = (Throw message, files)
  ∨ single fileFilter filename o part files = (Throw "File too large", files).
Proof.
  intros Hfilter Hbad. destruct part as [file|]; simpl; [|left; reflexivity].
  rewrite Hfilter. simpl in Hbad. case_bool_decide as Hin.
  - destruct Hbad as [Hout|Hbig]; [contradiction|].
    destruct (N.leb_spec fileSize (Part.size file)) as [_|Hsmall]; [|lia].
    right; right; reflexivity.
  - right; left; reflexivity.
Qed.

(** C5.  An upload without a file, with a media type outside the allowed
    set of the handler, or of more than 20 MB is answered with a failure
    {success: false, error}, and the handler returns the server state it
    was given: no record is persisted (and no file is kept).  This holds
    for the handler of index.js and for the one of routes/documents.js,
    which starts no processing either. *)
Theorem rejected_upload_persists_nothing
    (o : Oracle) (u : UserId) (ip : string) (part : option Part.t)
    (st : State) :
  (unacceptable Index.allowedTypes part →
     failure_response (Index.POST_upload o u ip part st).1
     ∧ (Index.POST_upload o u ip part st).2 = st)
  ∧ (unacceptable Routes.allowedTypes part →
     ∃ r, Routes.POST_upload o u part st = (r, st, None)
          ∧ failure_response r).
Proof.
  split; intros Hbad.
  - unfold Index.POST_upload, Index.upload.
    destruct (single_unacceptable Index.fileFilter Index.filename
                Index.allowedTypes _ o part (fs st) (λ _, eq_refl) Hbad)
      as [-> | [-> | ->]]; simpl; rewrite State_eta;
      (split; [|reflexivity]); unfold failure_response; simpl;
      (split; [lia|]); (split; [reflexivity|]);
      eexists; (split; [reflexivity | discriminate]).
  - unfold Routes.POST_upload, Routes.upload.
    destruct (single_unacceptable Routes.fileFilter Routes.filename
                Routes.allowedTypes _ o part (fs st) (λ _, eq_refl) Hbad)
      as [-> | [-> | ->]]; simpl; rewrite State_eta;
      eexists; (split; [reflexivity|]); unfold failure_response; simpl;
      (split; [lia|]); (split; [reflexivity|]);
      eexists; (split; [reflexivity | discriminate]).
Qed.

Lemma rejected_upload_persists_nothing_witness :
  (failure_response
     (Index.POST_upload calm 1%N "::1" (Some exe_part) sample_state).1
   ∧ (Index.POST_upload calm 1%N "::1" (Some exe_part) sample_state).2
     = sample_state)
  ∧ ∃ r, Routes.POST_upload calm 1%N (Some exe_part) sample_state
         = (r, sample_state, None)
         ∧ failure_response r.
Proof.
  assert (Hindex : unacceptable Index.allowedTypes (Some exe_part)).
  { left. apply (bool_decide_unpack _). vm_compute. exact I. }
  assert (Hroutes : unacceptable Routes.allowedTypes (Some exe_part)).
  { left. apply (bool_decide_unpack _). vm_compute. exact I. }
  destruct (rejected_upload_persists_nothing calm 1%N "::1" (Some exe_part)
              sample_state) as [H1 H2].
  exact (conj (H1 Hindex) (H2 Hroutes)).
Defined.

Lemma findOne_foreign (o : Oracle) (docs : gmap ObjectId Document)
    (id id' : ObjectId) (b : UserId) (d : Document) :
  docs !! id = Some d → user d ≠ b → docs !! id' = None →
  findOne o 0 docs id b = findOne o 0 docs id' b
  ∧ (find_error o 0 = None → findOne o 0 docs id b = Ok None).
Proof.
  intros Hd Hu Hnone. unfold findOne. rewrite Hd, Hnone.
  destruct (find_error o 0); [split; [reflexivity | discriminate]|].
  rewrite decide_False by exact Hu. split; reflexivity.
Qed.

(** C6.  For a record owned by user a and a requester b other than a,
    the status query and the document query answer exactly what they
    answer for an id under which no record is stored, and that answer is
    the 404 "Document not found" whenever the lookup itself works. *)
Theorem foreign_record_looks_missing
    (o : Oracle) (st : State) (id id' : ObjectId) (a b : UserId)
    (d : Document) :
  db st !! id = Some d →
  user d = a →
  b ≠ a →
  db st !! id' = None →
  Index.GET_status o b id st = Index.GET_status o b id' st
  ∧ Index.GET_document o b id st = Index.GET_document o b id' st
  ∧ Routes.GET_status o b id st = Routes.GET_status o b id' st
  ∧ (find_error o 0 = None →
     Index.GET_status o b id st = not_found
     ∧ Index.GET_document o b id st = not_found
     ∧ Routes.GET_status o b id st = not_found).
Proof.
  intros Hd Ha Hb Hnone.
  assert (Hu : user d ≠ b) by congruence.
  destruct (findOne_foreign o (db st) id id' b d Hd Hu Hnone) as [Heq H404].
  unfold Index.GET_status, Index.GET_document, Routes.GET_status.
  rewrite Heq. repeat split; try reflexivity;
    rewrite <- Heq, H404 by assumption; reflexivity.
Qed.

Lemma foreign_record_looks_missing_witness :
  Index.GET_status calm 1%N 9%N sample_state
  = Index.GET_status calm 1%N 4%N sample_state
  ∧ Index.GET_document calm 1%N 9%N sample_state
    = Index.GET_document calm 1%N 4%N sample_state
  ∧ Routes.GET_status calm 1%N 9%N sample_state
    = Routes.GET_status calm 1%N 4%N sample_state
  ∧ (find_error calm 0 = None →
     Index.GET_status calm 1%N 9%N sample_state = not_found
     ∧ Index.GET_document calm 1%N 9%N sample_state = not_found
     ∧ Routes.GET_status calm 1%N 9%N sample_state = not_found).
Proof.
  apply (foreign_record_looks_missing calm sample_state 9%N 4%N 2%N 1%N
           done_document); [reflexivity | reflexivity | discriminate | reflexivity].
Defined.

Lemma StronglySorted_take {A} (R : A → A → Prop) (n : nat) (l : list A) :
  StronglySorted R l → StronglySorted R (take n l).
Proof.
  intros Hl. revert n. induction Hl as [|x l Hl IH Hx]; intros [|n]; simpl;
    try constructor.
  - apply IH.
  - apply Forall_take. exact Hx.
Qed.

Global Instance newer_transitive : Transitive Index.newer.
Proof. intros x y z. unfold Index.newer. lia. Qed.

Global Instance newer_total : Total Index.newer.
Proof. intros x y. unfold Index.newer. lia. Qed.

Lemma find_completed_spec (u : UserId) (docs : gmap ObjectId Document) :
  length (Index.find_completed u docs) ≤ 20
  ∧ (∀ d, d ∈ Index.find_completed u docs →
          ∃ id, docs !! id = Some d ∧ user d = u ∧ status d = completed)
  ∧ StronglySorted Index.newer (Index.find_completed u docs).
Proof.
  unfold Index.find_completed. split; [|split].
  - rewrite length_take. lia.
  - intros d Hd. apply subseteq_take in Hd.
    rewrite merge_sort_Permutation in Hd.
    apply list_elem_of_filter in Hd as [[Hu Hs] Hd].
    apply list_elem_of_fmap in Hd as [[id d0] [-> Hd]].
    apply elem_of_map_to_list in Hd. exists id. auto.
  - apply StronglySorted_take, StronglySorted_merge_sort; apply _.
Qed.

(** C8, counterexample.  The one summary listed for user 2 in the sample
    state carries the key _id, and no key id. *)
Lemma summaries_entry_has_no_id_key :
  ∃ e, Index.GET_summaries calm 2%N sample_state
       = mkResponse 200 (JObj [("summaries", JArr [e])])
       ∧ keys e = ["_id"; "title"; "summary"; "createdAt"]
       ∧ keys e ≠ ["id"; "title"; "summary"; "createdAt"]
       ∧ get_prop e "id" = Ok JUndefined.
Proof.
  eexists. split; [vm_compute; reflexivity|].
  split; [reflexivity|]. split; [discriminate | reflexivity].
Qed.

(** C8, as the code has it.  When the query works, the listing answers
    with at most 20 entries, built from records of the collection that
    belong to the requester and are completed, in the order of their
    upload times with the latest first; each entry has the shape
    {_id, title, summary, createdAt}. *)
Theorem summaries_listing (o : Oracle) (u : UserId) (st : State) :
  find_error o 0 = None →
  ∃ documents,
    Index.GET_summaries o u st
    = mkResponse 200
        (JObj [("summaries", JArr (map Index.summary_json documents))])
    ∧ length documents ≤ 20
    ∧ (∀ d, d ∈ documents →
            ∃ id, db st !! id = Some d ∧ user d = u ∧ status d = completed)
    ∧ StronglySorted Index.newer documents
    ∧ (∀ d, d ∈ documents →
            keys (Index.summary_json d)
            = ["_id"; "title"; "summary"; "createdAt"]).
Proof.
  intros Hf. exists (Index.find_completed u (db st)).
  destruct (find_completed_spec u (db st)) as (Hlen & Hmem & Hsorted).
  unfold Index.GET_summaries. rewrite Hf.
  repeat split; auto.
Qed.

Lemma summaries_listing_witness :
  ∃ documents,
    Index.GET_summaries calm 2%N sample_state
    = mkResponse 200
        (JObj [("summaries", JArr (map Index.summary_json documents))])
    ∧ length documents ≤ 20
    ∧ (∀ d, d ∈ documents →
            ∃ id, db sample_state !! id = Some d ∧ user d = 2%N
                  ∧ status d = completed)
    ∧ StronglySorted Index.newer documents
    ∧ (∀ d, d ∈ documents →
            keys (Index.summary_json d)
            = ["_id"; "title"; "summary"; "createdAt"]).
Proof.
  apply (summaries_listing calm 2%N sample_state). reflexivity.
Defined.

(** C9, counterexample.  User 2 removes the completed sample record: the
    request succeeds and the record is gone, but the file stored at the
    record's path is still on disk. *)
Lemma deleted_record_leaves_file :
  code (Routes.DELETE_document calm 2%N 9%N sample_state).1 = 200
  ∧ db (Routes.DELETE_document calm 2%N 9%N sample_state).2 !! 9%N = None
  ∧ path done_document ∈ fs sample_state
  ∧ path done_document ∈ fs (Routes.DELETE_document calm 2%N 9%N sample_state).2.
Proof.
  split; [reflexivity|]. split; [reflexivity|].
  split; apply (bool_decide_unpack _); vm_compute; exact I.
Qed.

(** C9, as the code has it.  A removal never changes the files on disk;
    when the owner removes a record, the request succeeds and the record
    leaves the collection, while the file stored at its path stays. *)
Theorem deletion_keeps_stored_file
    (o : Oracle) (u : UserId) (id : ObjectId) (st : State) (d : Document) :
  db st !! id = Some d →
  user d = u →
  find_error o 0 = None →
  fs (Routes.DELETE_document o u id st).2 = fs st
  ∧ code (Routes.DELETE_document o u id st).1 = 200
  ∧ db (Routes.DELETE_document o u id st).2 = delete id (db st)
  ∧ (path d ∈ fs st → path d ∈ fs (Routes.DELETE_document o u id st).2).
Proof.
  intros Hd Hu Hf. unfold Routes.DELETE_document, findOne.
  rewrite Hf, Hd. rewrite decide_True by exact Hu. simpl. auto.
Qed.

Lemma deletion_keeps_stored_file_witness :
  fs (Routes.DELETE_document calm 2%N 9%N sample_state).2 = fs sample_state
  ∧ code (Routes.DELETE_document calm 2%N 9%N sample_state).1 = 200
  ∧ db (Routes.DELETE_document calm 2%N 9%N sample_state).2
    = delete 9%N (db sample_state)
  ∧ (path done_document ∈ fs sample_state →
     path done_document
     ∈ fs (Routes.DELETE_document calm 2%N 9%N sample_state).2).
Proof.
  apply (deletion_keeps_stored_file calm 2%N 9%N sample_state done_document);
    reflexivity.
Defined.

(** ** The claims about the translation adapter *)

Lemma obj_set_fresh (es : list (string * jsval)) (k : string) (v : jsval) :
  k ≠ "__proto__" → k ∉ es.*1 → obj_set es k v = (es ++ [(k, v)])%list.
Proof.
  intros Hproto. unfold obj_set.
  destruct (String.eqb_spec k "__proto__") as [->|_]; [contradiction|].
  induction es as [|[k' v'] es IH]; simpl; intros Hk; [reflexivity|].
  apply not_elem_of_cons in Hk as [Hne Hk].
  destruct (String.eqb_spec k k') as [->|_]; [contradiction|].
  rewrite IH by exact Hk. reflexivity.
Qed.

Lemma bind_ok {A B} (m : Index.T A) (k : A → Index.T B) (a : A) :
  m.1 = Ok a →
  (Index.bind m k).1 = (k a).1
  ∧ (Index.bind m k).2 = (m.2 ++ (k a).2)%list.
Proof.
  destruct m as [r bursts]. simpl. intros ->. simpl.
  destruct (k a) as [r' bursts']. split; reflexivity.
Qed.

Lemma bind_Ok_inv {A B} (m : Index.T A) (k : A → Index.T B) (b : B) :
  (Index.bind m k).1 = Ok b → ∃ a, m.1 = Ok a ∧ (k a).1 = Ok b.
Proof.
  destruct m as [[a|e] bursts]; simpl; [|discriminate].
  destruct (k a) as [r' bursts'] eqn:Hk. simpl. intros ->.
  exists a. rewrite Hk. split; reflexivity.
Qed.

Lemma await_fst {A} (p : Index.T A) : (Index.await p).1 = p.1.
Proof. destruct p as [r [|burst bursts]]; reflexivity. Qed.

Lemma await_texts {A} (p : Index.T A) : concat (Index.await p).2 = concat p.2.
Proof. destruct p as [r [|burst bursts]]; reflexivity. Qed.

Lemma for_of_ok (f : jsval → jsval) (m : jsval → Index.T jsval)
    (es acc : list (string * jsval)) :
  NoDup (acc.*1 ++ es.*1)%list →
  "__proto__" ∉ es.*1 →
  Forall (λ kv, (m kv.2).1 = Ok (f kv.2)) es →
  (Index.for_of (map (λ kv, (kv.1, m kv.2)) es) acc).1
  = Ok (JObj (acc ++ map (λ kv, (kv.1, f kv.2)) es)%list).
Proof.
  intros Hnd Hproto Hes. revert acc Hnd.
  induction Hes as [|[k v] es Hkv Hes IH]; intros acc Hnd; simpl.
  - rewrite app_nil_r. reflexivity.
  - simpl in Hkv, Hproto, Hnd.
    apply not_elem_of_cons in Hproto as [Hk0 Hproto].
    destruct (bind_ok (m v) (λ v0, Index.for_of
                                     (map (λ kv, (kv.1, m kv.2)) es)
                                     (obj_set acc k v0)) _ Hkv) as [-> _].
    assert (Hk : k ∉ acc.*1).
    { apply NoDup_app in Hnd as (_ & Hdis & _). intros Hin.
      apply (Hdis k Hin). left. }
    rewrite obj_set_fresh by auto.
    rewrite IH.
    + rewrite <- app_assoc. reflexivity.
    + exact Hproto.
    + rewrite fmap_app, <- app_assoc. exact Hnd.
Qed.

Lemma settle_ok {A} (o : Oracle) (rs : list (result A)) (xs : list A) :
  Forall2 (λ r x, r = Ok x) rs xs → Index.settle o rs = Ok xs.
Proof.
  intros H. unfold Index.settle.
  assert (Hno : omap (λ r : result A,
                        match r with Throw e => Some e | Ok _ => None end) rs
                = []).
  { induction H as [|r x rs xs -> _ IH]; simpl; [reflexivity | exact IH]. }
  rewrite Hno. f_equal. clear Hno.
  induction H as [|r x rs xs -> _ IH]; [reflexivity|].
  change (x :: omap (λ r : result A,
                       match r with Ok a => Some a | Throw _ => None end) rs
          = x :: xs).
  f_equal. exact IH.
Qed.

Lemma settle_Ok_inv {A} (o : Oracle) (rs : list (result A)) (xs : list A) :
  Index.settle o rs = Ok xs → Forall (λ r, ∃ x, r = Ok x) rs.
Proof.
  unfold Index.settle.
  destruct (omap _ rs) as [|e es] eqn:Hno; [|discriminate]. intros _.
  induction rs as [|[x|e] rs IH]; simpl in Hno; [constructor| |discriminate].
  constructor; [eauto | exact (IH Hno)].
Qed.

Lemma Promise_all_ok {A} (o : Oracle) (ps : list (Index.T A)) (xs : list A) :
  Forall2 (λ p x, p.1 = Ok x) ps xs →
  (Index.Promise_all o ps).1 = Ok xs.
Proof.
  intros H. unfold Index.Promise_all. simpl. apply settle_ok.
  induction H; simpl; constructor; auto.
Qed.

Lemma forallb_elem_of {A} (f : A → bool) (l : list A) (x : A) :
  forallb f l = true → x ∈ l → f x = true.
Proof.
  induction l as [|y l IH]; simpl; intros Hf Hx.
  - inversion Hx.
  - apply andb_true_iff in Hf as [Hy Hl].
    apply elem_of_cons in Hx as [->|Hx]; auto.
Qed.

Lemma elem_of_concat_map {A B} (g : A → list B) (l : list A) (x : A) (s : B) :
  x ∈ l → s ∈ g x → s ∈ concat (map g l).
Proof.
  induction l as [|y l IH]; simpl; intros Hx Hs.
  - inversion Hx.
  - apply elem_of_app. apply elem_of_cons in Hx as [->|Hx]; auto.
Qed.

Section Translation.
Import Index.

Variable o : Oracle.
Variable target : string.
Variable tr : string → string.

Lemma translate_ok (s : string) :
  google_translate o s target = Ok (tr s) →
  (translate o target s).1 = Ok (JStr (tr s)).
Proof. intros H. unfold translate. rewrite H. reflexivity. Qed.

Lemma field_ok (v : jsval) :
  plain v = true → answers o target tr v →
  (field (translateObject o target) o target v).1 = Ok (translate_spec tr v).
Proof.
  induction v as [| | | |s|items IH|es IH] using jsval_ind;
    intros Hplain Hans; try reflexivity.
  - apply translate_ok, Hans. simpl. left.
  - change (field (translateObject o target) o target (JArr items))
      with (bind (Promise_all o (map (λ item, match item with
                                              | JStr s => translate o target s
                                              | _ => translateObject o target item
                                              end) items))
                 (λ l, ret (JArr l))).
    assert (Hall :
      (Promise_all o (map (λ item, match item with
                                   | JStr s => translate o target s
                                   | _ => translateObject o target item
                                   end) items)).1
      = Ok (map (translate_spec tr) items)).
    { apply Promise_all_ok. simpl in Hplain.
      induction IH as [|item items Hitem _ IHitems]; simpl;
        constructor.
      - simpl in Hplain. apply andb_true_iff in Hplain as [Hi _].
        assert (Hai : answers o target tr item).
        { intros s Hs. apply Hans. simpl. apply elem_of_app. auto. }
        destruct item as [| | | |s|l|entries]; try discriminate.
        + apply translate_ok, Hai. simpl. left.
        + specialize (Hitem Hi Hai).
          change (field (translateObject o target) o target (JObj entries))
            with (await (translateObject o target (JObj entries))) in Hitem.
          rewrite await_fst in Hitem. exact Hitem.
      - apply IHitems.
        + simpl in Hplain. apply andb_true_iff in Hplain as [_ Hr]. exact Hr.
        + intros s Hs. apply Hans. simpl. apply elem_of_app. auto. }
    destruct (bind_ok _ (λ l, ret (JArr l)) _ Hall) as [-> _]. reflexivity.
  - simpl in Hplain. apply andb_true_iff in Hplain as [Hkeys Hes].
    apply andb_true_iff in Hkeys as [Hnd Hproto].
    apply bool_decide_eq_true in Hnd. apply bool_decide_eq_true in Hproto.
    change (field (translateObject o target) o target (JObj es))
      with (await (for_of (map (λ kv, (kv.1, field (translateObject o target)
                                                o target kv.2)) es) [])).
    rewrite await_fst.
    rewrite (for_of_ok (translate_spec tr)).
    + reflexivity.
    + exact Hnd.
    + exact Hproto.
    + apply Forall_forall. intros kv Hkv.
      rewrite Forall_forall in IH. apply (IH kv Hkv).
      * apply (forallb_elem_of (λ kv, plain kv.2) es kv Hes Hkv).
      * intros s Hs. apply Hans. simpl.
        apply (elem_of_concat_map (λ kv, leaves kv.2) es kv s Hkv Hs).
Qed.

Lemma translate_spec_shape (f : string → string) (v : jsval) :
  shape (translate_spec f v) = shape v.
Proof.
  unfold shape.
  induction v as [| | | |s|items IH|es IH] using jsval_ind; simpl;
    try reflexivity.
  - f_equal. rewrite map_map.
    induction IH as [|x l Hx _ IHl]; simpl; [reflexivity|].
    rewrite Hx, IHl. reflexivity.
  - f_equal. rewrite map_map.
    induction IH as [|x l Hx _ IHl]; simpl in *; [reflexivity|].
    f_equal; [f_equal; exact Hx | exact IHl].
Qed.
End Translation.


Lemma get_prop_defined (v x : jsval) (k k' : string) :
  get_prop v k = Ok x → ∃ y, get_prop v k' = Ok y.
Proof. destruct v; simpl; intros H; try discriminate; eauto. Qed.

(** C10.  When the text field of a translate request is the empty string
    or is absent, the handler answers 400 {success: false, error} at once
    and sends nothing to the translation service; hence a request that is
    answered with success: true carried a non-empty text. *)
Theorem empty_text_is_refused (o : Oracle) (reqbody text : jsval) :
  get_prop reqbody "text" = Ok text →
  (text = JStr "" ∨ text = JUndefined →
   Index.POST_translate o reqbody
   = (mkResponse 400 (JObj [("success", JBool false);
                            ("error", JStr "No text provided for translation")]),
      []))
  ∧ (get_prop (body (Index.POST_translate o reqbody).1) "success"
     = Ok (JBool true) →
     truthy text = true ∧ text ≠ JStr "" ∧ text ≠ JUndefined).
Proof.
  intros Htext.
  destruct (get_prop_defined reqbody text "text" "targetLanguage" Htext)
    as [lang Hlang].
  unfold Index.POST_translate. rewrite Htext, Hlang. split.
  - intros [-> | ->]; reflexivity.
  - destruct (truthy text) eqn:Ht; simpl; [|discriminate].
    intros _. split; [reflexivity|].
    split; intros ->; discriminate.
Qed.

Lemma empty_text_is_refused_witness :
  (JStr "" = JStr "" ∨ JStr "" = JUndefined →
   Index.POST_translate calm (JObj [("text", JStr "");
                                    ("targetLanguage", JStr "hindi")])
   = (mkResponse 400 (JObj [("success", JBool false);
                            ("error", JStr "No text provided for translation")]),
      []))
  ∧ (get_prop (body (Index.POST_translate calm
                       (JObj [("text", JStr "");
                              ("targetLanguage", JStr "hindi")])).1) "success"
     = Ok (JBool true) →
     truthy (JStr "") = true ∧ JStr "" ≠ JStr "" ∧ JStr "" ≠ JUndefined).
Proof.
  apply (empty_text_is_refused calm
           (JObj [("text", JStr ""); ("targetLanguage", JStr "hindi")])
           (JStr "")).
  reflexivity.
Defined.

Lemma keys_translate_spec (tr : string → string) (es : list (string * jsval)) :
  keys (translate_spec tr (JObj es)) = keys (JObj es).
Proof.
  simpl. induction es as [|kv es IH]; simpl; [reflexivity|].
  f_equal. exact IH.
Qed.

(** C7, counterexample.  A sequence that stands directly in a sequence is
    answered as a mapping keyed by the indices: the request succeeds, but
    the answer has a key 0 where the input has a sequence of length one,
    so the two do not have the same shape. *)
Lemma nested_sequence_becomes_mapping :
  Index.POST_translate calm
    (JObj [("text", JObj [("rows", JArr [JArr [JStr "a"]])])])
  = (mkResponse 200
       (JObj [("success", JBool true);
              ("translatedText",
               JObj [("rows", JArr [JObj [("0", JStr "en:a")]])])]),
     ["a"])
  ∧ shape (JObj [("rows", JArr [JObj [("0", JStr "en:a")]])])
    ≠ shape (JObj [("rows", JArr [JArr [JStr "a"]])]).
Proof. split; [reflexivity | discriminate]. Qed.

(** A field named __proto__ is translated and then lost: the assignment
    under this key makes no entry of the answer, whatever the order in
    which the computations go on. *)
Lemma proto_field_is_dropped (o : Oracle) :
  (∀ s, google_translate o s "en" = Ok ("en:" +:+ s)) →
  (Index.POST_translate o
     (JObj [("text", JObj [("__proto__", JObj [("a", JStr "x")]);
                           ("b", JStr "y")])])).1
  = mkResponse 200
      (JObj [("success", JBool true);
             ("translatedText", JObj [("b", JStr "en:y")])]).
Proof.
  intros Htr. unfold Index.POST_translate. simpl.
  unfold Index.translate. rewrite !Htr. reflexivity.
Qed.

(** C7, as the code has it.  For every structured value in which every
    sequence holds only strings and mappings and no mapping has a field
    named __proto__, and for which the translation service answers every
    string, translateObject returns, in whatever order the concurrent
    calls are made, the value with every string translated where it
    stands, the sequences and mappings walked and every other field kept:
    the same keys in the same order and the same shape, so the same array
    lengths, an empty sequence staying empty. *)
Theorem translateObject_mirrors_plain_values
    (o : Oracle) (target : string) (tr : string → string)
    (es : list (string * jsval)) :
  plain (JObj es) = true →
  answers o target tr (JObj es) →
  (Index.translateObject o target (JObj es)).1
  = Ok (translate_spec tr (JObj es))
  ∧ keys (translate_spec tr (JObj es)) = keys (JObj es)
  ∧ shape (translate_spec tr (JObj es)) = shape (JObj es).
Proof.
  intros Hplain Hans. split; [|split].
  - rewrite <- (field_ok o target tr (JObj es) Hplain Hans).
    simpl. rewrite await_fst. reflexivity.
  - apply keys_translate_spec.
  - apply translate_spec_shape.
Qed.

Lemma translateObject_mirrors_plain_values_witness :
  (Index.translateObject calm "hi" (JObj sample_summary)).1
  = Ok (translate_spec (λ s, "hi:" +:+ s) (JObj sample_summary))
  ∧ keys (translate_spec (λ s, "hi:" +:+ s) (JObj sample_summary))
    = keys (JObj sample_summary)
  ∧ shape (translate_spec (λ s, "hi:" +:+ s) (JObj sample_summary))
    = shape (JObj sample_summary).
Proof.
  apply (translateObject_mirrors_plain_values calm "hi" (λ s, "hi:" +:+ s)
           sample_summary).
  - reflexivity.
  - intros s _. reflexivity.
Defined.

(** * Further properties of the orchestrator *)

Section Runs.
Import Index.

Variable o : Oracle.
Variable docs : gmap ObjectId Document.
Variable id : ObjectId.
Variable d : Document.
Hypothesis Hfound : docs !! id = Some d.
Hypothesis Hid : _id d = id.

Ltac run_paths :=
  unfold processDocument, processDocument_catch, findById, save;
  rewrite ?Hfound; simpl; rewrite ?Hid;
  repeat (match goal with
          | |- context [match find_error ?o ?n with _ => _ end] =>
              destruct (find_error o n) eqn:?
          | |- context [match save_error ?o ?n with _ => _ end] =>
              destruct (save_error o n) eqn:?
          | |- context [match callPythonService ?o ?p ?m with _ => _ end] =>
              destruct (callPythonService o p m) eqn:?
          end; simpl; rewrite ?Hid).

(** Where a run leaves the record it was started for: the bookkeeping
    fields are never touched; a run that rejects leaves the record as it
    was or as processing; a run that resolves leaves it completed or
    failed, unless its lookup was refused, in which case the record is as
    it was. *)
Lemma processDocument_end :
  ∃ d', run_db (processDocument o docs id) !! id = Some d'
        ∧ _id d' = id ∧ user d' = user d ∧ path d' = path d
        ∧ originalName d' = originalName d ∧ uploadedAt d' = uploadedAt d
        ∧ match run_rejected (processDocument o docs id) with
          | Some e =>
              (d' = d ∨ d' = set_status processing d)
              ∧ (save_error o 1 = Some e ∨ save_error o 2 = Some e)
          | None =>
              (is_Some (find_error o 0) ∧ d' = d)
              ∨ (find_error o 0 = None
                 ∧ (status d' = completed ∨ status d' = failed))
          end.
Proof.
  run_paths; rewrite ?lookup_insert_eq; eexists; (split; [first [reflexivity | exact Hfound]|]);
    simpl; repeat split; auto; eauto.
Qed.

End Runs.

(** A run that finds its record and resolves has brought it to exactly
    one of completed and failed. *)
Theorem resolved_run_ends_terminal
    (o : Oracle) (docs : gmap ObjectId Document) (id : ObjectId)
    (d : Document) :
  docs !! id = Some d →
  _id d = id →
  find_error o 0 = None →
  Index.run_rejected (Index.processDocument o docs id) = None →
  ∃ d', Index.run_db (Index.processDocument o docs id) !! id = Some d'
        ∧ terminal (status d') = true
        ∧ user d' = user d.
Proof.
  intros Hfound Hid Hfind Hres.
  destruct (processDocument_end o docs id d Hfound Hid)
    as (d' & Hd' & _ & Hu & _ & _ & _ & Hend).
  rewrite Hres in Hend. exists d'. split; [exact Hd'|]. split; [|exact Hu].
  destruct Hend as [[[e He] _] | [_ [-> | ->]]]; [congruence | reflexivity..].
Qed.

Lemma resolved_run_ends_terminal_witness :
  ∃ d', Index.run_db (Index.processDocument nlp_down sample_db 5%N) !! 5%N
        = Some d'
        ∧ terminal (status d') = true
        ∧ user d' = user sample_document.
Proof.
  apply (resolved_run_ends_terminal nlp_down sample_db 5%N sample_document);
    reflexivity.
Defined.

(** A run rejects only with the message of a refused write of its catch
    block, and then it leaves the record as it found it or as processing:
    never completed or failed by this run. *)
Theorem rejected_run_leaves_record_stuck
    (o : Oracle) (docs : gmap ObjectId Document) (id : ObjectId)
    (d : Document) (e : string) :
  docs !! id = Some d →
  _id d = id →
  Index.run_rejected (Index.processDocument o docs id) = Some e →
  (Index.run_db (Index.processDocument o docs id) !! id = Some d
   ∨ Index.run_db (Index.processDocument o docs id) !! id
     = Some (set_status processing d))
  ∧ (save_error o 1 = Some e ∨ save_error o 2 = Some e).
Proof.
  intros Hfound Hid Hrej.
  destruct (processDocument_end o docs id d Hfound Hid)
    as (d' & Hd' & _ & _ & _ & _ & _ & Hend).
  rewrite Hrej in Hend. destruct Hend as [[-> | ->] Hsave]; auto.
Qed.

Lemma rejected_run_leaves_record_stuck_witness :
  (Index.run_db (Index.processDocument nlp_and_db_down sample_db 5%N) !! 5%N
   = Some sample_document
   ∨ Index.run_db (Index.processDocument nlp_and_db_down sample_db 5%N) !! 5%N
     = Some (set_status processing sample_document))
  ∧ (save_error nlp_and_db_down 1 = Some "db down"
     ∨ save_error nlp_and_db_down 2 = Some "db down").
Proof.
  apply (rejected_run_leaves_record_stuck nlp_and_db_down sample_db 5%N
           sample_document "db down"); reflexivity.
Defined.

(** The orchestrator does not look at the status it finds: started on the
    same record with any other status, it performs the same writes and
    ends the same way. *)
Theorem processDocument_ignores_status
    (o : Oracle) (docs : gmap ObjectId Document) (d : Document) (s : Status) :
  Index.run_writes
    (Index.processDocument o (<[_id d := set_status s d]> docs) (_id d))
  = Index.run_writes (Index.processDocument o (<[_id d := d]> docs) (_id d))
  ∧ Index.run_rejected
      (Index.processDocument o (<[_id d := set_status s d]> docs) (_id d))
    = Index.run_rejected (Index.processDocument o (<[_id d := d]> docs) (_id d)).
Proof.
  unfold Index.processDocument, Index.processDocument_catch, findById, save.
  rewrite !lookup_insert_eq. simpl.
  destruct (find_error o 0); [split; reflexivity|].
  destruct (save_error o 0); simpl.
  - destruct (save_error o 1); split; reflexivity.
  - destruct (Index.callPythonService o (path d) (mimetype d)); simpl;
      destruct (save_error o 1); simpl; try (split; reflexivity).
    destruct (save_error o 2); split; reflexivity.
Qed.

(** When the NLP service answers a JSON object without a summary entry,
    the record is completed all the same, with an undefined summary. *)
Theorem answer_without_summary_completes
    (o : Oracle) (docs : gmap ObjectId Document) (id : ObjectId)
    (d : Document) (es : list (string * jsval)) :
  docs !! id = Some d →
  _id d = id →
  find_error o 0 = None →
  save_error o 0 = None →
  save_error o 1 = None →
  nlp_response o = Some (JObj es) →
  assoc "summary" es = None →
  Index.run_db (Index.processDocument o docs id) !! id
  = Some (set_processedAt (now o)
            (set_status completed (set_summary JUndefined d)))
  ∧ Index.run_rejected (Index.processDocument o docs id) = None.
Proof.
  intros Hfound Hid Hfind Hs0 Hs1 Hnlp Hnone.
  apply (processDocument_success o docs id d Hfound Hid JUndefined);
    try assumption.
  unfold Index.callPythonService. rewrite Hnlp. simpl. rewrite Hnone.
  reflexivity.
Qed.

Lemma answer_without_summary_completes_witness :
  Index.run_db (Index.processDocument nlp_silent sample_db 5%N) !! 5%N
  = Some (set_processedAt (now nlp_silent)
            (set_status completed (set_summary JUndefined sample_document)))
  ∧ Index.run_rejected (Index.processDocument nlp_silent sample_db 5%N) = None.
Proof.
  apply (answer_without_summary_completes nlp_silent sample_db 5%N
           sample_document [("status", JStr "ok")]); reflexivity.
Defined.

(** * Further properties of the ingress handler *)

Lemma single_acceptable (fileFilter : Part.t → result bool)
    (filename : Oracle → Part.t → string) (allowed : list string)
    (message : string) (o : Oracle) (p : Part.t) (files : gset string) :
  (∀ file, fileFilter file
           = if bool_decide (Part.mimetype file ∈ allowed) then Ok true
             else Throw message) →
  Part.mimetype p ∈ allowed →
  (Part.size p < fileSize)%N →
  single fileFilter filename o (Some p) files
  = (Ok (Some (File.mk (filename o p) (Part.originalname p)
                       ("uploads/" +:+ filename o p) (Part.size p)
                       (Part.mimetype p))),
     {["uploads/" +:+ filename o p]} ∪ files).
Proof.
  intros Hfilter Hin Hsize. simpl. rewrite Hfilter.
  rewrite bool_decide_eq_true_2 by exact Hin.
  destruct (N.leb_spec fileSize (Part.size p)) as [Hle|_]; [lia|].
  reflexivity.
Qed.

(** Once multer has stored an acceptable part (an allowed media type,
    less than 20 MB), the file stays on disk whatever the handler
    answers; in particular, when the first save of the new record is
    refused, the request is answered 500, no record exists for the
    upload, and the stored file is left behind. *)
Theorem stored_file_outlives_the_request
    (o : Oracle) (u : UserId) (ip : string) (p : Part.t) (st : State) :
  Part.mimetype p ∈ Index.allowedTypes →
  (Part.size p < fileSize)%N →
  fs (Index.POST_upload o u ip (Some p) st).2
  = {["uploads/" +:+ Index.filename o p]} ∪ fs st
  ∧ (is_Some (create_error o) →
     code (Index.POST_upload o u ip (Some p) st).1 = 500
     ∧ db (Index.POST_upload o u ip (Some p) st).2 = db st).
Proof.
  intros Hin Hsize. unfold Index.POST_upload, Index.upload.
  rewrite (single_acceptable Index.fileFilter Index.filename
             Index.allowedTypes _ o p (fs st) (λ _, eq_refl) Hin Hsize).
  simpl. destruct (create_error o) as [e|]; simpl.
  - split; [reflexivity|]. intros _. split; reflexivity.
  - split; [|intros [e He]; discriminate].
    destruct (Index.run_rejected _); simpl; [reflexivity|].
    destruct (findById _ _ _ _) as [[?|]|?]; reflexivity.
Qed.

Lemma stored_file_outlives_the_request_witness :
  fs (Index.POST_upload create_fails 1%N "::1" (Some txt_part) sample_state).2
  = {["uploads/" +:+ Index.filename create_fails txt_part]} ∪ fs sample_state
  ∧ (is_Some (create_error create_fails) →
     code (Index.POST_upload create_fails 1%N "::1" (Some txt_part)
             sample_state).1 = 500
     ∧ db (Index.POST_upload create_fails 1%N "::1" (Some txt_part)
             sample_state).2 = db sample_state).
Proof.
  apply (stored_file_outlives_the_request create_fails 1%N "::1" txt_part
           sample_state).
  - apply (bool_decide_unpack _). vm_compute. exact I.
  - reflexivity.
Defined.

(** A 201 answer of the upload handler describes a record that is in the
    collection under a new id: it belongs to the uploader, the answer
    carries its stored status and fields, and that status is never
    processing; it is still uploaded only when the orchestrator's own
    lookup was refused. *)
Theorem upload_201_describes_stored_record
    (o : Oracle) (u : UserId) (ip : string) (part : option Part.t)
    (st : State) :
  code (Index.POST_upload o u ip part st).1 = 201 →
  ∃ d, db st !! _id d = None
       ∧ db (Index.POST_upload o u ip part st).2 !! _id d = Some d
       ∧ user d = u
       ∧ body (Index.POST_upload o u ip part st).1
         = JObj [("success", JBool true);
                 ("message", JStr "File uploaded and processed successfully.");
                 ("documentId", JId (_id d));
                 ("status", JStr (Status_to_string (status d)));
                 ("document", Index.document_json d)]
       ∧ status d ≠ processing
       ∧ (status d = uploaded → is_Some (find_error o 0)).
Proof.
  unfold Index.POST_upload.
  destruct (Index.upload o part (fs st)) as [[[file|]|e] files]; simpl;
    try discriminate.
  destruct (create_error o); simpl; [discriminate|].
  set (document := mkDocument _ _ _ _ _ _ _ _ _ _ _ _ _).
  destruct (processDocument_end o (<[new_id (db st) := document]> (db st))
              (new_id (db st)) document (lookup_insert_eq _ _ _) eq_refl)
    as (d' & Hd' & Hid' & Hu & _ & _ & _ & Hend).
  destruct (Index.run_rejected _); simpl; [discriminate|].
  unfold findById. destruct (find_error o 1); simpl; [discriminate|].
  rewrite Hd'. simpl. intros _. exists d'.
  rewrite Hid'. split; [apply new_id_fresh|]. split; [exact Hd'|].
  split; [exact Hu|]. split; [reflexivity|].
  destruct Hend as [[Hfind ->] | [Hfind [Hs | Hs]]]; rewrite ?Hs; simpl.
  - split; [discriminate | intros _; exact Hfind].
  - split; discriminate.
  - split; discriminate.
Qed.

Lemma upload_201_describes_stored_record_witness :
  ∃ d, db sample_state !! _id d = None
       ∧ db (Index.POST_upload calm 1%N "::1" (Some txt_part) sample_state).2
         !! _id d = Some d
       ∧ user d = 1%N
       ∧ body (Index.POST_upload calm 1%N "::1" (Some txt_part) sample_state).1
         = JObj [("success", JBool true);
                 ("message", JStr "File uploaded and processed successfully.");
                 ("documentId", JId (_id d));
                 ("status", JStr (Status_to_string (status d)));
                 ("document", Index.document_json d)]
       ∧ status d ≠ processing
       ∧ (status d = uploaded → is_Some (find_error calm 0)).
Proof.
  apply (upload_201_describes_stored_record calm 1%N "::1" (Some txt_part)
           sample_state).
  vm_compute. reflexivity.
Defined.

(** After a 201 answer, the status query of the uploader for the id just
    reported answers the status the upload reported, and the same query
    by any other user answers 404. *)
Theorem status_after_upload
    (o o' : Oracle) (u v : UserId) (ip : string) (part : option Part.t)
    (st : State) (id status : jsval) :
  code (Index.POST_upload o u ip part st).1 = 201 →
  get_prop (body (Index.POST_upload o u ip part st).1) "documentId" = Ok id →
  get_prop (body (Index.POST_upload o u ip part st).1) "status" = Ok status →
  find_error o' 0 = None →
  v ≠ u →
  ∃ n, id = JId n
       ∧ get_prop (body (Index.GET_status o' u n
                           (Index.POST_upload o u ip part st).2)) "status"
         = Ok status
       ∧ code (Index.GET_status o' u n (Index.POST_upload o u ip part st).2)
         = 200
       ∧ Index.GET_status o' v n (Index.POST_upload o u ip part st).2
         = not_found.
Proof.
  intros H201 Hid Hstatus Hfind Hv.
  destruct (upload_201_describes_stored_record o u ip part st H201)
    as (d & _ & Hd & Hu & Hbody & _).
  rewrite Hbody in Hid, Hstatus. simpl in Hid, Hstatus.
  injection Hid as <-. injection Hstatus as <-.
  exists (_id d). split; [reflexivity|].
  unfold Index.GET_status, findOne. rewrite Hfind, Hd.
  rewrite decide_True by exact Hu.
  rewrite decide_False by congruence.
  simpl. auto.
Qed.

Lemma status_after_upload_witness :
  ∃ n, JNum 10 = JId n
       ∧ get_prop (body (Index.GET_status calm 1%N n
                           (Index.POST_upload calm 1%N "::1" (Some txt_part)
                              sample_state).2)) "status"
         = Ok (JStr "completed")
       ∧ code (Index.GET_status calm 1%N n
                 (Index.POST_upload calm 1%N "::1" (Some txt_part)
                    sample_state).2) = 200
       ∧ Index.GET_status calm 2%N n
           (Index.POST_upload calm 1%N "::1" (Some txt_part) sample_state).2
         = not_found.
Proof.
  apply (status_after_upload calm calm 1%N 2%N "::1" (Some txt_part)
           sample_state (JNum 10) (JStr "completed"));
    [vm_compute; reflexivity .. | discriminate].
Defined.

(** * Further properties of the queries *)

(** The listing keeps the latest uploads: a completed record of the
    requester is listed, unless the listing is full with 20 records none
    of which was uploaded before it. *)
Theorem listing_keeps_the_latest
    (u : UserId) (docs : gmap ObjectId Document) (id : ObjectId)
    (d : Document) :
  docs !! id = Some d →
  user d = u →
  status d = completed →
  d ∈ Index.find_completed u docs
  ∨ (length (Index.find_completed u docs) = 20
     ∧ ∀ d', d' ∈ Index.find_completed u docs → Index.newer d' d).
Proof.
  intros Hd Hu Hs. unfold Index.find_completed.
  set (l := merge_sort Index.newer _).
  assert (Hin : d ∈ l).
  { unfold l. rewrite merge_sort_Permutation.
    apply list_elem_of_filter. split; [split; assumption|].
    apply list_elem_of_fmap. exists (id, d). split; [reflexivity|].
    apply elem_of_map_to_list. exact Hd. }
  assert (Hsorted : StronglySorted Index.newer l).
  { apply StronglySorted_merge_sort; apply _. }
  rewrite <- (take_drop 20 l) in Hin, Hsorted.
  apply elem_of_app in Hin as [Hin | Hin]; [left; exact Hin | right].
  split.
  - rewrite length_take. apply list_elem_of_lookup in Hin as [i Hi].
    apply lookup_lt_Some in Hi. rewrite length_drop in Hi. lia.
  - intros d' Hd'.
    exact (StronglySorted_app_1_elem_of _ _ _ _ _ Hsorted Hd' Hin).
Qed.

Lemma listing_keeps_the_latest_witness :
  done_document ∈ Index.find_completed 2%N (db sample_state)
  ∨ (length (Index.find_completed 2%N (db sample_state)) = 20
     ∧ ∀ d', d' ∈ Index.find_completed 2%N (db sample_state) →
             Index.newer d' done_document).
Proof.
  apply (listing_keeps_the_latest 2%N (db sample_state) 9%N done_document);
    reflexivity.
Defined.

(** Once its owner has removed a record, the queries answer 404 for its
    id to every user, a second removal answers 404 as well, and every
    other record is as before. *)
Theorem removed_record_is_gone
    (o o' : Oracle) (u v : UserId) (id : ObjectId) (st : State)
    (d : Document) :
  db st !! id = Some d →
  user d = u →
  find_error o 0 = None →
  find_error o' 0 = None →
  Index.GET_status o' v id (Routes.DELETE_document o u id st).2 = not_found
  ∧ Index.GET_document o' v id (Routes.DELETE_document o u id st).2
    = not_found
  ∧ Routes.DELETE_document o' v id (Routes.DELETE_document o u id st).2
    = (not_found, (Routes.DELETE_document o u id st).2)
  ∧ ∀ j, j ≠ id →
         db (Routes.DELETE_document o u id st).2 !! j = db st !! j.
Proof.
  intros Hd Hu Hf Hf'.
  assert (Hst : (Routes.DELETE_document o u id st).2
                = mkState (delete id (db st)) (fs st)).
  { unfold Routes.DELETE_document, findOne. rewrite Hf, Hd.
    rewrite decide_True by exact Hu. reflexivity. }
  rewrite Hst.
  unfold Index.GET_status, Index.GET_document, Routes.DELETE_document, findOne.
  rewrite Hf'. simpl. rewrite lookup_delete_eq.
  repeat split. intros j Hj. apply lookup_delete_ne. congruence.
Qed.

Lemma removed_record_is_gone_witness :
  Index.GET_status calm 2%N 9%N
    (Routes.DELETE_document calm 2%N 9%N sample_state).2 = not_found
  ∧ Index.GET_document calm 2%N 9%N
      (Routes.DELETE_document calm 2%N 9%N sample_state).2 = not_found
  ∧ Routes.DELETE_document calm 2%N 9%N
      (Routes.DELETE_document calm 2%N 9%N sample_state).2
    = (not_found, (Routes.DELETE_document calm 2%N 9%N sample_state).2)
  ∧ ∀ j, j ≠ 9%N →
         db (Routes.DELETE_document calm 2%N 9%N sample_state).2 !! j
         = db sample_state !! j.
Proof.
  apply (removed_record_is_gone calm calm 2%N 2%N 9%N sample_state
           done_document); reflexivity.
Defined.

(** A removal asked for by anyone but the owner leaves the state as it
    is and is answered exactly like the removal of an id that is not in
    the collection: with 404 when the lookup works. *)
Theorem foreign_removal_is_refused
    (o : Oracle) (v : UserId) (id id' : ObjectId) (st : State)
    (d : Document) :
  db st !! id = Some d →
  user d ≠ v →
  db st !! id' = None →
  Routes.DELETE_document o v id st = Routes.DELETE_document o v id' st
  ∧ (Routes.DELETE_document o v id st).2 = st
  ∧ (find_error o 0 = None →
     (Routes.DELETE_document o v id st).1 = not_found).
Proof.
  intros Hd Hv Hnone.
  destruct (findOne_foreign o (db st) id id' v d Hd Hv Hnone) as [Heq H404].
  unfold Routes.DELETE_document. rewrite <- Heq.
  destruct (find_error o 0) eqn:Hf.
  - unfold findOne. rewrite Hf. simpl. repeat split. discriminate.
  - rewrite H404 by reflexivity. simpl. repeat split.
Qed.

Lemma foreign_removal_is_refused_witness :
  Routes.DELETE_document calm 1%N 9%N sample_state
  = Routes.DELETE_document calm 1%N 4%N sample_state
  ∧ (Routes.DELETE_document calm 1%N 9%N sample_state).2 = sample_state
  ∧ (find_error calm 0 = None →
     (Routes.DELETE_document calm 1%N 9%N sample_state).1 = not_found).
Proof.
  apply (foreign_removal_is_refused calm 1%N 9%N 4%N sample_state
           done_document); [reflexivity | discriminate | reflexivity].
Defined.



(** * Further properties of the translation adapter *)

(** Leaving the computations without bursts aside changes no text. *)
Lemma concat_live {A} (running : list (list (list A))) :
  concat (concat (filter (λ bursts, bursts ≠ []) running))
  = concat (concat running).
Proof.
  induction running as [|bursts running IH]; [reflexivity|].
  rewrite filter_cons. destruct (decide (bursts ≠ [])) as [Hne|He].
  - simpl. rewrite !concat_app, IH. reflexivity.
  - apply dec_stable in He. subst bursts. exact IH.
Qed.

(** However the scheduler lets them go on, computations in progress send
    their texts, each as often as it is to be sent. *)
Lemma interleave_texts (o : Oracle) (fuel : nat)
    (running : list (list (list string))) :
  length (concat running) ≤ fuel →
  concat (Index.interleave o fuel running) ≡ₚ concat (concat running).
Proof.
  revert running. induction fuel as [|fuel IH]; intros running Hlen.
  - destruct (concat running) eqn:Hc; [reflexivity | simpl in Hlen; lia].
  - simpl. rewrite <- concat_live.
    assert (Hlive : length (concat (filter (λ bursts, bursts ≠ []) running))
                    ≤ S fuel).
    { etransitivity; [|exact Hlen]. clear.
      induction running as [|bursts running IH]; [reflexivity|].
      rewrite filter_cons. destruct (decide (bursts ≠ [])); simpl;
        rewrite ?length_app; lia. }
    assert (Hall : Forall (λ bursts, bursts ≠ [])
                     (filter (λ bursts, bursts ≠ []) running)).
    { apply Forall_forall. intros x Hx.
      apply list_elem_of_filter in Hx as [Hx _]. exact Hx. }
    set (live := filter (λ bursts, bursts ≠ []) running) in *.
    set (i := schedule o live `mod` length live).
    destruct (live !! i) as [[|burst rest]|] eqn:Hi.
    + rewrite Forall_forall in Hall.
      exfalso. apply (Hall [] (list_elem_of_lookup_2 _ _ _ Hi)). reflexivity.
    + rewrite <- (take_drop_middle live i (burst :: rest) Hi) at 2.
      rewrite <- (take_drop_middle live i (burst :: rest) Hi) in Hlive.
      rewrite concat_app, length_app in Hlive. simpl in Hlive.
      rewrite length_app in Hlive. simpl in Hlive.
      simpl. rewrite IH.
      * rewrite insert_take_drop by (eapply lookup_lt_Some; exact Hi).
        rewrite !concat_app. simpl. rewrite !concat_app.
        apply Permutation_app_swap_app.
      * rewrite insert_take_drop by (eapply lookup_lt_Some; exact Hi).
        rewrite concat_app, length_app. simpl. rewrite length_app. lia.
    + destruct live as [|bursts live'] eqn:Hl; [reflexivity|].
      apply lookup_ge_None in Hi. exfalso.
      assert (i < length (bursts :: live'));
        [apply Nat.mod_upper_bound; discriminate | lia].
Qed.

(** The texts under one [Promise.all] are those of its computations. *)
Lemma Promise_all_texts {A} (o : Oracle) (ps : list (Index.T A)) :
  concat (Index.Promise_all o ps).2 ≡ₚ concat (map (λ p, concat p.2) ps).
Proof.
  unfold Index.Promise_all. simpl.
  rewrite interleave_texts by reflexivity.
  induction ps as [|[r [|burst bursts]] ps IH]; simpl; [reflexivity|exact IH|].
  rewrite concat_app. simpl.
  rewrite <- !app_assoc. apply Permutation_app_head.
  rewrite <- IH.
  rewrite !app_assoc. apply Permutation_app_tail. apply Permutation_app_comm.
Qed.

Section Calls.
Import Index.

Variable o : Oracle.
Variable target : string.

Local Abbreviation sends := (sends o target).

Lemma sends_ret {A} (a : A) : sends (ret a) [].
Proof.
  intros a' _. split; [reflexivity|]. intros s Hs. inversion Hs.
Qed.

Lemma sends_throw {A} (e : string) (L : list string) : sends (@throw A e) L.
Proof. intros a H. discriminate H. Qed.

Lemma sends_translate (s : string) : sends (translate o target s) [s].
Proof.
  intros a. unfold translate. simpl.
  destruct (google_translate o s target) as [t|e] eqn:Ht; intros H;
    [|discriminate].
  split; [reflexivity|].
  intros s' Hs'. apply list_elem_of_singleton in Hs' as ->. eauto.
Qed.

Lemma sends_bind {A B} (m : T A) (k : A → T B) (L L' : list string) :
  sends m L → (∀ a, sends (k a) L') → sends (bind m k) (L ++ L')%list.
Proof.
  intros Hm Hk b Hb.
  destruct (bind_Ok_inv m k b Hb) as (a & Ha & Hka).
  destruct (bind_ok m k a Ha) as [_ ->].
  destruct (Hm a Ha) as [HL Hans]. destruct (Hk a b Hka) as [HL' Hans'].
  rewrite concat_app, HL, HL'. split; [reflexivity|].
  intros s Hs. apply elem_of_app in Hs as [Hs|Hs]; auto.
Qed.

Lemma sends_await {A} (m : T A) (L : list string) :
  sends m L → sends (await m) L.
Proof.
  intros Hm a Ha. rewrite await_fst in Ha. rewrite await_texts.
  exact (Hm a Ha).
Qed.

Lemma sends_Promise_all {A} (ps : list (T A)) (Ls : list (list string)) :
  Forall2 sends ps Ls → sends (Promise_all o ps) (concat Ls).
Proof.
  intros Hps xs Hxs. rewrite Promise_all_texts.
  apply settle_Ok_inv in Hxs. rewrite Forall_fmap in Hxs.
  induction Hps as [|p L ps Ls Hp _ IH]; simpl.
  - split; [reflexivity|]. intros s Hs. inversion Hs.
  - apply Forall_cons in Hxs as [[x Hx] Hxs].
    destruct (Hp x Hx) as [HL Hans]. destruct (IH Hxs) as [HLs Hanss].
    rewrite HL, HLs. split; [reflexivity|].
    intros s Hs. apply elem_of_app in Hs as [Hs|Hs]; auto.
Qed.

Lemma sends_for_of (entries : list (string * T jsval))
    (Ls : list (list string)) :
  Forall2 (λ e L, sends e.2 L) entries Ls →
  ∀ acc, sends (for_of entries acc) (concat Ls).
Proof.
  induction 1 as [|[key m] L entries Ls Hm _ IH]; intros acc; simpl.
  - apply sends_ret.
  - apply sends_bind; [exact Hm|]. intros v. apply IH.
Qed.

Lemma sends_field_and_translateObject (v : jsval) :
  sends (field (translateObject o target) o target v) (leaves v)
  ∧ (is_string v = false → sends (translateObject o target v) (leaves v)).
Proof.
  induction v as [| | | |s|items IH|es IH] using jsval_ind.
  - split; [|intros _]; [apply sends_ret | apply sends_throw].
  - split; [|intros _]; [apply sends_ret | apply sends_throw].
  - split; [|intros _]; apply sends_ret.
  - split; [|intros _]; apply sends_ret.
  - split; [apply sends_translate | discriminate].
  - split; [|intros _].
    + change (field (translateObject o target) o target (JArr items))
        with (bind (Promise_all o (map (λ item, match item with
                                                | JStr s => translate o target s
                                                | _ => translateObject o target item
                                                end) items))
                   (λ l, ret (JArr l))).
      simpl leaves. rewrite <- (app_nil_r (concat _)).
      apply sends_bind; [|intros l; apply sends_ret].
      apply sends_Promise_all.
      induction IH as [|item items [_ Hitem] _ IHitems]; simpl;
        constructor; [|exact IHitems].
      destruct item; try (apply Hitem; reflexivity).
      apply sends_translate.
    + simpl. apply sends_for_of. generalize 0.
      induction IH as [|item items [Hitem _] _ IHitems]; intros k; simpl;
        constructor; [exact Hitem | apply IHitems].
  - assert (Hobj : sends (translateObject o target (JObj es))
                     (leaves (JObj es))).
    { simpl. apply sends_for_of.
      induction IH as [|kv es [Hkv _] _ IHes]; simpl; constructor;
        [exact Hkv | exact IHes]. }
    split; [|intros _; exact Hobj].
    change (field (translateObject o target) o target (JObj es))
      with (await (translateObject o target (JObj es))).
    apply sends_await. exact Hobj.
Qed.
End Calls.

Section Order.
Import Index.

Variable o : Oracle.
Variable target : string.

Lemma in_order_ret {A} (a : A) : sends_in_order (ret a) [].
Proof. intros a' _. reflexivity. Qed.

Lemma in_order_translate (s : string) :
  sends_in_order (translate o target s) [s].
Proof. intros a _. reflexivity. Qed.

Lemma in_order_bind {A B} (m : T A) (k : A → T B) (L L' : list string) :
  sends_in_order m L → (∀ a, sends_in_order (k a) L') →
  sends_in_order (bind m k) (L ++ L')%list.
Proof.
  intros Hm Hk b Hb.
  destruct (bind_Ok_inv m k b Hb) as (a & Ha & Hka).
  destruct (bind_ok m k a Ha) as [_ ->].
  rewrite concat_app, (Hm a Ha), (Hk a b Hka). reflexivity.
Qed.

Lemma in_order_await {A} (m : T A) (L : list string) :
  sends_in_order m L → sends_in_order (await m) L.
Proof.
  intros Hm a Ha. rewrite await_fst in Ha. rewrite await_texts.
  exact (Hm a Ha).
Qed.

Lemma in_order_for_of (entries : list (string * T jsval))
    (Ls : list (list string)) :
  Forall2 (λ e L, sends_in_order e.2 L) entries Ls →
  ∀ acc, sends_in_order (for_of entries acc) (concat Ls).
Proof.
  induction 1 as [|[key m] L entries Ls Hm _ IH]; intros acc; simpl.
  - apply in_order_ret.
  - apply in_order_bind; [exact Hm|]. intros v. apply IH.
Qed.

(** Strings under one [Promise.all] are all sent while [map] visits
    them: one burst, in the order of the elements. *)
Lemma Promise_all_strings (self : jsval → T jsval) (items : list jsval) :
  forallb is_string items = true →
  (Promise_all o (map (λ item, match item with
                               | JStr s => translate o target s
                               | _ => self item
                               end) items)).2
  = [concat (map leaves items)].
Proof.
  intros Hitems. unfold Promise_all. simpl.
  assert (Hrun : map (λ p : T jsval, tail p.2)
                   (map (λ item, match item with
                                 | JStr s => translate o target s
                                 | _ => self item
                                 end) items)
                 = map (λ _, []) items).
  { induction items as [|[| | | |s| |] items IH]; simpl in *;
      try discriminate; [reflexivity|]. rewrite IH by exact Hitems.
    reflexivity. }
  rewrite Hrun.
  assert (Hnone : concat (map (λ _ : jsval, @nil (list string)) items) = []).
  { clear. induction items; simpl; auto. }
  rewrite Hnone. simpl. f_equal. clear Hrun Hnone.
  induction items as [|[| | | |s| |] items IH]; simpl in *;
    try discriminate; [reflexivity|].
  rewrite IH by exact Hitems. reflexivity.
Qed.

Lemma in_order_field_and_translateObject (v : jsval) :
  flat v = true →
  sends_in_order (field (translateObject o target) o target v) (leaves v)
  ∧ (is_string v = false →
     sends_in_order (translateObject o target v) (leaves v)).
Proof.
  induction v as [| | | |s|items IH|es IH] using jsval_ind; intros Hflat.
  - split; [|intros _]; [apply in_order_ret | intros a Ha; discriminate Ha].
  - split; [|intros _]; [apply in_order_ret | intros a Ha; discriminate Ha].
  - split; [|intros _]; apply in_order_ret.
  - split; [|intros _]; apply in_order_ret.
  - split; [apply in_order_translate | discriminate].
  - simpl in Hflat. split; [|intros _].
    + change (field (translateObject o target) o target (JArr items))
        with (bind (Promise_all o (map (λ item, match item with
                                                | JStr s => translate o target s
                                                | _ => translateObject o target item
                                                end) items))
                   (λ l, ret (JArr l))).
      simpl leaves. rewrite <- (app_nil_r (concat _)).
      apply in_order_bind; [|intros l; apply in_order_ret].
      intros a _. rewrite Promise_all_strings by exact Hflat.
      simpl. apply app_nil_r.
    + simpl. apply in_order_for_of. generalize 0.
      induction items as [|[| | | |s| |] items IHitems]; intros k;
        simpl in *; try discriminate; constructor.
      * apply in_order_translate.
      * apply IHitems; [|exact Hflat].
        apply Forall_cons in IH as [_ IH]. exact IH.
  - simpl in Hflat.
    assert (Hobj : sends_in_order (translateObject o target (JObj es))
                     (leaves (JObj es))).
    { simpl. apply in_order_for_of.
      induction IH as [|kv es Hkv _ IHes]; simpl in *; constructor.
      - apply andb_true_iff in Hflat as [Hkvf _]. apply (Hkv Hkvf).
      - apply IHes. apply andb_true_iff in Hflat as [_ Hesf]. exact Hesf. }
    split; [|intros _; exact Hobj].
    change (field (translateObject o target) o target (JObj es))
      with (await (translateObject o target (JObj es))).
    apply in_order_await. exact Hobj.
Qed.
End Order.

(** When translateObject succeeds on a value that is not a bare string,
    it has sent every string of the value to the translation service,
    each as often as it stands in the value and none besides, in whatever
    order the concurrent calls were made, and every one of these calls
    was answered: a value with a string whose translation fails is never
    answered in part.  When every sequence of the value holds only
    strings, the calls were made in the order of the traversal. *)
Theorem translateObject_sends_each_string_once
    (o : Oracle) (target : string) (v v' : jsval)
    (bursts : list (list string)) :
  is_string v = false →
  Index.translateObject o target v = (Ok v', bursts) →
  concat bursts ≡ₚ leaves v
  ∧ (∀ s, s ∈ leaves v → ∃ t, google_translate o s target = Ok t)
  ∧ (flat v = true → concat bursts = leaves v).
Proof.
  intros Hv Hrun.
  destruct (sends_field_and_translateObject o target v) as [_ Hsends].
  specialize (Hsends Hv v'). rewrite Hrun in Hsends.
  destruct (Hsends eq_refl) as [Hperm Hans].
  split; [exact Hperm|]. split; [exact Hans|].
  intros Hflat.
  destruct (in_order_field_and_translateObject o target v Hflat) as [_ Horder].
  specialize (Horder Hv v'). rewrite Hrun in Horder. exact (Horder eq_refl).
Qed.

Lemma translateObject_sends_each_string_once_witness :
  concat [["1"; "3"]; ["2"]; ["4"]] ≡ₚ leaves two_rows
  ∧ (∀ s, s ∈ leaves two_rows → ∃ t, google_translate calm s "hi" = Ok t)
  ∧ (flat two_rows = true
     → concat [["1"; "3"]; ["2"]; ["4"]] = leaves two_rows).
Proof.
  apply (translateObject_sends_each_string_once calm "hi" two_rows
           (translate_spec (λ s, "hi:" +:+ s) two_rows)
           [["1"; "3"]; ["2"]; ["4"]]);
    reflexivity.
Defined.

Lemma target_language_cases (lang : jsval) :
  (lang = JStr "hindi"
   ∧ match lang with JStr "hindi" => "hi" | _ => "en" end = "hi")
  ∨ (lang ≠ JStr "hindi"
     ∧ match lang with JStr "hindi" => "hi" | _ => "en" end = "en").
Proof.
  destruct lang as [| | | |s| |]; try (right; split; [discriminate | reflexivity]).
  destruct (decide (s = "hindi")) as [->|Hs]; [left; split; reflexivity|].
  right. split; [congruence|].
  repeat (match goal with
          | |- context [match ?x with _ => _ end] => destruct x
          end; try reflexivity).
  exfalso. apply Hs. reflexivity.
Qed.

(** A non-empty plain string is sent to the translation service in one
    call, towards hi when the target language is the string hindi and
    towards en for every other or absent target language; the answer is
    the translated string, or a 500 with the service's message. *)
Theorem plain_text_is_translated_in_one_call
    (o : Oracle) (reqbody lang : jsval) (s : string) :
  get_prop reqbody "text" = Ok (JStr s) →
  s ≠ "" →
  get_prop reqbody "targetLanguage" = Ok lang →
  ∃ target,
    (lang = JStr "hindi" ∧ target = "hi" ∨ lang ≠ JStr "hindi" ∧ target = "en")
    ∧ Index.POST_translate o reqbody
      = (match google_translate o s target with
         | Ok t =>
             mkResponse 200 (JObj [("success", JBool true);
                                   ("translatedText", JStr t)])
         | Throw e =>
             mkResponse 500
               (JObj [("success", JBool false);
                      ("error", JStr (message_or e "Translation failed"))])
         end, [s]).
Proof.
  intros Htext Hs Hlang. unfold Index.POST_translate.
  rewrite Htext, Hlang. simpl.
  destruct (String.eqb_spec s "") as [->|_]; [contradiction|]. simpl.
  destruct (target_language_cases lang) as [[Hl ->] | [Hl ->]].
  - exists "hi". split; [left; auto|]. unfold Index.translate.
    destruct (google_translate o s "hi"); reflexivity.
  - exists "en". split; [right; auto|]. unfold Index.translate.
    destruct (google_translate o s "en"); reflexivity.
Qed.

Lemma plain_text_is_translated_in_one_call_witness :
  ∃ target,
    (JUndefined = JStr "hindi" ∧ target = "hi"
     ∨ JUndefined ≠ JStr "hindi" ∧ target = "en")
    ∧ Index.POST_translate calm (JObj [("text", JStr "Hello")])
      = (match google_translate calm "Hello" target with
         | Ok t =>
             mkResponse 200 (JObj [("success", JBool true);
                                   ("translatedText", JStr t)])
         | Throw e =>
             mkResponse 500
               (JObj [("success", JBool false);
                      ("error", JStr (message_or e "Translation failed"))])
         end, ["Hello"]).
Proof.
  apply (plain_text_is_translated_in_one_call calm
           (JObj [("text", JStr "Hello")]) JUndefined "Hello");
    [reflexivity | discriminate | reflexivity].
Defined.

(** A structured text that is answered with success was sent to the
    translation service string by string, each as often as it stands in
    the text and nothing besides; when the service refuses one of its
    strings, the answer is a 500 and no translated value is returned. *)
Theorem structured_text_is_never_answered_in_part
    (o : Oracle) (reqbody text : jsval) :
  get_prop reqbody "text" = Ok text →
  is_string text = false →
  (code (Index.POST_translate o reqbody).1 = 200 →
   (Index.POST_translate o reqbody).2 ≡ₚ leaves text)
  ∧ ((∃ s, s ∈ leaves text
           ∧ ∀ target t, google_translate o s target ≠ Ok t) →
     code (Index.POST_translate o reqbody).1 = 500
     ∧ get_prop (body (Index.POST_translate o reqbody).1) "translatedText"
       = Ok JUndefined).
Proof.
  intros Htext Hns.
  destruct (get_prop_defined reqbody text "text" "targetLanguage" Htext)
    as [lang Hlang].
  unfold Index.POST_translate. rewrite Htext, Hlang.
  destruct (truthy text) eqn:Htruthy; simpl.
  2:{ split; [discriminate|]. intros (s & Hs & _).
      destruct text; try discriminate; inversion Hs. }
  set (target := match lang with JStr "hindi" => "hi" | _ => "en" end).
  assert (Hrun :
    (let '(r, bursts) :=
       match text with
       | JStr s => Index.translate o target s
       | _ => Index.await (Index.translateObject o target text)
       end in
     match r with
     | Ok translatedText =>
         (mkResponse 200 (JObj [("success", JBool true);
                                ("translatedText", translatedText)]),
          concat bursts)
     | Throw e =>
         (mkResponse 500
            (JObj [("success", JBool false);
                   ("error", JStr (message_or e "Translation failed"))]),
          concat bursts)
     end)
    = match (Index.translateObject o target text).1 with
      | Ok translatedText =>
          (mkResponse 200 (JObj [("success", JBool true);
                                 ("translatedText", translatedText)]),
           concat (Index.translateObject o target text).2)
      | Throw e =>
          (mkResponse 500
             (JObj [("success", JBool false);
                    ("error", JStr (message_or e "Translation failed"))]),
           concat (Index.translateObject o target text).2)
      end).
  { assert (Hawait : ∀ p : Index.T jsval,
      (let '(r, bursts) := Index.await p in
       match r with
       | Ok translatedText =>
           (mkResponse 200 (JObj [("success", JBool true);
                                  ("translatedText", translatedText)]),
            concat bursts)
       | Throw e =>
           (mkResponse 500
              (JObj [("success", JBool false);
                     ("error", JStr (message_or e "Translation failed"))]),
            concat bursts)
       end)
      = match p.1 with
        | Ok translatedText =>
            (mkResponse 200 (JObj [("success", JBool true);
                                   ("translatedText", translatedText)]),
             concat p.2)
        | Throw e =>
            (mkResponse 500
               (JObj [("success", JBool false);
                      ("error", JStr (message_or e "Translation failed"))]),
             concat p.2)
        end).
    { intros [r [|burst bursts]]; reflexivity. }
    destruct text; try discriminate Hns; apply Hawait. }
  rewrite Hrun. clear Hrun.
  destruct (sends_field_and_translateObject o target text) as [_ Hsends].
  specialize (Hsends Hns).
  destruct (Index.translateObject o target text) as [[v'|e] bursts]; simpl.
  - destruct (Hsends v' eq_refl) as [Hperm Hall]. split; [intros _; exact Hperm|].
    intros (s & Hs & Hfail). destruct (Hall s Hs) as [t Ht].
    exfalso. exact (Hfail target t Ht).
  - split; [discriminate|]. intros _. split; reflexivity.
Qed.

Lemma structured_text_is_never_answered_in_part_witness :
  (code (Index.POST_translate translation_down
           (JObj [("text", JObj sample_summary)])).1 = 200 →
   (Index.POST_translate translation_down
      (JObj [("text", JObj sample_summary)])).2
   ≡ₚ leaves (JObj sample_summary))
  ∧ ((∃ s, s ∈ leaves (JObj sample_summary)
           ∧ ∀ target t, google_translate translation_down s target ≠ Ok t) →
     code (Index.POST_translate translation_down
             (JObj [("text", JObj sample_summary)])).1 = 500
     ∧ get_prop (body (Index.POST_translate translation_down
                         (JObj [("text", JObj sample_summary)])).1)
         "translatedText"
       = Ok JUndefined).
Proof.
  apply (structured_text_is_never_answered_in_part translation_down
           (JObj [("text", JObj sample_summary)]) (JObj sample_summary));
    reflexivity.
Defined.



(** * Properties of the anonymous variant *)

(** An acceptable upload to the anonymous variant (an allowed media type,
    less than 20 MB, the save passing) is answered 201 with the status
    uploaded, whatever the processing it starts will do: the collection
    gains exactly one record, under an id it did not hold, with the
    defaults of the schema, an empty summary and no processing time; the
    file is on disk under the record's path; and processing has been
    started for that id.  The document query then answers the record
    with no error. *)
Theorem anonymous_upload_creates_uploaded_record
    (o o' : Oracle) (p : Part.t) (docs : gmap ObjectId Anonymous.Document)
    (files : gset string) :
  Part.mimetype p ∈ Index.allowedTypes →
  (Part.size p < fileSize)%N →
  create_error o = None →
  find_error o' 0 = None →
  ∃ d, Anonymous.POST_upload o (Some p) docs files
       = (mkResponse 201
            (JObj [("success", JBool true);
                   ("message",
                    JStr "File uploaded successfully. Processing started.");
                   ("documentId", JId (Anonymous._id d));
                   ("status", JStr "uploaded")]),
          <[Anonymous._id d := d]> docs,
          {[Anonymous.path d]} ∪ files,
          Some (Anonymous._id d))
       ∧ docs !! Anonymous._id d = None
       ∧ Anonymous.status d = uploaded
       ∧ Anonymous.summary d = Some ""
       ∧ Anonymous.processedAt d = None
       ∧ summary_xor_error_anonymous d = true
       ∧ Anonymous.originalName d = Part.originalname p
       ∧ Anonymous.path d = "uploads/" +:+ Index.filename o p
       ∧ get_prop (body (Anonymous.GET_document o' (Anonymous._id d)
                           (<[Anonymous._id d := d]> docs))) "document"
         = Ok (Anonymous.document_json (Anonymous.mkLoaded d None JUndefined)).
Proof.
  intros Hin Hsize Hcreate Hfind.
  unfold Anonymous.POST_upload, Anonymous.upload, Index.upload.
  rewrite (single_acceptable Index.fileFilter Index.filename
             Index.allowedTypes _ o p files (λ _, eq_refl) Hin Hsize).
  simpl. rewrite Hcreate.
  exists (Anonymous.mkDocument (fresh (dom docs)) (Index.filename o p)
            (Part.originalname p) ("uploads/" +:+ Index.filename o p)
            (Part.size p) (Part.mimetype p) (Some "") uploaded (now o) None).
  split; [reflexivity|]. simpl.
  split; [apply not_elem_of_dom, is_fresh|].
  repeat (split; [reflexivity|]).
  unfold Anonymous.GET_document, Anonymous.findById.
  rewrite Hfind, lookup_insert_eq. reflexivity.
Qed.

Lemma anonymous_upload_creates_uploaded_record_witness :
  ∃ d, Anonymous.POST_upload calm (Some txt_part) early_db ∅
       = (mkResponse 201
            (JObj [("success", JBool true);
                   ("message",
                    JStr "File uploaded successfully. Processing started.");
                   ("documentId", JId (Anonymous._id d));
                   ("status", JStr "uploaded")]),
          <[Anonymous._id d := d]> early_db,
          {[Anonymous.path d]} ∪ ∅,
          Some (Anonymous._id d))
       ∧ early_db !! Anonymous._id d = None
       ∧ Anonymous.status d = uploaded
       ∧ Anonymous.summary d = Some ""
       ∧ Anonymous.processedAt d = None
       ∧ summary_xor_error_anonymous d = true
       ∧ Anonymous.originalName d = Part.originalname txt_part
       ∧ Anonymous.path d = "uploads/" +:+ Index.filename calm txt_part
       ∧ get_prop (body (Anonymous.GET_document calm (Anonymous._id d)
                           (<[Anonymous._id d := d]> early_db))) "document"
         = Ok (Anonymous.document_json (Anonymous.mkLoaded d None JUndefined)).
Proof.
  apply (anonymous_upload_creates_uploaded_record calm calm txt_part early_db ∅).
  - apply (bool_decide_unpack _). vm_compute. exact I.
  - reflexivity.
  - reflexivity.
  - reflexivity.
Defined.

(** * Properties of the session handling *)

(** What the query by address finds: a user of the collection with this
    address, or nothing when no user has it. *)
Lemma findOne_found (a : AuthEnv) (users : gmap UserId User.t)
    (address : string) (user : User.t) :
  Auth.findOne a users address = Ok (Some user) →
  User.email user = address ∧ ∃ id, users !! id = Some user.
Proof.
  unfold Auth.findOne. destruct (users_error a); [discriminate|].
  intros H. injection H as H. apply head_Some_elem_of in H.
  apply list_elem_of_filter in H as [He H].
  apply list_elem_of_fmap in H as [[id u] [-> H]].
  apply elem_of_map_to_list in H. eauto.
Qed.

Lemma findOne_missing (a : AuthEnv) (users : gmap UserId User.t)
    (address : string) :
  users_error a = None →
  (∀ id user, users !! id = Some user → User.email user ≠ address) →
  Auth.findOne a users address = Ok None.
Proof.
  intros Hq Hnone. unfold Auth.findOne. rewrite Hq. f_equal.
  destruct (head _) as [user|] eqn:H; [|reflexivity].
  destruct (findOne_found a users address user) as [He [id Hid]].
  - unfold Auth.findOne. rewrite Hq, H. reflexivity.
  - exfalso. exact (Hnone id user Hid He).
Qed.

Lemma findOne_present (a : AuthEnv) (users : gmap UserId User.t)
    (address : string) (id : UserId) (user : User.t) :
  users_error a = None →
  users !! id = Some user →
  User.email user = address →
  ∃ user', Auth.findOne a users address = Ok (Some user').
Proof.
  intros Hq Hid He. unfold Auth.findOne. rewrite Hq.
  destruct (head _) as [user'|] eqn:H; [eauto|].
  apply head_None in H. exfalso.
  apply (filter_nil_not_elem_of _ _ user H He).
  apply list_elem_of_fmap. exists (id, user). split; [reflexivity|].
  apply elem_of_map_to_list. exact Hid.
Qed.

(** A request to a protected route is answered 401, whatever it asks and
    whatever the server holds, and leaves the state as it is, when it
    carries no token or an empty one, when the token does not verify, when
    the user of the token is no longer in the collection, or when the
    users collection cannot be queried. *)
Theorem request_without_session_is_refused
    (a : AuthEnv) (o : Oracle) (users : gmap UserId User.t)
    (token : option string) :
  token = None
  ∨ token = Some ""
  ∨ (∃ t e, token = Some t ∧ verify a t = Throw e)
  ∨ (∃ t id, token = Some t ∧ verify a t = Ok id ∧ users !! id = None)
  ∨ is_Some (users_error a) →
  ∃ r, code r = 401
       ∧ ∀ req st, serve a o users token req st = (r, st).
Proof.
  intros Hcase.
  assert (H : ∃ r, code r = 401 ∧ Auth.authenticateToken a users token = inl r).
  { unfold Auth.authenticateToken, Auth.findById.
    destruct Hcase as [-> | [-> | [(t & e & -> & Hv) | [(t & id & -> & Hv & Hu)
                     | [e He]]]]].
    - eexists; split; [|reflexivity]; reflexivity.
    - eexists; split; [|reflexivity]; reflexivity.
    - destruct t; [eexists; split; [|reflexivity]; reflexivity|].
      rewrite Hv. eexists; split; [|reflexivity]; reflexivity.
    - destruct t; [eexists; split; [|reflexivity]; reflexivity|].
      rewrite Hv, Hu. destruct (users_error a);
        eexists; (split; [|reflexivity]); reflexivity.
    - rewrite He. destruct token as [[|c t]|];
        try (eexists; split; [|reflexivity]; reflexivity).
      destruct (verify a (String c t));
        eexists; (split; [|reflexivity]); reflexivity. }
  destruct H as (r & Hr & Hauth). exists r. split; [exact Hr|].
  intros req st. unfold serve. rewrite Hauth. reflexivity.
Qed.

(** The log-in answers 401 "Invalid email or password", and sets no
    cookie, both when no user has the address and when the password does
    not match that of the users who have it: the two answers are equal. *)
Theorem login_refusals_are_uniform
    (a : AuthEnv) (users : gmap UserId User.t)
    (address address' : string) (pass pass' : jsval)
    (id' : UserId) (user' : User.t) :
  users_error a = None →
  address ≠ "" → address' ≠ "" →
  truthy pass = true → truthy pass' = true →
  (∀ id user, users !! id = Some user →
              User.email user ≠ toLowerCase a address) →
  users !! id' = Some user' →
  User.email user' = toLowerCase a address' →
  (∀ id user, users !! id = Some user →
              User.email user = toLowerCase a address' →
              comparePassword a user pass' = Ok false) →
  Auth.POST_login a users (JObj [("email", JStr address); ("password", pass)])
  = (Auth.refusal 401 "Invalid email or password", KeepCookie)
  ∧ Auth.POST_login a users
      (JObj [("email", JStr address'); ("password", pass')])
    = (Auth.refusal 401 "Invalid email or password", KeepCookie).
Proof.
  intros Hq Ha Ha' Hp Hp' Hnone Hid' He' Hwrong.
  unfold Auth.POST_login. simpl. rewrite Hp, Hp'.
  destruct (String.eqb_spec address "") as [?|_]; [contradiction|].
  destruct (String.eqb_spec address' "") as [?|_]; [contradiction|].
  simpl. split.
  - rewrite (findOne_missing a users _ Hq Hnone). reflexivity.
  - destruct (findOne_present a users _ id' user' Hq Hid' He') as [u Hu].
    rewrite Hu. destruct (findOne_found a users _ u Hu) as [Heu [id Hidu]].
    rewrite (Hwrong id u Hidu Heu). reflexivity.
Qed.

(** The log-in sets the token cookie only together with a 200 answer, and
    only to the token signed for a user of the collection whose password
    check accepted the password of the request. *)
Theorem login_sets_cookie_only_for_matching_password
    (a : AuthEnv) (users : gmap UserId User.t) (reqbody : jsval)
    (r : Response) (token : string) :
  Auth.POST_login a users reqbody = (r, SetToken token) →
  code r = 200
  ∧ ∃ id user pass,
      users !! id = Some user
      ∧ get_prop reqbody "password" = Ok pass
      ∧ comparePassword a user pass = Ok true
      ∧ token = sign a (User._id user).
Proof.
  unfold Auth.POST_login.
  destruct (get_prop reqbody "email") as [email|]; [|discriminate].
  destruct (get_prop reqbody "password") as [pass|]; [|discriminate].
  destruct (negb (truthy email) || negb (truthy pass)); [discriminate|].
  destruct email; try discriminate.
  destruct (Auth.findOne a users _) as [[user|]|] eqn:Hfind; try discriminate.
  destruct (comparePassword a user pass) as [[|]|] eqn:Hcmp; try discriminate.
  intros H. injection H as <- <-. split; [reflexivity|].
  destruct (findOne_found a users _ user Hfind) as [_ [id Hid]].
  exists id, user, pass. auto.
Qed.

(** The token cookie set by a log-in opens the session of the user who
    logged in: when it is presented while the token still verifies and the
    user is still in the collection, the middleware hands that user, with
    the password left out, to the next handler, and /me answers the user's
    id, name and address and no password. *)
Theorem login_token_opens_the_session
    (a a' : AuthEnv) (users : gmap UserId User.t) (reqbody : jsval)
    (r : Response) (token : string) :
  Auth.POST_login a users reqbody = (r, SetToken token) →
  token ≠ "" →
  (∀ id user, users !! id = Some user → verify a' (sign a id) = Ok id) →
  users_error a' = None →
  (∀ id user, users !! id = Some user → User._id user = id) →
  ∃ user, Auth.authenticateToken a' users (Some token) = inr user
          ∧ User.password user = None
          ∧ body r
            = JObj [("message", JStr "Logged in successfully");
                    ("user", JObj [("id", JId (User._id user));
                                   ("name", JStr (User.name user));
                                   ("email", JStr (User.email user))])]
          ∧ Auth.GET_me a' users (Some token)
            = mkResponse 200
                (JObj [("user", JObj [("_id", JId (User._id user));
                                      ("name", JStr (User.name user));
                                      ("email", JStr (User.email user))])]).
Proof.
  intros Hlogin Htoken Hjwt Hq Hwf.
  assert (Hbody : ∃ id user,
             users !! id = Some user ∧ token = sign a (User._id user)
             ∧ body r
               = JObj [("message", JStr "Logged in successfully");
                       ("user", JObj [("id", JId (User._id user));
                                      ("name", JStr (User.name user));
                                      ("email", JStr (User.email user))])]).
  { revert Hlogin. unfold Auth.POST_login.
    destruct (get_prop reqbody "email") as [email|]; [|discriminate].
    destruct (get_prop reqbody "password") as [pass|]; [|discriminate].
    destruct (negb (truthy email) || negb (truthy pass)); [discriminate|].
    destruct email; try discriminate.
    destruct (Auth.findOne a users _) as [[user|]|] eqn:Hfind; try discriminate.
    destruct (comparePassword a user pass) as [[|]|]; try discriminate.
    intros H. injection H as <- <-.
    destruct (findOne_found a users _ user Hfind) as [_ [id Hid]].
    exists id, user. auto. }
  destruct Hbody as (id & user & Hid & -> & Hbody).
  rewrite (Hwf id user Hid) in *.
  exists (User.mk id (User.name user) (User.email user) None).
  assert (Hauth : Auth.authenticateToken a' users (Some (sign a id))
                  = inr (User.mk id (User.name user) (User.email user) None)).
  { unfold Auth.authenticateToken, Auth.findById.
    destruct (sign a id) eqn:Hs; [contradiction|].
    rewrite <- Hs, (Hjwt id user Hid), Hq, Hid. rewrite (Hwf id user Hid).
    reflexivity. }
  split; [exact Hauth|]. split; [reflexivity|]. split; [exact Hbody|].
  unfold Auth.GET_me. rewrite Hauth. reflexivity.
Qed.

Lemma request_without_session_is_refused_witness :
  ∃ r, code r = 401
       ∧ ∀ req st, serve sample_auth calm sample_users (Some "session-7") req st
                   = (r, st).
Proof.
  apply (request_without_session_is_refused sample_auth calm sample_users
           (Some "session-7")).
  right; right; left. exists "session-7", "invalid signature".
  split; reflexivity.
Defined.

Lemma sample_users_lookup (id : UserId) (user : User.t) :
  sample_users !! id = Some user → id = 1%N ∧ user = alice.
Proof.
  unfold sample_users. intros H.
  apply lookup_singleton_Some in H as [<- <-]. split; reflexivity.
Qed.

Lemma login_refusals_are_uniform_witness :
  Auth.POST_login sample_auth sample_users
    (JObj [("email", JStr "Mallory@example.org"); ("password", JStr "guess")])
  = (Auth.refusal 401 "Invalid email or password", KeepCookie)
  ∧ Auth.POST_login sample_auth sample_users
      (JObj [("email", JStr "Alice@Example.org"); ("password", JStr "guess")])
    = (Auth.refusal 401 "Invalid email or password", KeepCookie).
Proof.
  apply (login_refusals_are_uniform sample_auth sample_users
           "Mallory@example.org" "Alice@Example.org" (JStr "guess")
           (JStr "guess") 1%N alice);
    try reflexivity; try discriminate.
  - intros id user H. apply sample_users_lookup in H as [_ ->]. discriminate.
  - intros id user H _. apply sample_users_lookup in H as [_ ->]. reflexivity.
Defined.

Lemma login_sets_cookie_only_for_matching_password_witness :
  code (mkResponse 200
          (JObj [("message", JStr "Logged in successfully");
                 ("user", JObj [("id", JNum 1); ("name", JStr "Alice");
                                ("email", JStr "alice@example.org")])])) = 200
  ∧ ∃ id user pass,
      sample_users !! id = Some user
      ∧ get_prop (JObj [("email", JStr "Alice@Example.org");
                        ("password", JStr "correct horse")]) "password"
        = Ok pass
      ∧ comparePassword sample_auth user pass = Ok true
      ∧ "session-1" = sign sample_auth (User._id user).
Proof.
  apply (login_sets_cookie_only_for_matching_password sample_auth sample_users
           (JObj [("email", JStr "Alice@Example.org");
                  ("password", JStr "correct horse")])).
  vm_compute. reflexivity.
Defined.

Lemma login_token_opens_the_session_witness :
  ∃ user, Auth.authenticateToken sample_auth sample_users (Some "session-1")
          = inr user
          ∧ User.password user = None
          ∧ body (mkResponse 200
                    (JObj [("message", JStr "Logged in successfully");
                           ("user", JObj [("id", JNum 1); ("name", JStr "Alice");
                                          ("email", JStr "alice@example.org")])]))
            = JObj [("message", JStr "Logged in successfully");
                    ("user", JObj [("id", JId (User._id user));
                                   ("name", JStr (User.name user));
                                   ("email", JStr (User.email user))])]
          ∧ Auth.GET_me sample_auth sample_users (Some "session-1")
            = mkResponse 200
                (JObj [("user", JObj [("_id", JId (User._id user));
                                      ("name", JStr (User.name user));
                                      ("email", JStr (User.email user))])]).
Proof.
  apply (login_token_opens_the_session sample_auth sample_auth sample_users
           (JObj [("email", JStr "Alice@Example.org");
                  ("password", JStr "correct horse")])).
  - vm_compute. reflexivity.
  - discriminate.
  - intros id user H. apply sample_users_lookup in H as [-> _]. reflexivity.
  - reflexivity.
  - intros id user H. apply sample_users_lookup in H as [-> ->]. reflexivity.
Defined.

(** * Properties of the client's polling *)

Section Polling.
Import Client.

(** With the attempts counted so far at most [maxAttempts], fuel beyond
    what is left of them changes nothing. *)
Lemma poll_fuel (net : nat → Req → Outcome) (id : ObjectId)
    (fuel k attempts requests sleeps : nat) (nav : bool) :
  attempts ≤ maxAttempts →
  maxAttempts < attempts + fuel →
  poll (fuel + k) net id attempts requests sleeps nav
  = poll fuel net id attempts requests sleeps nav.
Proof.
  revert attempts requests sleeps nav.
  induction fuel as [|fuel IH]; intros attempts requests sleeps nav Ha Hf;
    [lia|].
  simpl.
  destruct (getDocumentStatus _ _) as [[statusResponse|e] nav1];
    [|reflexivity].
  destruct (get_prop statusResponse "success"); [|reflexivity].
  destruct (negb (truthy a)); [reflexivity|].
  destruct (negb (truthy (read statusResponse "status"))); [reflexivity|].
  assert (Hrec : (if Nat.leb maxAttempts attempts
                  then mkPolled (Threw (new_Error "Processing timeout exceeded"))
                         (S requests) sleeps (nav || nav1)
                  else poll (fuel + k) net id (S attempts) (S requests)
                         (S sleeps) (nav || nav1))
                 = (if Nat.leb maxAttempts attempts
                    then mkPolled (Threw (new_Error "Processing timeout exceeded"))
                           (S requests) sleeps (nav || nav1)
                    else poll fuel net id (S attempts) (S requests)
                           (S sleeps) (nav || nav1))).
  { destruct (Nat.leb_spec maxAttempts attempts); [reflexivity|].
    apply IH; lia. }
  repeat (match goal with
          | |- context [match ?x with _ => _ end] => destruct x
          end; try reflexivity; try exact Hrec).
Qed.

(** The polling run with enough fuel never runs out of it, and what it
    costs is bounded by the attempts left. *)
Lemma poll_bound (net : nat → Req → Outcome) (id : ObjectId)
    (fuel attempts requests sleeps : nat) (nav : bool) :
  attempts ≤ maxAttempts →
  maxAttempts < attempts + fuel →
  ended (poll fuel net id attempts requests sleeps nav) ≠ OutOfFuel
  ∧ Client.requests (poll fuel net id attempts requests sleeps nav)
    ≤ requests + (maxAttempts - attempts) + 2
  ∧ Client.sleeps (poll fuel net id attempts requests sleeps nav)
    ≤ sleeps + (maxAttempts - attempts).
Proof.
  revert attempts requests sleeps nav.
  induction fuel as [|fuel IH]; intros attempts requests sleeps nav Ha Hf;
    [lia|].
  assert (Hrec : ∀ nav',
    ended (if Nat.leb maxAttempts attempts
           then mkPolled (Threw (new_Error "Processing timeout exceeded"))
                  (S requests) sleeps nav'
           else poll fuel net id (S attempts) (S requests) (S sleeps) nav')
    ≠ OutOfFuel
    ∧ Client.requests
        (if Nat.leb maxAttempts attempts
         then mkPolled (Threw (new_Error "Processing timeout exceeded"))
                (S requests) sleeps nav'
         else poll fuel net id (S attempts) (S requests) (S sleeps) nav')
      ≤ requests + (maxAttempts - attempts) + 2
    ∧ Client.sleeps
        (if Nat.leb maxAttempts attempts
         then mkPolled (Threw (new_Error "Processing timeout exceeded"))
                (S requests) sleeps nav'
         else poll fuel net id (S attempts) (S requests) (S sleeps) nav')
      ≤ sleeps + (maxAttempts - attempts)).
  { intros nav'. destruct (Nat.leb_spec maxAttempts attempts).
    - simpl. split; [discriminate|]. lia.
    - destruct (IH (S attempts) (S requests) (S sleeps) nav') as (H1 & H2 & H3);
        [lia | lia |].
      split; [exact H1|]. lia. }
  clear IH. simpl.
  repeat first
    [ exact (Hrec _)
    | solve [simpl; split; [discriminate | lia]]
    | match goal with
      | |- context [match ?x with _ => _ end] => destruct x
      end ].
Qed.

(** One round of the polling against the server while the record is
    still uploaded or processing. *)
Lemma poll_step_pending (o : nat → Oracle) (u : UserId) (st : nat → State)
    (id : ObjectId) (d : Document)
    (fuel attempts requests sleeps : nat) (nav : bool) :
  find_error (o requests) 0 = None →
  db (st requests) !! id = Some d →
  user d = u →
  status d = uploaded ∨ status d = processing →
  poll (S fuel) (served o u st) id attempts requests sleeps nav
  = if Nat.leb maxAttempts attempts
    then mkPolled (Threw (new_Error "Processing timeout exceeded"))
           (S requests) sleeps nav
    else poll fuel (served o u st) id (S attempts) (S requests) (S sleeps) nav.
Proof.
  intros Hfind Hd Hu Hs.
  unfold poll at 1; fold poll.
  unfold getDocumentStatus, served, exchange, Index.GET_status, findOne.
  rewrite Hfind, Hd. rewrite decide_True by exact Hu.
  destruct Hs as [-> | ->]; simpl; rewrite orb_false_r; reflexivity.
Qed.

Lemma poll_pending (o : nat → Oracle) (u : UserId) (st : nat → State)
    (id : ObjectId) (fuel attempts requests sleeps : nat) (nav : bool) :
  attempts + fuel = S maxAttempts →
  (∀ n, requests ≤ n < requests + S fuel - 1 →
        find_error (o n) 0 = None
        ∧ ∃ d, db (st n) !! id = Some d ∧ user d = u
               ∧ (status d = uploaded ∨ status d = processing)) →
  fuel ≠ 0 →
  poll fuel (served o u st) id attempts requests sleeps nav
  = mkPolled (Threw (new_Error "Processing timeout exceeded"))
      (requests + fuel) (sleeps + fuel - 1) nav.
Proof.
  revert attempts requests sleeps.
  induction fuel as [|fuel IH]; intros attempts requests sleeps Hsum Hall Hne;
    [contradiction|].
  destruct (Hall requests) as (Hfind & d & Hd & Hu & Hs); [lia|].
  rewrite (poll_step_pending o u st id d fuel attempts requests sleeps nav
             Hfind Hd Hu Hs).
  destruct (Nat.leb_spec maxAttempts attempts) as [Hle|Hlt].
  - assert (fuel = 0) as -> by (unfold maxAttempts in *; lia).
    f_equal; lia.
  - rewrite IH.
    + f_equal; lia.
    + lia.
    + intros n Hn. apply Hall. lia.
    + unfold maxAttempts in *. lia.
Qed.

End Polling.

(** Whatever the network answers, the polling settles: 31 rounds of fuel
    are enough and more change nothing; it makes at most 32 exchanges and
    waits at most 30 times. *)
Theorem polling_always_settles
    (net : nat → Client.Req → Client.Outcome) (documentId : option ObjectId)
    (fuel : nat) :
  31 ≤ fuel →
  Client.pollForSummary fuel net documentId
  = Client.pollForSummary 31 net documentId
  ∧ Client.ended (Client.pollForSummary fuel net documentId) ≠ Client.OutOfFuel
  ∧ Client.requests (Client.pollForSummary fuel net documentId) ≤ 32
  ∧ Client.sleeps (Client.pollForSummary fuel net documentId) ≤ 30.
Proof.
  intros Hfuel.
  assert (Heq : Client.pollForSummary fuel net documentId
                = Client.pollForSummary 31 net documentId).
  { destruct documentId as [id|]; [|reflexivity].
    unfold Client.pollForSummary.
    replace fuel with (31 + (fuel - 31)) by lia.
    apply poll_fuel; unfold Client.maxAttempts; lia. }
  split; [exact Heq|]. rewrite Heq.
  destruct documentId as [id|]; unfold Client.pollForSummary.
  - destruct (poll_bound net id 31 0 0 0 false) as (H1 & H2 & H3);
      [unfold Client.maxAttempts; lia .. |].
    unfold Client.maxAttempts in *. split; [exact H1|]. split; lia.
  - simpl. split; [discriminate|]. lia.
Qed.

Lemma polling_always_settles_witness :
  Client.pollForSummary 40 (Client.served (λ _, calm) 2%N (λ _, sample_state))
    (Some 9%N)
  = Client.pollForSummary 31 (Client.served (λ _, calm) 2%N (λ _, sample_state))
      (Some 9%N)
  ∧ Client.ended
      (Client.pollForSummary 40
         (Client.served (λ _, calm) 2%N (λ _, sample_state)) (Some 9%N))
    ≠ Client.OutOfFuel
  ∧ Client.requests
      (Client.pollForSummary 40
         (Client.served (λ _, calm) 2%N (λ _, sample_state)) (Some 9%N)) ≤ 32
  ∧ Client.sleeps
      (Client.pollForSummary 40
         (Client.served (λ _, calm) 2%N (λ _, sample_state)) (Some 9%N)) ≤ 30.
Proof.
  apply (polling_always_settles
           (Client.served (λ _, calm) 2%N (λ _, sample_state)) (Some 9%N) 40).
  lia.
Defined.

(** While the record stays uploaded or processing for the owner's first
    31 status queries, the polling gives up with "Processing timeout
    exceeded" after exactly 31 exchanges and 30 waits. *)
Theorem polling_times_out_on_a_stuck_record
    (o : nat → Oracle) (u : UserId) (st : nat → State) (id : ObjectId) :
  (∀ n, n < 31 →
        find_error (o n) 0 = None
        ∧ ∃ d, db (st n) !! id = Some d ∧ user d = u
               ∧ (status d = uploaded ∨ status d = processing)) →
  Client.pollForSummary 31 (Client.served o u st) (Some id)
  = Client.mkPolled
      (Client.Threw (Client.new_Error "Processing timeout exceeded"))
      31 30 false.
Proof.
  intros Hall. unfold Client.pollForSummary.
  rewrite (poll_pending o u st id 31 0 0 0 false).
  - reflexivity.
  - reflexivity.
  - intros n Hn. apply Hall. lia.
  - discriminate.
Qed.

Lemma polling_times_out_on_a_stuck_record_witness :
  Client.pollForSummary 31 (Client.served (λ _, calm) 1%N (λ _, busy_state))
    (Some 5%N)
  = Client.mkPolled
      (Client.Threw (Client.new_Error "Processing timeout exceeded"))
      31 30 false.
Proof.
  apply (polling_times_out_on_a_stuck_record (λ _, calm) 1%N (λ _, busy_state)
           5%N).
  intros n _. split; [reflexivity|].
  exists (set_status processing sample_document).
  split; [reflexivity|]. split; [reflexivity|]. right. reflexivity.
Defined.

Lemma truthy_wire (v : jsval) : truthy (Client.wire v) = truthy v.
Proof. destruct v; reflexivity. Qed.

Section Answers.
Import Client.

Variable o : nat → Oracle.
Variable u : UserId.
Variable st : nat → State.
Variable id : ObjectId.

(** The polling meets a completed record of the requester. *)
Lemma poll_completed (d : Document)
    (fuel attempts requests sleeps : nat) (nav : bool) :
  find_error (o requests) 0 = None →
  find_error (o (S requests)) 0 = None →
  db (st requests) !! id = Some d →
  db (st (S requests)) !! id = Some d →
  user d = u →
  status d = completed →
  truthy (summary d) = true →
  poll (S fuel) (served o u st) id attempts requests sleeps nav
  = mkPolled
      (Returned (wire (body (Index.GET_document (o (S requests)) u id
                               (st (S requests))))))
      (S (S requests)) sleeps nav
  ∧ read (read (wire (body (Index.GET_document (o (S requests)) u id
                              (st (S requests))))) "document") "summary"
    = wire (summary d).
Proof.
  intros Hf0 Hf1 Hd0 Hd1 Hu Hs Hsum.
  assert (Hts : truthy (wire (summary d)) = true)
    by (rewrite truthy_wire; exact Hsum).
  unfold poll at 1; fold poll.
  unfold getDocumentStatus, getDocument, served, exchange, Index.GET_status,
    Index.GET_document, findOne.
  rewrite Hf0, Hf1, Hd0, Hd1. rewrite decide_True by exact Hu.
  rewrite Hs. simpl.
  destruct (summary d) eqn:Hsd; try discriminate Hsum; simpl in *;
    rewrite ?Hts, ?orb_false_r; split; reflexivity.
Qed.

(** The polling meets a failed record of the requester whose error is
    the message [e]. *)
Lemma poll_failed (d : Document) (e : string)
    (fuel attempts requests sleeps : nat) (nav : bool) :
  find_error (o requests) 0 = None →
  db (st requests) !! id = Some d →
  user d = u →
  status d = failed →
  error d = JStr e →
  poll (S fuel) (served o u st) id attempts requests sleeps nav
  = mkPolled
      (Threw (new_Error (if String.eqb e "" then "Document processing failed"
                         else e)))
      (S requests) sleeps nav.
Proof.
  intros Hf Hd Hu Hs He.
  unfold poll at 1; fold poll.
  unfold getDocumentStatus, served, exchange, Index.GET_status, findOne.
  rewrite Hf, Hd. rewrite decide_True by exact Hu.
  rewrite Hs, He. simpl. rewrite orb_false_r.
  unfold Error_or. simpl. destruct (String.eqb e ""); reflexivity.
Qed.

(** The polling asks for an id under which the requester has no record. *)
Lemma poll_not_found
    (fuel attempts requests sleeps : nat) (nav : bool) :
  find_error (o requests) 0 = None →
  (∀ d, db (st requests) !! id = Some d → user d ≠ u) →
  poll (S fuel) (served o u st) id attempts requests sleeps nav
  = mkPolled (Threw (new_Error "Document not found")) (S requests) sleeps nav.
Proof.
  intros Hf Hnone.
  unfold poll at 1; fold poll.
  unfold getDocumentStatus, served, exchange, Index.GET_status, findOne.
  rewrite Hf.
  destruct (db (st requests) !! id) as [d|] eqn:Hd.
  - rewrite decide_False by (apply Hnone; reflexivity).
    simpl. rewrite orb_false_r. reflexivity.
  - simpl. rewrite orb_false_r. reflexivity.
Qed.

End Answers.

(** Against the server, the polling for a completed record of the
    requester with a summary takes two exchanges and no wait, and returns
    the answer of the document query, which carries the summary as it is
    stored. *)
Theorem polling_returns_the_stored_summary
    (o : nat → Oracle) (u : UserId) (st : nat → State) (id : ObjectId)
    (d : Document) :
  find_error (o 0) 0 = None →
  find_error (o 1) 0 = None →
  db (st 0) !! id = Some d →
  db (st 1) !! id = Some d →
  user d = u →
  status d = completed →
  truthy (summary d) = true →
  ∃ docResponse,
    Client.pollForSummary 31 (Client.served o u st) (Some id)
    = Client.mkPolled (Client.Returned docResponse) 2 0 false
    ∧ Client.read (Client.read docResponse "document") "summary"
      = Client.wire (summary d).
Proof.
  intros Hf0 Hf1 Hd0 Hd1 Hu Hs Hsum.
  destruct (poll_completed o u st id d 30 0 0 0 false Hf0 Hf1 Hd0 Hd1 Hu Hs Hsum)
    as [Hpoll Hread].
  eexists. split; [exact Hpoll | exact Hread].
Qed.

Lemma polling_returns_the_stored_summary_witness :
  ∃ docResponse,
    Client.pollForSummary 31
      (Client.served (λ _, calm) 2%N (λ _, sample_state)) (Some 9%N)
    = Client.mkPolled (Client.Returned docResponse) 2 0 false
    ∧ Client.read (Client.read docResponse "document") "summary"
      = Client.wire (summary done_document).
Proof.
  apply (polling_returns_the_stored_summary (λ _, calm) 2%N (λ _, sample_state)
           9%N done_document); reflexivity.
Defined.

(** Against the server, the polling for a failed record of the requester
    stops at the first exchange and throws the error message stored on
    the record, or "Document processing failed" when that is empty;
    whether the record also holds a summary makes no difference. *)
Theorem polling_throws_the_stored_error
    (o : nat → Oracle) (u : UserId) (st : nat → State) (id : ObjectId)
    (d : Document) (e : string) :
  find_error (o 0) 0 = None →
  db (st 0) !! id = Some d →
  user d = u →
  status d = failed →
  error d = JStr e →
  Client.pollForSummary 31 (Client.served o u st) (Some id)
  = Client.mkPolled
      (Client.Threw
         (Client.new_Error (if String.eqb e "" then "Document processing failed"
                            else e)))
      1 0 false.
Proof.
  intros Hf Hd Hu Hs He.
  exact (poll_failed o u st id d e 30 0 0 0 false Hf Hd Hu Hs He).
Qed.

(** Against the server, the polling for an id under which the requester
    has no record, be it missing or someone else's, stops at the first
    exchange and throws "Document not found", without sending the browser
    to the log-in page. *)
Theorem polling_reports_missing_and_foreign_alike
    (o : nat → Oracle) (u : UserId) (st : nat → State) (id : ObjectId) :
  find_error (o 0) 0 = None →
  (∀ d, db (st 0) !! id = Some d → user d ≠ u) →
  Client.pollForSummary 31 (Client.served o u st) (Some id)
  = Client.mkPolled (Client.Threw (Client.new_Error "Document not found"))
      1 0 false.
Proof.
  intros Hf Hnone.
  exact (poll_not_found o u st id 30 0 0 0 false Hf Hnone).
Qed.

Lemma polling_throws_the_stored_error_witness :
  Client.pollForSummary 31 (Client.served (λ _, calm) 1%N (λ _, failed_state))
    (Some 5%N)
  = Client.mkPolled
      (Client.Threw
         (Client.new_Error
            (if String.eqb "Failed to process document with NLP service" ""
             then "Document processing failed"
             else "Failed to process document with NLP service")))
      1 0 false.
Proof.
  apply (polling_throws_the_stored_error (λ _, calm) 1%N (λ _, failed_state)
           5%N failed_document "Failed to process document with NLP service");
    reflexivity.
Defined.

Lemma polling_reports_missing_and_foreign_alike_witness :
  Client.pollForSummary 31 (Client.served (λ _, calm) 1%N (λ _, sample_state))
    (Some 9%N)
  = Client.mkPolled (Client.Threw (Client.new_Error "Document not found"))
      1 0 false.
Proof.
  apply (polling_reports_missing_and_foreign_alike (λ _, calm) 1%N
           (λ _, sample_state) 9%N).
  - reflexivity.
  - intros d H. unfold sample_state in H. simpl in H.
    apply lookup_singleton_Some in H as [_ <-]. discriminate.
Defined.

(** For an answer with status 404, the two document calls of the client
    give their own {success: false, error: "Document not found"} only
    when the body of the answer has no truthy error entry; when it has
    one, as the answers of this server do, the interceptor has already
    replaced the error by one that carries the body's message and no
    response, and that error is thrown instead. *)
Theorem not_found_answer_with_message_is_thrown
    (r : Response) (id : ObjectId) :
  code r = 404 →
  Client.getDocumentStatus (Client.exchange r) id
  = (if truthy (Client.read (Client.wire (body r)) "error")
     then Client.Raised
            (Client.transformError
               (Client.new_Error
                  (Client.js_String (Client.read (Client.wire (body r)) "error"))))
     else Client.Fulfilled (JObj [("success", JBool false);
                                  ("error", JStr "Document not found")]),
     false)
  ∧ Client.getDocument (Client.exchange r) id
    = Client.getDocumentStatus (Client.exchange r) id.
Proof.
  intros Hcode.
  unfold Client.getDocumentStatus, Client.getDocument, Client.exchange.
  rewrite Hcode.
  change (Nat.leb 200 404 && Nat.ltb 404 300) with false.
  change (Nat.leb 400 404 && Nat.ltb 404 500) with true.
  cbv iota.
  unfold Client.api_get, Client.on_rejected.
  cbn [Client.response code].
  change (Nat.eqb 404 401) with false.
  cbn [andb].
  match goal with
  | |- context [Client.transformError ?e] =>
      assert (Ht : Client.transformError e
                   = if truthy (Client.read (Client.wire (body r)) "error")
                     then Client.new_Error
                            (Client.js_String
                               (Client.read (Client.wire (body r)) "error"))
                     else e)
  end.
  { unfold Client.transformError.
    cbn [Client.response Client.message Client.ecode body].
    destruct (truthy (Client.read (Client.wire (body r)) "error"));
      [reflexivity |].
    change (String.eqb ("Request failed with status code " +:+ pretty 404)
              "Network Error") with false.
    cbv iota.
    rewrite bool_decide_eq_false_2 by discriminate.
    reflexivity. }
  rewrite Ht. clear Ht.
  unfold Client.or_not_found.
  destruct (truthy (Client.read (Client.wire (body r)) "error"));
    cbn [Client.new_Error Client.response code];
    split; reflexivity.
Qed.

Lemma not_found_answer_with_message_is_thrown_witness :
  Client.getDocumentStatus (Client.exchange not_found) 9%N
  = (if truthy (Client.read (Client.wire (body not_found)) "error")
     then Client.Raised
            (Client.transformError
               (Client.new_Error
                  (Client.js_String
                     (Client.read (Client.wire (body not_found)) "error"))))
     else Client.Fulfilled (JObj [("success", JBool false);
                                  ("error", JStr "Document not found")]),
     false)
  ∧ Client.getDocument (Client.exchange not_found) 9%N
    = Client.getDocumentStatus (Client.exchange not_found) 9%N.
Proof.
  apply (not_found_answer_with_message_is_thrown not_found 9%N). reflexivity.
Defined.

(** * Properties of the drop callback of the upload component *)

Lemma server_types_are_valid_types (t : string) :
  t ∈ Index.allowedTypes ∨ t ∈ Routes.allowedTypes → t ∈ Widget.validTypes.
Proof.
  unfold Index.allowedTypes, Routes.allowedTypes.
  intros [H|H]; repeat (apply elem_of_cons in H as [-> | H]);
    try (apply (bool_decide_unpack _); vm_compute; exact I); inversion H.
Qed.

(** Handed a single file that one of the servers' upload filters admits,
    by its media type and size, the onDrop callback selects it, whatever
    its name and whatever was selected before. *)
Theorem onDrop_selects_what_the_server_admits
    (toLowerCase : string → string) (f : Widget.BrowserFile)
    (w : Widget.State) :
  Widget.type f ∈ Index.allowedTypes ∨ Widget.type f ∈ Routes.allowedTypes →
  (Widget.size f ≤ fileSize)%N →
  Widget.onDrop toLowerCase [f] w = (Widget.mkState (Some f) "", None).
Proof.
  intros Htype Hsize. unfold Widget.onDrop. simpl.
  rewrite (bool_decide_eq_true_2 _ (server_types_are_valid_types _ Htype)).
  simpl.
  destruct (N.ltb_spec (20 * 1024 * 1024) (Widget.size f)) as [Hlt|_];
    [unfold fileSize in Hsize; lia | reflexivity].
Qed.

Lemma onDrop_selects_what_the_server_admits_witness :
  Widget.onDrop (λ s, s) [Widget.mkFile "will.doc" "application/msword" 2048%N]
    (Widget.mkState None "")
  = (Widget.mkState (Some (Widget.mkFile "will.doc" "application/msword" 2048%N))
       "", None).
Proof.
  apply (onDrop_selects_what_the_server_admits (λ s, s)
           (Widget.mkFile "will.doc" "application/msword" 2048%N)
           (Widget.mkState None "")).
  - right. apply (bool_decide_unpack _). vm_compute. exact I.
  - vm_compute. discriminate.
Defined.

(** The onDrop callback is laxer than the server of index.js: handed a
    single file of at most 20 MB with a listed extension, or with one of
    its valid types, it selects the file even when the server refuses the
    file's media type and stores nothing for it. *)
Theorem onDrop_selects_what_the_server_refuses
    (toLowerCase : string → string) (f : Widget.BrowserFile)
    (w : Widget.State) (o : Oracle) (u : UserId) (ip : string) (st : State) :
  Widget.type f ∈ Widget.validTypes
  ∨ "." +:+ toLowerCase (Widget.last_segment (Widget.name f))
    ∈ Widget.validExtensions →
  Widget.type f ∉ Index.allowedTypes →
  (Widget.size f ≤ fileSize)%N →
  Widget.onDrop toLowerCase [f] w = (Widget.mkState (Some f) "", None)
  ∧ failure_response
      (Index.POST_upload o u ip (Some (Widget.part_of f)) st).1
  ∧ (Index.POST_upload o u ip (Some (Widget.part_of f)) st).2 = st.
Proof.
  intros Hvalid Hout Hsize. split.
  - unfold Widget.onDrop. simpl.
    assert (Hpass : negb (bool_decide (Widget.type f ∈ Widget.validTypes))
                    && negb (bool_decide
                               ("." +:+ toLowerCase
                                          (Widget.last_segment (Widget.name f))
                                ∈ Widget.validExtensions)) = false).
    { destruct Hvalid as [H|H]; rewrite (bool_decide_eq_true_2 _ H); simpl;
        [reflexivity | apply andb_false_r]. }
    rewrite Hpass.
    destruct (N.ltb_spec (20 * 1024 * 1024) (Widget.size f)) as [Hlt|_];
      [unfold fileSize in Hsize; lia | reflexivity].
  - assert (Hbad : unacceptable Index.allowedTypes (Some (Widget.part_of f)))
      by (left; exact Hout).
    unfold Index.POST_upload, Index.upload.
    destruct (single_unacceptable Index.fileFilter Index.filename
                Index.allowedTypes _ o (Some (Widget.part_of f)) (fs st)
                (λ _, eq_refl) Hbad)
      as [-> | [-> | ->]]; simpl; rewrite State_eta;
      (split; [|reflexivity]); unfold failure_response; simpl;
      (split; [lia|]); (split; [reflexivity|]);
      eexists; (split; [reflexivity | discriminate]).
Qed.

Lemma onDrop_selects_what_the_server_refuses_witness :
  Widget.onDrop (λ s, s)
    [Widget.mkFile "scan.pdf" "application/x-msdownload" 4096%N]
    (Widget.mkState None "")
  = (Widget.mkState
       (Some (Widget.mkFile "scan.pdf" "application/x-msdownload" 4096%N)) "",
     None)
  ∧ failure_response
      (Index.POST_upload calm 1%N "::1"
         (Some (Widget.part_of
                  (Widget.mkFile "scan.pdf" "application/x-msdownload" 4096%N)))
         sample_state).1
  ∧ (Index.POST_upload calm 1%N "::1"
       (Some (Widget.part_of
                (Widget.mkFile "scan.pdf" "application/x-msdownload" 4096%N)))
       sample_state).2 = sample_state.
Proof.
  apply (onDrop_selects_what_the_server_refuses (λ s, s)
           (Widget.mkFile "scan.pdf" "application/x-msdownload" 4096%N)
           (Widget.mkState None "") calm 1%N "::1" sample_state).
  - right. apply (bool_decide_unpack _). vm_compute. exact I.
  - apply (bool_decide_unpack _). vm_compute. exact I.
  - vm_compute. discriminate.
Defined.

(** The onDrop callback changes the selected file only when it is handed
    exactly one file of at most 20 MB with a valid type or extension, and
    then clears the error; in every other case it keeps the file selected
    before, and it throws only when it is handed no file at all. *)
Theorem onDrop_keeps_selection_on_refusal
    (toLowerCase : string → string) (files : list Widget.BrowserFile)
    (w w' : Widget.State) (exn : option string) :
  Widget.onDrop toLowerCase files w = (w', exn) →
  (Widget.file w' = Widget.file w
   ∨ ∃ f, files = [f]
          ∧ w' = Widget.mkState (Some f) ""
          ∧ (Widget.size f ≤ 20 * 1024 * 1024)%N
          ∧ (Widget.type f ∈ Widget.validTypes
             ∨ "." +:+ toLowerCase (Widget.last_segment (Widget.name f))
               ∈ Widget.validExtensions))
  ∧ (is_Some exn ↔ files = []).
Proof.
  unfold Widget.onDrop. destruct files as [|f [|g files]]; simpl.
  - intros H. injection H as <- <-. split; [left; reflexivity|].
    split; [reflexivity | eauto].
  - case_bool_decide as Ht; case_bool_decide as Hx; simpl;
      try (destruct (N.ltb_spec (20 * 1024 * 1024) (Widget.size f)) as [Hlt|Hle]);
      intros Heq; injection Heq as <- <-;
      (split; [|split; [intros [? ?]; discriminate | discriminate]]);
      try (left; reflexivity);
      right; exists f; auto.
  - intros H. injection H as <- <-. split; [left; reflexivity|].
    split; [intros [? ?]; discriminate | discriminate].
Qed.

Lemma onDrop_keeps_selection_on_refusal_witness :
  (Widget.file
     (Widget.mkState
        (Some (Widget.mkFile "will.doc" "application/msword" 2048%N))
        "Please upload a PDF, DOC, DOCX, TXT, or image file")
   = Widget.file
       (Widget.mkState
          (Some (Widget.mkFile "will.doc" "application/msword" 2048%N)) "")
   ∨ ∃ f, [Widget.mkFile "setup.exe" "application/x-msdownload" 4096%N] = [f]
          ∧ Widget.mkState
              (Some (Widget.mkFile "will.doc" "application/msword" 2048%N))
              "Please upload a PDF, DOC, DOCX, TXT, or image file"
            = Widget.mkState (Some f) ""
          ∧ (Widget.size f ≤ 20 * 1024 * 1024)%N
          ∧ (Widget.type f ∈ Widget.validTypes
             ∨ "." +:+ Widget.last_segment (Widget.name f)
               ∈ Widget.validExtensions))
  ∧ (is_Some (@None string)
     ↔ [Widget.mkFile "setup.exe" "application/x-msdownload" 4096%N] = []).
Proof.
  apply (onDrop_keeps_selection_on_refusal (λ s, s)
           [Widget.mkFile "setup.exe" "application/x-msdownload" 4096%N]
           (Widget.mkState
              (Some (Widget.mkFile "will.doc" "application/msword" 2048%N)) "")).
  vm_compute. reflexivity.
Defined.
